(** * act4brd: the service-network design core ([data_types/brd_graph.py])

    A shallow embedding of the bus/route/fleet data model, of the fleet
    assignment bookkeeping and of the service-network design orchestrator,
    followed by the properties established about them.

    Conventions of the embedding.
    - A Python [int] is a [Z].  A Python [float] is read as an exact rational
      ([Q]); where an [int] meets a [float] (edge weights, discomfort) both
      are rationals.  Numeric [==] is [Qeq_bool].
    - A [raise] is the [Raise] alternative of [result]; a method that mutates
      [self] returns the object after the call together with its result, so
      that the state left behind by a failing call is visible.
    - A [dict] is an association list in insertion order with unique keys:
      iterating it yields its KEYS in that order, as in Python.  The flag and
      route maps of an assignment are such dictionaries, keyed by [Bus].
    - A class becomes a module: its dataclass a record [t], its methods
      functions taking [self] first.
    - Of the graph library the embedding has what the core calls: the street
      network ([nx.Graph]) with [has_edge], [g[u][v]], [edges(data=True)] and
      [has_path]; the service network ([nx.MultiDiGraph]) with its
      constructor from an edge list, [add_edge] and [g[u][v][0]].  The
      shortest-path routine stays a parameter of the flow analysis.
    - The repository asks for no particular release of the graph library,
      and the releases differ in what the constructor of the service network
      does when its edge list raises; the functions that reach the
      constructor take the reaction of the library as a parameter. *)

From Stdlib Require Import List ZArith QArith String Bool Lia.
Import ListNotations.

Local Open Scope Z_scope.

(** ** Exceptions and results *)

Inductive exn : Type :=
| ValueError (msg : string)
| KeyError
| TypeError
| IndexError
| ZeroDivisionError
| NetworkXError
| NetworkXNoPath
| NodeNotFound.

Inductive result (A : Type) : Type :=
| Ok (a : A)
| Raise (e : exn).

Arguments Ok {A} a.
Arguments Raise {A} e.

Definition bind {A B : Type} (r : result A) (k : A -> result B) : result B :=
  match r with
  | Ok a => k a
  | Raise e => Raise e
  end.

Notation "x <- c ;; k" := (bind c (fun x => k))
  (at level 61, c at next level, right associativity).
Notation "' pat <- c ;; k" := (bind c (fun x => match x with pat => k end))
  (at level 61, pat pattern, c at next level, right associativity).

Definition is_ok {A : Type} (r : result A) : bool :=
  match r with Ok _ => true | Raise _ => false end.

(** A [for] loop whose body may raise, threading the loop-carried state. *)
Fixpoint for_each {A S : Type} (xs : list A) (body : S -> A -> result S) (s : S)
  : result S :=
  match xs with
  | [] => Ok s
  | x :: xs' => s' <- body s x ;; for_each xs' body s'
  end.

(** [sum(...)]: starts from [0] and adds from the left. *)
Definition py_sum_Z (l : list Z) : Z := fold_left Z.add l 0.
Definition py_sum_Q (l : list Q) : Q := fold_left Qplus l (0 # 1)%Q.

(** [zip(a, b, c)] stops with the shortest iterable. *)
Definition zip3 {A B C : Type} (a : list A) (b : list B) (c : list C)
  : list (A * B * C) :=
  combine (combine a b) c.

(** [zip(l[:-1], l[1:])]: the consecutive pairs of [l]. *)
Definition consecutive_pairs {A : Type} (l : list A) : list (A * A) :=
  combine (removelast l) (tl l).

(** ** Dictionaries *)

Section PyDict.
Context {K V : Type}.
Variable keqb : K -> K -> bool.

Definition pydict : Type := list (K * V).

Fixpoint dict_get (d : pydict) (k : K) : option V :=
  match d with
  | [] => None
  | (k', v) :: d' => if keqb k' k then Some v else dict_get d' k
  end.

(** [k in d] *)
Definition dict_contains (d : pydict) (k : K) : bool :=
  match dict_get d k with Some _ => true | None => false end.

(** [d[k]] *)
Definition dict_getitem (d : pydict) (k : K) : result V :=
  match dict_get d k with Some v => Ok v | None => Raise KeyError end.

(** [d[k] = v]: an existing key keeps its place (and its key object),
    a new key goes last. *)
Fixpoint dict_set (d : pydict) (k : K) (v : V) : pydict :=
  match d with
  | [] => [(k, v)]
  | (k', v') :: d' =>
      if keqb k' k then (k', v) :: d' else (k', v') :: dict_set d' k v
  end.

(** [iter(d)]: the keys, in insertion order. *)
Definition dict_iter (d : pydict) : list K := map fst d.

(** [{k: v for k in ks}] *)
Definition dict_fromkeys (ks : list K) (v : V) : pydict :=
  fold_left (fun d k => dict_set d k v) ks [].

(** [d1 == d2]: same size, and every item of [d1] is in [d2]. *)
Definition dict_eqb (veqb : V -> V -> bool) (d1 d2 : pydict) : bool :=
  (List.length d1 =? List.length d2)%nat &&
  forallb (fun kv => match dict_get d2 (fst kv) with
                     | Some v' => veqb (snd kv) v'
                     | None => false
                     end) d1.
End PyDict.

Arguments pydict K V : clear implicits.

Fixpoint list_eqb {A : Type} (eqb : A -> A -> bool) (l1 l2 : list A) : bool :=
  match l1, l2 with
  | [], [] => true
  | x :: l1', y :: l2' => eqb x y && list_eqb eqb l1' l2'
  | _, _ => false
  end.

Definition option_eqb {A : Type} (eqb : A -> A -> bool) (o1 o2 : option A) : bool :=
  match o1, o2 with
  | Some x, Some y => eqb x y
  | None, None => true
  | _, _ => false
  end.

(** ** Domain value types *)

Definition BUS_OPERATOR_SALARY : Z := 45028.

Module Bus.
Record t : Type := mk {
  name : string;
  capacity : Z;
  per_mile_emissions : Q;
  procurement_price : Z;
  annual_maintenance_cost : Z;
  discomfort_level : Z;
  avg_speed : Q;
  _uuid : string
}.

(** The dataclass [__eq__]: field by field, the hidden [_uuid] included. *)
Definition eqb (a b : t) : bool :=
  String.eqb (name a) (name b) &&
  (capacity a =? capacity b) &&
  Qeq_bool (per_mile_emissions a) (per_mile_emissions b) &&
  (procurement_price a =? procurement_price b) &&
  (annual_maintenance_cost a =? annual_maintenance_cost b) &&
  (discomfort_level a =? discomfort_level b) &&
  Qeq_bool (avg_speed a) (avg_speed b) &&
  String.eqb (_uuid a) (_uuid b).

(** [bool(bus)]: the class defines neither [__bool__] nor [__len__], so
    every instance is true. *)
Definition truthy (_ : t) : bool := true.
End Bus.

Module Route.
Record t : Type := mk {
  name : string;
  nodes : list Z
}.

Definition __post_init__ (self : t) : result unit :=
  if (List.length (nodes self) <? 2)%nat
  then Raise (ValueError "Route must contain at least 2 nodes")
  else Ok tt.

Definition __len__ (self : t) : Z := Z.of_nat (List.length (nodes self)) - 1.

Definition eqb (a b : t) : bool :=
  String.eqb (name a) (name b) && list_eqb Z.eqb (nodes a) (nodes b).
End Route.

(** [bus == route] for a [Bus] and a [Route]: each dataclass [__eq__] answers
    [NotImplemented] for an object of another class, so the comparison falls
    back to identity and is false. *)
Definition Bus_eq_Route (_ : Bus.t) (_ : Route.t) : bool := false.

Module ODFlow.
Record t : Type := mk {
  origin : Z;
  destination : Z;
  flow : Z
}.

Definition __post_init__ (self : t) : result unit :=
  if flow self <? 0 then Raise (ValueError "Flow must be non-negative")
  else if origin self =? destination self
  then Raise (ValueError "Origin and destination must be different")
  else Ok tt.

(** The dataclass [__eq__] (an [ODFlow] is hashable and serves as a key). *)
Definition eqb (a b : t) : bool :=
  (origin a =? origin b) && (destination a =? destination b) && (flow a =? flow b).
End ODFlow.

Module Operator.
Record t : Type := mk { annual_salary : Z }.

Definition default : t := mk BUS_OPERATOR_SALARY.

Definition __post_init__ (self : t) : result unit :=
  if annual_salary self <? 0
  then Raise (ValueError "Operator salary must be non-negative")
  else Ok tt.

Definition eqb (a b : t) : bool := annual_salary a =? annual_salary b.
End Operator.

(** ** Fleet composition *)

Module FleetComposition.
Record t : Type := mk {
  fleet : list Bus.t;
  operators : list Operator.t
}.

(** The constructor with its [__post_init__]: [operators=None] becomes one
    default operator per bus. *)
Definition init (fleet : list Bus.t) (operators : option (list Operator.t))
  : result t :=
  if (List.length fleet <? 1)%nat
  then Raise (ValueError "Fleet composition must include at least one bus")
  else match operators with
       | None => Ok (mk fleet (repeat Operator.default (List.length fleet)))
       | Some ops =>
           if negb (List.length ops =? List.length fleet)%nat
           then Raise (ValueError "Each bus must have a corresponding operator")
           else Ok (mk fleet ops)
       end.

Definition total_capacity (self : t) : Z :=
  py_sum_Z (map Bus.capacity (fleet self)).

Definition total_capital_cost (self : t) : Z :=
  py_sum_Z (map Bus.procurement_price (fleet self)).

Definition total_operational_cost (self : t) : Z :=
  py_sum_Z (map Operator.annual_salary (operators self)) +
  py_sum_Z (map Bus.annual_maintenance_cost (fleet self)).

Definition num_buses (self : t) : Z := Z.of_nat (List.length (fleet self)).

Definition eqb (a b : t) : bool :=
  list_eqb Bus.eqb (fleet a) (fleet b) &&
  list_eqb Operator.eqb (operators a) (operators b).
End FleetComposition.

(** ** Fleet assignment *)

Module FleetAssignment.
Record t : Type := mk {
  composition : FleetComposition.t;
  assigned_buses : pydict Bus.t bool;
  assigned_bus_routes : pydict Bus.t (option Route.t)
}.

(** The constructor with its [__post_init__]: a map left out ([None]) is
    built from the fleet, every bus unassigned and without a route. *)
Definition init (composition : FleetComposition.t)
    (assigned_buses : option (pydict Bus.t bool))
    (assigned_bus_routes : option (pydict Bus.t (option Route.t))) : t :=
  mk composition
     (match assigned_buses with
      | Some d => d
      | None => dict_fromkeys Bus.eqb (FleetComposition.fleet composition) false
      end)
     (match assigned_bus_routes with
      | Some d => d
      | None => dict_fromkeys Bus.eqb (FleetComposition.fleet composition) None
      end).

(** Both errors are [ValueError]s; their messages, which also name the bus,
    tell them apart. *)
Definition assign_bus_to_route (self : t) (bus : Bus.t) (route : Route.t)
  : t * result unit :=
  if negb (dict_contains Bus.eqb (assigned_buses self) bus)
  then (self, Raise (ValueError "Bus is not in the fleet."))
  else
    match dict_getitem Bus.eqb (assigned_buses self) bus with
    | Raise e => (self, Raise e)
    | Ok true => (self, Raise (ValueError "Bus is already assigned."))
    | Ok false =>
        (mk (composition self)
            (dict_set Bus.eqb (assigned_buses self) bus true)
            (dict_set Bus.eqb (assigned_bus_routes self) bus (Some route)),
         Ok tt)
    end.

(** The rows of [zip(xs, self.assigned_buses, self.assigned_bus_routes)]:
    both dictionaries are iterated, so [assigned] and [assigned_route] are
    keys, that is buses. *)
Definition rows {A : Type} (xs : list A) (self : t) : list (A * Bus.t * Bus.t) :=
  zip3 xs (dict_iter (assigned_buses self)) (dict_iter (assigned_bus_routes self)).

(** [if assigned and assigned_route == route] *)
Definition selected {A : Type} (route : Route.t) (row : A * Bus.t * Bus.t) : bool :=
  let '(_, assigned, assigned_route) := row in
  Bus.truthy assigned && Bus_eq_Route assigned_route route.

Definition row_item {A : Type} (row : A * Bus.t * Bus.t) : A :=
  let '(x, _, _) := row in x.

Definition capacity_for_route (self : t) (route : Route.t) : Z :=
  py_sum_Z (map (fun row => Bus.capacity (row_item row))
                (filter (selected route)
                        (rows (FleetComposition.fleet (composition self)) self))).

Definition capital_cost_for_route (self : t) (route : Route.t) : Z :=
  py_sum_Z (map (fun row => Bus.procurement_price (row_item row))
                (filter (selected route)
                        (rows (FleetComposition.fleet (composition self)) self))).

Definition operational_cost_for_route (self : t) (route : Route.t) : Z :=
  let gen_1 := rows (FleetComposition.operators (composition self)) self in
  let gen_2 := rows (FleetComposition.fleet (composition self)) self in
  py_sum_Z (map (fun row => Operator.annual_salary (row_item row))
                (filter (selected route) gen_1)) +
  py_sum_Z (map (fun row => Bus.annual_maintenance_cost (row_item row))
                (filter (selected route) gen_2)).

(** [zip(self.composition.fleet, self.assigned_buses)] with [if assigned]:
    again [assigned] is a key of the dictionary. *)
Definition total_emissions (self : t) : Q :=
  py_sum_Q (map (fun row => Bus.per_mile_emissions (fst row))
                (filter (fun row => Bus.truthy (snd row))
                        (combine (FleetComposition.fleet (composition self))
                                 (dict_iter (assigned_buses self))))).

Definition emissions_for_route (self : t) (route : Route.t) : Q :=
  let gen := rows (FleetComposition.fleet (composition self)) self in
  py_sum_Q (map (fun row => Bus.per_mile_emissions (row_item row))
                (filter (selected route) gen)).

Definition num_buses (self : t) : Z :=
  Z.of_nat (List.length (FleetComposition.fleet (composition self))).

(** [sum(self.assigned_buses)] adds the keys to [0]: with at least one bus
    in the dictionary this is [0 + bus], a [TypeError]. *)
Definition num_buses_assigned (self : t) : result Z :=
  match dict_iter (assigned_buses self) with
  | [] => Ok 0
  | _ :: _ => Raise TypeError
  end.

(** [all(self.assigned_buses)]: the truth of every key. *)
Definition buses_assigned (self : t) : bool :=
  forallb Bus.truthy (dict_iter (assigned_buses self)).

Definition num_buses_assigned_to_route (self : t) (route : Route.t) : Z :=
  let gen := rows (FleetComposition.fleet (composition self)) self in
  py_sum_Z (map (fun _ => 1) (filter (selected route) gen)).

(** The dataclass [__eq__]. *)
Definition eqb (a b : t) : bool :=
  FleetComposition.eqb (composition a) (composition b) &&
  dict_eqb Bus.eqb Bool.eqb (assigned_buses a) (assigned_buses b) &&
  dict_eqb Bus.eqb (option_eqb Route.eqb)
           (assigned_bus_routes a) (assigned_bus_routes b).
End FleetAssignment.

(** ** The graph library (networkx), as far as the core uses it *)

(** Edge attribute values and edge attribute dictionaries. *)
Inductive attrval : Type :=
| VNum (q : Q)
| VStr (s : string).

Definition attrval_eqb (a b : attrval) : bool :=
  match a, b with
  | VNum p, VNum q => Qeq_bool p q
  | VStr s, VStr t => String.eqb s t
  | _, _ => false
  end.

(** [bool(x)]: zero and the empty string are false. *)
Definition attrval_truthy (a : attrval) : bool :=
  match a with
  | VNum q => negb (Qeq_bool q (0 # 1)%Q)
  | VStr s => negb (String.eqb s "")
  end.

Definition attrs : Type := pydict string attrval.

(** [data[k]] *)
Definition attrs_getitem (data : attrs) (k : string) : result attrval :=
  dict_getitem String.eqb data k.

(** [old.update(new)] *)
Definition attrs_update (old new : attrs) : attrs :=
  fold_left (fun d kv => dict_set String.eqb d (fst kv) (snd kv)) new old.

(** A number out of an attribute: arithmetic on a string is a [TypeError]. *)
Definition as_number (a : attrval) : result Q :=
  match a with
  | VNum q => Ok q
  | VStr _ => Raise TypeError
  end.

(** [x / y] *)
Definition truediv (x y : Q) : result Q :=
  if Qeq_bool y (0 # 1)%Q then Raise ZeroDivisionError else Ok (x / y)%Q.

(** The objects found in the tuples that edge views yield and that edge
    lists take: nodes and keys (integers) and attribute dictionaries. *)
Inductive pyobj : Type :=
| PInt (n : Z)
| PDict (d : attrs).

Definition pytuple : Type := list pyobj.

(** The target list [u, v, key, data = item]. *)
Definition unpack4 (item : pytuple) : result (pyobj * pyobj * pyobj * pyobj) :=
  match item with
  | [u; v; key; data] => Ok (u, v, key, data)
  | _ => Raise (ValueError "wrong number of values to unpack (expected 4)")
  end.

Definition as_int (o : pyobj) : result Z :=
  match o with PInt n => Ok n | PDict _ => Raise TypeError end.

Definition as_dict (o : pyobj) : result attrs :=
  match o with PDict d => Ok d | PInt _ => Raise TypeError end.

(** [nx.Graph]: the undirected, weighted street network, as the list of its
    edges with their attribute dictionaries; its nodes are the end points of
    its edges. *)
Module Graph.
Definition t : Type := list (Z * Z * attrs).

Definition joins (u v : Z) (e : Z * Z * attrs) : bool :=
  let '(a, b, _) := e in
  ((a =? u) && (b =? v)) || ((a =? v) && (b =? u)).

Definition has_node (g : t) (n : Z) : bool :=
  existsb (fun e => let '(a, b, _) := e in (a =? n) || (b =? n)) g.

Definition has_edge (g : t) (u v : Z) : bool := existsb (joins u v) g.

(** [g[u][v]] *)
Definition getitem (g : t) (u v : Z) : result attrs :=
  match find (joins u v) g with
  | Some (_, _, d) => Ok d
  | None => Raise KeyError
  end.

(** [g.edges(data=True)]: one 3-tuple [(u, v, data)] per edge.  (No graph
    class of the library reports more: a multigraph adds the key only when
    asked with [keys=True].) *)
Definition edges_data (g : t) : list pytuple :=
  map (fun e => let '(u, v, d) := e in [PInt u; PInt v; PDict d]) g.

Definition neighbours (g : t) (n : Z) : list Z :=
  flat_map (fun e => let '(a, b, _) := e in
                     (if a =? n then [b] else []) ++ (if b =? n then [a] else [])) g.

Fixpoint reach (fuel : nat) (g : t) (seen : list Z) : list Z :=
  match fuel with
  | O => seen
  | S fuel' => reach fuel' g (seen ++ flat_map (neighbours g) seen)
  end.

(** [nx.has_path(g, source, target)] *)
Definition has_path (g : t) (source target : Z) : result bool :=
  if negb (has_node g source && has_node g target) then Raise NodeNotFound
  else Ok (existsb (Z.eqb target) (reach (List.length g) g [source])).

(** [g.add_edge(u, v, **attr)]: the attributes of an edge that is there are
    updated, a new edge is added last. *)
Fixpoint add_edge (g : t) (u v : Z) (attr : attrs) : t :=
  match g with
  | [] => [(u, v, attrs_update [] attr)]
  | e :: g' =>
      if joins u v e
      then (fst (fst e), snd (fst e), attrs_update (snd e) attr) :: g'
      else e :: add_edge g' u v attr
  end.
End Graph.

(** [nx.MultiDiGraph]: the directed service network with parallel edges. *)
Module MultiDiGraph.
Record edge : Type := mk_edge {
  src : Z;
  dst : Z;
  key : Z;
  data : attrs
}.

Definition t : Type := list edge.

Definition between (u v : Z) (e : edge) : bool := (src e =? u) && (dst e =? v).

Definition keys_between (g : t) (u v : Z) : list Z :=
  map key (filter (between u v) g).

(** [while key in keydict: key += 1] *)
Fixpoint first_free (fuel : nat) (k : Z) (ks : list Z) : Z :=
  match fuel with
  | O => k
  | S fuel' => if existsb (Z.eqb k) ks then first_free fuel' (k + 1) ks else k
  end.

(** [new_edge_key]: the number of parallel edges, or the next free key after it. *)
Definition new_edge_key (g : t) (u v : Z) : Z :=
  let ks := keys_between g u v in
  first_free (List.length ks) (Z.of_nat (List.length ks)) ks.

Fixpoint update_edge (g : t) (u v k : Z) (attr : attrs) : t :=
  match g with
  | [] => []
  | e :: g' =>
      if between u v e && (key e =? k)
      then mk_edge u v k (attrs_update (data e) attr) :: g'
      else e :: update_edge g' u v k attr
  end.

(** [g.add_edge(u, v, key, **attr)]: without a key a new parallel edge is
    added; with the key of an existing edge its attributes are updated. *)
Definition add_edge (g : t) (u v : Z) (k : option Z) (attr : attrs) : t :=
  match k with
  | None => g ++ [mk_edge u v (new_edge_key g u v) (attrs_update [] attr)]
  | Some k =>
      if existsb (Z.eqb k) (keys_between g u v)
      then update_edge g u v k attr
      else g ++ [mk_edge u v k (attrs_update [] attr)]
  end.

(** [g.add_edges_from(...)] over 4-tuples [(u, v, key, data)]. *)
Definition add_edges_from (g : t) (ebunch : list (pyobj * pyobj * pyobj * pyobj))
  : result t :=
  for_each ebunch
    (fun g e =>
       let '(u, v, k, dd) := e in
       u <- as_int u ;; v <- as_int v ;; k <- as_int k ;; dd <- as_dict dd ;;
       Ok (add_edge g u v (Some k) dd))
    g.

(** What the constructor [nx.MultiDiGraph(edges)] does when reading
    [edges] raises.  The repository asks for no particular release of the
    library, and the releases differ: up to 3.3 the failure is reported as a
    [NetworkXError]; from 3.4 on it is swallowed and the constructor
    returns. *)
Inductive on_bad_edge_list : Type :=
| Reports
| Swallows.

(** [nx.MultiDiGraph(edges)], where producing [edges] may raise.  The edge
    lists of the program raise, if at all, on their first item, before any
    edge is added: a failure that is swallowed leaves the graph empty. *)
Definition init (lib : on_bad_edge_list)
    (edges : result (list (pyobj * pyobj * pyobj * pyobj))) : result t :=
  match (ebunch <- edges ;; add_edges_from [] ebunch) with
  | Ok g => Ok g
  | Raise _ =>
      match lib with
      | Reports => Raise NetworkXError
      | Swallows => Ok []
      end
  end.

(** [g[u][v][0]] *)
Definition getitem0 (g : t) (u v : Z) : result attrs :=
  match find (fun e => between u v e && (key e =? 0)) g with
  | Some e => Ok (data e)
  | None => Raise KeyError
  end.
End MultiDiGraph.

(** [u, v, data = item] *)
Definition unpack3 (item : pytuple) : result (pyobj * pyobj * pyobj) :=
  match item with
  | [u; v; data] => Ok (u, v, data)
  | _ => Raise (ValueError "wrong number of values to unpack (expected 3)")
  end.

(** [l.index(x)] and [l.remove(x)]: the first equal element, [ValueError]
    when there is none. *)
Fixpoint list_index {A : Type} (eqb : A -> A -> bool) (l : list A) (x : A)
  : result nat :=
  match l with
  | [] => Raise (ValueError "x not in list")
  | y :: l' => if eqb y x then Ok O else i <- list_index eqb l' x ;; Ok (S i)
  end.

Fixpoint list_remove {A : Type} (eqb : A -> A -> bool) (l : list A) (x : A)
  : result (list A) :=
  match l with
  | [] => Raise (ValueError "x not in list")
  | y :: l' => if eqb y x then Ok l' else r <- list_remove eqb l' x ;; Ok (y :: r)
  end.

(** [l[i]] for [i >= 0] *)
Definition list_getitem {A : Type} (l : list A) (i : nat) : result A :=
  match nth_error l i with Some x => Ok x | None => Raise IndexError end.

(** [l[-1]] *)
Definition list_last {A : Type} (l : list A) : result A :=
  match rev l with x :: _ => Ok x | [] => Raise IndexError end.

(** [s.add(x)] on a set kept in first-insertion order. *)
Definition set_add (s : list attrval) (x : attrval) : list attrval :=
  if existsb (attrval_eqb x) s then s else s ++ [x].

(** ** Service network design *)

Module ServiceNetworkDesign.
Record t : Type := mk {
  routes : list Route.t;
  od_flows : list ODFlow.t;
  fleet_composition : FleetComposition.t;
  street_network_graph : Graph.t;
  fleet_assignments : list FleetAssignment.t;
  service_network_graphs : list MultiDiGraph.t
}.

Definition with_fleet_assignments (self : t) (l : list FleetAssignment.t) : t :=
  mk (routes self) (od_flows self) (fleet_composition self)
     (street_network_graph self) l (service_network_graphs self).

Definition with_service_network_graphs (self : t) (l : list MultiDiGraph.t) : t :=
  mk (routes self) (od_flows self) (fleet_composition self)
     (street_network_graph self) (fleet_assignments self) l.

Definition check (ok : bool) (msg : string) : result unit :=
  if ok then Ok tt else Raise (ValueError msg).

(** The validation of a freshly constructed design. *)
Definition __post_init__ (self : t) : result unit :=
  _ <- check (negb (List.length (routes self) <? 1)%nat)
             "At least one route must be provided" ;;
  _ <- check (negb (List.length (od_flows self) <? 1)%nat)
             "At least one OD flow must be provided" ;;
  _ <- check (negb (List.length (FleetComposition.fleet (fleet_composition self))
                    <? List.length (routes self))%nat)
             "At least one bus must be provided for each route" ;;
  _ <- check (List.length (nodup string_dec (map Route.name (routes self)))
              =? List.length (routes self))%nat
             "All routes must have a unique name" ;;
  _ <- for_each (od_flows self)
         (fun _ od_flow =>
            p <- Graph.has_path (street_network_graph self)
                   (ODFlow.origin od_flow) (ODFlow.destination od_flow) ;;
            check p "No path between OD pair")
         tt ;;
  _ <- for_each (routes self)
         (fun _ route =>
            for_each (consecutive_pairs (Route.nodes route))
              (fun _ uv =>
                 check (Graph.has_edge (street_network_graph self) (fst uv) (snd uv))
                       "No edge between nodes in route")
              tt)
         tt ;;
  weights <- for_each (Graph.edges_data (street_network_graph self))
         (fun acc item =>
            '(_, _, edge_data) <- unpack3 item ;;
            edge_data <- as_dict edge_data ;;
            Ok (acc && dict_contains String.eqb edge_data "weight"%string))
         true ;;
  check weights "All edges in the graph must have a 'weight' attribute".

(** The constructor: both histories start empty. *)
Definition init (routes : list Route.t) (od_flows : list ODFlow.t)
    (fleet_composition : FleetComposition.t) (street_network_graph : Graph.t)
  : result t :=
  let self := mk routes od_flows fleet_composition street_network_graph [] [] in
  _ <- __post_init__ self ;; Ok self.

(** [data.get('type') != 'distance'] *)
Definition not_distance (data : attrs) : bool :=
  match dict_get String.eqb data "type"%string with
  | Some ty => negb (attrval_eqb ty (VStr "distance"))
  | None => true
  end.

(** The generator handed to [nx.MultiDiGraph(...)]: every item of
    [edges(data=True)] is unpacked into four names. *)
Definition carried_edges (items : list pytuple)
  : result (list (pyobj * pyobj * pyobj * pyobj)) :=
  for_each items
    (fun acc item =>
       '(u, v, key, data) <- unpack4 item ;;
       d <- as_dict data ;;
       Ok (if not_distance d then acc ++ [(u, v, key, data)] else acc))
    [].

Section WithLibrary.
(** The release of the graph library the program runs on. *)
Variable lib : MultiDiGraph.on_bad_edge_list.

(** [nx.MultiDiGraph((u, v, key, data) for u, v, key, data in
    self.street_network_graph.edges(data=True) if data.get('type') !=
    'distance')] *)
Definition _get_empty_service_network_graph (self : t) : result MultiDiGraph.t :=
  MultiDiGraph.init lib (carried_edges (Graph.edges_data (street_network_graph self))).

(** [assignment.assigned_bus_routes[bus] == route] *)
Definition is_route (r : option Route.t) (route : Route.t) : bool :=
  match r with Some r' => Route.eqb r' route | None => false end.

(** The attributes of a service edge of [bus] on [route]. *)
Definition bus_edge_attrs (travel_time : Q) (route : Route.t) (bus : Bus.t) : attrs :=
  [("weight"%string, VNum travel_time);
   ("type"%string, VStr "bus");
   ("route_id"%string, VStr (Route.name route));
   ("discomfort"%string, VNum (inject_Z (Bus.discomfort_level bus)))].

(** The body of the innermost loop: one service edge for the pair [(u, v)]. *)
Definition add_bus_edge (self : t) (route : Route.t) (bus : Bus.t)
    (g : MultiDiGraph.t) (uv : Z * Z) : result MultiDiGraph.t :=
  let '(u, v) := uv in
  d <- Graph.getitem (street_network_graph self) u v ;;
  w <- attrs_getitem d "weight" ;;
  w <- as_number w ;;
  travel_time <- truediv w (Bus.avg_speed bus) ;;
  Ok (MultiDiGraph.add_edge g u v None (bus_edge_attrs travel_time route bus)).

(** The loops of [_update_service_network_graphs] over the routes, the
    buses of the fleet and the consecutive node pairs of the route. *)
Definition add_bus_edges (self : t) (assignment : FleetAssignment.t)
    (service_network_graph : MultiDiGraph.t) : result MultiDiGraph.t :=
  for_each (routes self)
    (fun g route =>
       for_each (FleetComposition.fleet (fleet_composition self))
         (fun g bus =>
            assigned <- dict_getitem Bus.eqb
                          (FleetAssignment.assigned_buses assignment) bus ;;
            if assigned then
              r <- dict_getitem Bus.eqb
                     (FleetAssignment.assigned_bus_routes assignment) bus ;;
              if is_route r route
              then for_each (consecutive_pairs (Route.nodes route))
                            (add_bus_edge self route bus) g
              else Ok g
            else Ok g)
         g)
    service_network_graph.

(** The graph built by [_update_service_network_graphs] before it is
    appended. *)
Definition build_service_network_graph (self : t) : result MultiDiGraph.t :=
  service_network_graph <- _get_empty_service_network_graph self ;;
  assignment <- list_last (fleet_assignments self) ;;
  add_bus_edges self assignment service_network_graph.

Definition _update_service_network_graphs (self : t) : t * result unit :=
  match build_service_network_graph self with
  | Ok g =>
      (with_service_network_graphs self (service_network_graphs self ++ [g]), Ok tt)
  | Raise e => (self, Raise e)
  end.

(** [assign_buses]: the routine is given [copy(self)], which has the same
    fields as [self]. *)
Definition assign_buses (self : t) (bus_assignment_routine : t -> result FleetAssignment.t)
  : t * result unit :=
  match bus_assignment_routine self with
  | Raise e => (self, Raise e)
  | Ok new_assignment =>
      if negb (FleetAssignment.buses_assigned new_assignment)
      then (self, Raise (ValueError
              "Not all buses have been assigned in this fleet assignment"))
      else _update_service_network_graphs
             (with_fleet_assignments self (fleet_assignments self ++ [new_assignment]))
  end.

End WithLibrary.

Definition remove_assignment (self : t) (assignment : FleetAssignment.t)
  : t * result unit :=
  match list_remove FleetAssignment.eqb (fleet_assignments self) assignment with
  | Ok l => (with_fleet_assignments self l, Ok tt)
  | Raise e => (self, Raise e)
  end.

Definition remove_all_assignments (self : t) : t :=
  with_fleet_assignments self [].

(** *** Design-level aggregates *)

Definition total_emissions (self : t) : Q :=
  py_sum_Q (map FleetAssignment.total_emissions (fleet_assignments self)).

Definition total_capital_cost (self : t) : Z :=
  py_sum_Z (map (fun assignment =>
                   FleetComposition.total_capital_cost
                     (FleetAssignment.composition assignment))
                (fleet_assignments self)).

Definition total_operational_cost (self : t) : Z :=
  py_sum_Z (flat_map (fun assignment =>
                        map (FleetAssignment.operational_cost_for_route assignment)
                            (routes self))
                     (fleet_assignments self)).

(** [satisfied_demand[od_flow] += x]: read the entry, then store the sum. *)
Definition add_to_entry (d : pydict ODFlow.t Z) (od_flow : ODFlow.t) (x : Z)
  : result (pydict ODFlow.t Z) :=
  v <- dict_getitem ODFlow.eqb d od_flow ;;
  Ok (dict_set ODFlow.eqb d od_flow (v + x)).

(** [od_flow.origin in route.nodes and od_flow.destination in route.nodes] *)
Definition route_covers (route : Route.t) (od_flow : ODFlow.t) : bool :=
  existsb (Z.eqb (ODFlow.origin od_flow)) (Route.nodes route) &&
  existsb (Z.eqb (ODFlow.destination od_flow)) (Route.nodes route).

Definition satisfied_demand (self : t) : result (pydict ODFlow.t Z) :=
  for_each (fleet_assignments self)
    (fun d assignment =>
       for_each (routes self)
         (fun d route =>
            for_each (od_flows self)
              (fun d od_flow =>
                 if route_covers route od_flow
                 then add_to_entry d od_flow
                        (FleetAssignment.capacity_for_route assignment route)
                 else Ok d)
              d)
         d)
    (dict_fromkeys ODFlow.eqb (od_flows self) 0).

(** The design-wide count of the buses assigned to a route. *)
Definition num_buses_assigned_to_route (self : t) (route : Route.t) : Z :=
  py_sum_Z (map (fun assignment =>
                   FleetAssignment.num_buses_assigned_to_route assignment route)
                (fleet_assignments self)).

(** *** Flow analysis *)

Record flow_analysis : Type := mk_flow_analysis {
  average_travel_time : Q;
  number_of_hops : Z;
  number_of_services : Z;
  transfers : Z;
  average_discomfort : Q
}.

(** The variables carried by the loop over the edges of the path. *)
Record walk : Type := mk_walk {
  total_time : Q;
  unique_routes : list attrval;
  w_transfers : Z;
  discomfort : Q;
  prev_route : option attrval;
  segments : Z
}.

Definition walk_start : walk := mk_walk (0 # 1)%Q [] 0 (0 # 1)%Q None 0.

(** [prev_route and prev_route != route_id] *)
Definition is_transfer (prev_route : option attrval) (route_id : attrval) : bool :=
  match prev_route with
  | None => false
  | Some p => attrval_truthy p && negb (attrval_eqb p route_id)
  end.

(** The body of the loop [for u, v in edges]. *)
Definition walk_edge (graph : MultiDiGraph.t) (s : walk) (uv : Z * Z) : result walk :=
  let '(u, v) := uv in
  edge_data <- MultiDiGraph.getitem0 graph u v ;;
  w <- attrs_getitem edge_data "weight" ;;
  w <- as_number w ;;
  let total_time := (total_time s + w)%Q in
  ty <- attrs_getitem edge_data "type" ;;
  if attrval_eqb ty (VStr "bus") then
    route_id <- attrs_getitem edge_data "route_id" ;;
    let unique_routes := set_add (unique_routes s) route_id in
    d <- attrs_getitem edge_data "discomfort" ;;
    d <- as_number d ;;
    let discomfort := (discomfort s + d)%Q in
    let transfers :=
      if is_transfer (prev_route s) route_id
      then w_transfers s + 1 else w_transfers s in
    Ok (mk_walk total_time unique_routes transfers discomfort
                (Some route_id) (segments s + 1))
  else
    Ok (mk_walk total_time (unique_routes s) (w_transfers s) (discomfort s)
                (prev_route s) (segments s)).

(** The record computed from a path of the graph. *)
Definition analyze_path (graph : MultiDiGraph.t) (path : list Z) : result flow_analysis :=
  let edges := consecutive_pairs path in
  let total_edges := Z.of_nat (List.length edges) in
  s <- for_each edges (walk_edge graph) walk_start ;;
  let avg_travel_time :=
    if total_edges >? 0 then (total_time s / inject_Z total_edges)%Q else (0 # 1)%Q in
  let avg_discomfort :=
    if segments s >? 0 then (discomfort s / inject_Z (segments s))%Q else (0 # 1)%Q in
  Ok (mk_flow_analysis avg_travel_time total_edges
        (Z.of_nat (List.length (unique_routes s))) (w_transfers s) avg_discomfort).

Section WithShortestPath.
(** [nx.shortest_path(graph, origin, destination, weight="weight")]: the
    library's routine; it raises [NetworkXNoPath] or [NodeNotFound] when
    it has no path to return. *)
Variable shortest_path : MultiDiGraph.t -> Z -> Z -> result (list Z).

Definition analyze_flow_for_assignment (self : t)
    (assignment : FleetAssignment.t) (od_flow : ODFlow.t) : result flow_analysis :=
  let origin := ODFlow.origin od_flow in
  let destination := ODFlow.destination od_flow in
  i <- list_index FleetAssignment.eqb (fleet_assignments self) assignment ;;
  graph <- list_getitem (service_network_graphs self) i ;;
  path <- shortest_path graph origin destination ;;
  analyze_path graph path.

(** [sum(analyze(...)[metric] * od_flow.flow for od_flow in self.od_flows)
    / sum(od_flow.flow for od_flow in self.od_flows)]: the numerator is
    evaluated first, then the denominator, then the division. *)
Definition demand_weighted (metric : flow_analysis -> Q) (self : t)
    (assignment : FleetAssignment.t) : result Q :=
  numerator <- for_each (od_flows self)
       (fun acc od_flow =>
          r <- analyze_flow_for_assignment self assignment od_flow ;;
          Ok (acc + metric r * inject_Z (ODFlow.flow od_flow))%Q)
       (0 # 1)%Q ;;
  truediv numerator (inject_Z (py_sum_Z (map ODFlow.flow (od_flows self)))).

Definition avg_travel_time_for_assignment : t -> FleetAssignment.t -> result Q :=
  demand_weighted average_travel_time.

Definition avg_discomfort_level_for_assignment : t -> FleetAssignment.t -> result Q :=
  demand_weighted average_discomfort.

Definition avg_transfers_for_assignment : t -> FleetAssignment.t -> result Q :=
  demand_weighted (fun r => inject_Z (transfers r)).

Definition avg_hops_for_assignment : t -> FleetAssignment.t -> result Q :=
  demand_weighted (fun r => inject_Z (number_of_hops r)).

(** [[f(assignment) for assignment in self.fleet_assignments]] *)
Definition per_assignment (f : t -> FleetAssignment.t -> result Q) (self : t)
  : result (list Q) :=
  for_each (fleet_assignments self)
    (fun acc assignment => q <- f self assignment ;; Ok (acc ++ [q])) [].

Definition avg_travel_times : t -> result (list Q) :=
  per_assignment avg_travel_time_for_assignment.

Definition avg_discomfort_levels : t -> result (list Q) :=
  per_assignment avg_discomfort_level_for_assignment.

Definition avg_transfers : t -> result (list Q) :=
  per_assignment avg_transfers_for_assignment.

Definition avg_hops : t -> result (list Q) :=
  per_assignment avg_hops_for_assignment.
End WithShortestPath.
End ServiceNetworkDesign.

(** ** The street grid ([graph.py]) *)

(** [range(n)] *)
Definition py_range (n : Z) : list Z := map Z.of_nat (seq 0 (Z.to_nat n)).

Definition cell_eqb (a b : Z * Z) : bool := (fst a =? fst b) && (snd a =? snd b).

(** The cells [(i, j)] in the order of the two nested loops. *)
Definition grid_cells (m n : Z) : list (Z * Z) :=
  flat_map (fun i => map (fun j => (i, j)) (py_range n)) (py_range m).

(** The first pair of loops: [node_mapping[(i, j)] = counter; counter += 1]. *)
Definition number_cell (st : Z * pydict (Z * Z) Z) (ij : Z * Z) : Z * pydict (Z * Z) Z :=
  (fst st + 1, dict_set cell_eqb (snd st) ij (fst st)).

Definition node_mapping (m n : Z) : pydict (Z * Z) Z :=
  snd (fold_left number_cell (grid_cells m n) (0, [])).

Definition unit_weight : attrs := [("weight"%string, VNum 1)].

(** The body of the second pair of loops: an edge to the cell above and an
    edge to the cell on the left. *)
Definition join_cell (node_mapping : pydict (Z * Z) Z) (g : Graph.t) (ij : Z * Z)
  : result Graph.t :=
  let '(i, j) := ij in
  g <- (if i >? 0 then
          a <- dict_getitem cell_eqb node_mapping (i, j) ;;
          b <- dict_getitem cell_eqb node_mapping (i - 1, j) ;;
          Ok (Graph.add_edge g a b unit_weight)
        else Ok g) ;;
  if j >? 0 then
    a <- dict_getitem cell_eqb node_mapping (i, j) ;;
    b <- dict_getitem cell_eqb node_mapping (i, j - 1) ;;
    Ok (Graph.add_edge g a b unit_weight)
  else Ok g.

(** [for u, v in g.edges(): g.edges[u, v]['length'] = 1] *)
Definition with_length (g : Graph.t) : Graph.t :=
  map (fun e => (fst (fst e), snd (fst e),
                 dict_set String.eqb (snd e) "length"%string (VNum 1))) g.

(** [pos]: the node of the cell [(x, y)] is drawn at [(y, -x)]. *)
Definition grid_pos (node_mapping : pydict (Z * Z) Z) : pydict Z (Z * Z) :=
  fold_left (fun pos item => dict_set Z.eqb pos (snd item)
                               (snd (fst item), - fst (fst item)))
            node_mapping [].

Definition create_street_grid (m n : Z) : result (Graph.t * pydict Z (Z * Z)) :=
  let node_mapping := node_mapping m n in
  g <- for_each (grid_cells m n) (join_cell node_mapping) [] ;;
  Ok (with_length g, grid_pos node_mapping).

(** ** The bus catalogue ([get_bus_generator])

    The five JSON files are read into five tables keyed by the bus type; the
    generator returned looks the type up in each of them.  The identity of
    the new bus (its [_uuid], drawn afresh for every instance) is passed in. *)
Definition bus_generator
    (emissions_data : pydict string Q) (prices_data : pydict string Z)
    (capacity_data : pydict string Z) (avg_mph_data : pydict string Q)
    (discomfort_level_data : pydict string Z)
    (bus_type : string) (uuid : string) : result Bus.t :=
  per_mile_emissions <- dict_getitem String.eqb emissions_data bus_type ;;
  capacity <- dict_getitem String.eqb capacity_data bus_type ;;
  procurement_price <- dict_getitem String.eqb prices_data bus_type ;;
  annual_maintenance_cost <- dict_getitem String.eqb prices_data bus_type ;;
  avg_speed <- dict_getitem String.eqb avg_mph_data bus_type ;;
  discomfort_level <- dict_getitem String.eqb discomfort_level_data bus_type ;;
  Ok (Bus.mk bus_type capacity per_mile_emissions procurement_price
             annual_maintenance_cost discomfort_level avg_speed uuid).

(** ** Edge weights by type ([utils/nx.py]) *)

(** [edge_data.get('type') == edge_type] *)
Definition has_type (edge_data : attrs) (edge_type : string) : bool :=
  match dict_get String.eqb edge_data "type"%string with
  | Some ty => attrval_eqb ty (VStr edge_type)
  | None => false
  end.

(** The loop over [graph.get_edge_data(u, v, default={}).items()]: the
    parallel edges from [u] to [v] in the order of their keys. *)
Fixpoint first_weight (parallel : list attrs) (edge_type : string) : option attrval :=
  match parallel with
  | [] => None
  | edge_data :: rest =>
      if has_type edge_data edge_type
      then dict_get String.eqb edge_data "weight"%string
      else first_weight rest edge_type
  end.

(** [get_edge_weight(graph, u, v, edge_type)]; [edge_type] defaults to
    ['distance']. *)
Definition get_edge_weight (graph : MultiDiGraph.t) (u v : Z) (edge_type : string)
  : option attrval :=
  first_weight (map MultiDiGraph.data (filter (MultiDiGraph.between u v) graph))
               edge_type.

(** ** The vocabulary of the specification

    The per-bus state of an assignment as the specification speaks of it:
    the flag and the route recorded FOR a bus, read through the keys. *)

Definition flag (a : FleetAssignment.t) (bus : Bus.t) : option bool :=
  dict_get Bus.eqb (FleetAssignment.assigned_buses a) bus.

Definition route_of (a : FleetAssignment.t) (bus : Bus.t) : option (option Route.t) :=
  dict_get Bus.eqb (FleetAssignment.assigned_bus_routes a) bus.

Definition in_fleet (a : FleetAssignment.t) (bus : Bus.t) : bool :=
  existsb (Bus.eqb bus) (FleetComposition.fleet (FleetAssignment.composition a)).

Definition is_assigned (a : FleetAssignment.t) (bus : Bus.t) : bool :=
  match flag a bus with Some true => true | _ => false end.

(** Every bus of the composition has its flag set. *)
Definition fully_assigned (a : FleetAssignment.t) : bool :=
  forallb (is_assigned a) (FleetComposition.fleet (FleetAssignment.composition a)).

(** The bus is assigned and its recorded route is [route]. *)
Definition serves (a : FleetAssignment.t) (route : Route.t) (bus : Bus.t) : bool :=
  is_assigned a bus &&
  match route_of a bus with
  | Some r => ServiceNetworkDesign.is_route r route
  | None => false
  end.

(** The buses, and the operators of the buses, that serve [route]. *)
Definition buses_serving (a : FleetAssignment.t) (route : Route.t) : list Bus.t :=
  filter (serves a route) (FleetComposition.fleet (FleetAssignment.composition a)).

Definition operators_serving (a : FleetAssignment.t) (route : Route.t)
  : list Operator.t :=
  map snd
      (filter (fun p => serves a route (fst p))
              (combine (FleetComposition.fleet (FleetAssignment.composition a))
                       (FleetComposition.operators (FleetAssignment.composition a)))).

(** The service legs of a design under an assignment: one per route, per
    bus serving the route and per consecutive node pair of the route, in the
    order of the routes, of the fleet and of the route. *)
Definition service_legs (routes : list Route.t) (fleet : list Bus.t)
    (a : FleetAssignment.t) : list (Route.t * Bus.t * (Z * Z)) :=
  flat_map
    (fun route =>
       flat_map
         (fun bus =>
            if serves a route bus
            then map (fun uv => (route, bus, uv)) (consecutive_pairs (Route.nodes route))
            else [])
         fleet)
    routes.

(** The weight of a street edge is a number. *)
Definition numeric_weight (e : Z * Z * attrs) : bool :=
  match dict_get String.eqb (snd e) "weight"%string with
  | Some (VStr _) => false
  | _ => true
  end.

(** An edge of the [m] by [n] grid: it carries [data] and joins the node of
    a cell, numbered row by row, to the node of the cell above it or of the
    cell on its left. *)
Definition is_grid_edge (m n : Z) (data : attrs) (e : Z * Z * attrs) : Prop :=
  snd e = data /\
  exists i j,
    0 <= i < m /\ 0 <= j < n /\ fst (fst e) = i * n + j /\
    ((0 < i /\ snd (fst e) = (i - 1) * n + j) \/
     (0 < j /\ snd (fst e) = i * n + (j - 1))).

(** The service edge of a leg: from [u] to [v], its weight the weight of the
    street edge divided by the average speed of the bus, tagged as a bus edge
    with the name of the route and the discomfort level of the bus. *)
Definition is_service_edge (street : Graph.t) (leg : Route.t * Bus.t * (Z * Z))
    (e : MultiDiGraph.edge) : Prop :=
  let '(route, bus, uv) := leg in
  MultiDiGraph.src e = fst uv /\ MultiDiGraph.dst e = snd uv /\
  exists d w,
    Graph.getitem street (fst uv) (snd uv) = Ok d /\
    attrs_getitem d "weight" = Ok (VNum w) /\
    Qeq_bool (Bus.avg_speed bus) 0 = false /\
    MultiDiGraph.data e
    = [("weight"%string, VNum (w / Bus.avg_speed bus));
       ("type"%string, VStr "bus");
       ("route_id"%string, VStr (Route.name route));
       ("discomfort"%string, VNum (inject_Z (Bus.discomfort_level bus)))].

(** The assignment keeps state for exactly the buses of its composition, as
    the constructor arranges when it builds the maps itself. *)
Definition keyed_by_fleet (a : FleetAssignment.t) : Prop :=
  forall bus,
    dict_contains Bus.eqb (FleetAssignment.assigned_buses a) bus = in_fleet a bus.

(** A caller issuing [assign_bus_to_route] calls one after the other, going on
    after a failed call: the assignment reached and the calls that succeeded. *)
Fixpoint run_calls (a : FleetAssignment.t) (calls : list (Bus.t * Route.t))
  : FleetAssignment.t * list (Bus.t * Route.t) :=
  match calls with
  | [] => (a, [])
  | c :: calls' =>
      let '(a', r) := FleetAssignment.assign_bus_to_route a (fst c) (snd c) in
      let '(a'', done) := run_calls a' calls' in
      (a'', if is_ok r then c :: done else done)
  end.

(** How often [bus] is the subject of one of the calls [cs]. *)
Definition times_assigned (bus : Bus.t) (cs : list (Bus.t * Route.t)) : nat :=
  List.length (filter (fun c => Bus.eqb (fst c) bus) cs).

(** What the walk of the flow analysis reads off one edge of the path: its
    weight and, for an edge tagged [bus], the route name and the discomfort. *)
Inductive leg : Type :=
| StreetLeg (w : Q)
| BusLeg (w : Q) (route_id : attrval) (d : Q).

Definition leg_weight (l : leg) : Q :=
  match l with StreetLeg w => w | BusLeg w _ _ => w end.

Definition bus_ids (legs : list leg) : list attrval :=
  flat_map (fun l => match l with BusLeg _ r _ => [r] | StreetLeg _ => [] end) legs.

Definition bus_discomforts (legs : list leg) : list Q :=
  flat_map (fun l => match l with BusLeg _ _ d => [d] | StreetLeg _ => [] end) legs.

Definition read_leg (graph : MultiDiGraph.t) (uv : Z * Z) : result leg :=
  edge_data <- MultiDiGraph.getitem0 graph (fst uv) (snd uv) ;;
  w <- attrs_getitem edge_data "weight" ;;
  w <- as_number w ;;
  ty <- attrs_getitem edge_data "type" ;;
  if attrval_eqb ty (VStr "bus") then
    route_id <- attrs_getitem edge_data "route_id" ;;
    d <- attrs_getitem edge_data "discomfort" ;;
    d <- as_number d ;;
    Ok (BusLeg w route_id d)
  else Ok (StreetLeg w).

Fixpoint read_legs (graph : MultiDiGraph.t) (pairs : list (Z * Z)) : result (list leg) :=
  match pairs with
  | [] => Ok []
  | uv :: pairs' =>
      l <- read_leg graph uv ;; ls <- read_legs graph pairs' ;; Ok (l :: ls)
  end.

(** The number of places where a route name differs from the one before it. *)
Fixpoint changes (ids : list attrval) : Z :=
  match ids with
  | a :: (b :: _) as rest => (if attrval_eqb a b then 0 else 1) + changes rest
  | _ => 0
  end.

(** The transfers the walk counts over the route names [ids] when the last
    route name it has seen is [prev]. *)
Fixpoint transfers_from (prev : option attrval) (ids : list attrval) : Z :=
  match ids with
  | [] => 0
  | b :: rest =>
      (if ServiceNetworkDesign.is_transfer prev b then 1 else 0)
      + transfers_from (Some b) rest
  end.

(** No two of the names are equal. *)
Fixpoint all_different (names : list attrval) : bool :=
  match names with
  | [] => true
  | x :: rest => negb (existsb (attrval_eqb x) rest) && all_different rest
  end.

(** The state of the walk after one more leg. *)
Definition walk_leg (s : ServiceNetworkDesign.walk) (l : leg) : ServiceNetworkDesign.walk :=
  match l with
  | StreetLeg w =>
      ServiceNetworkDesign.mk_walk
        (ServiceNetworkDesign.total_time s + w)%Q
        (ServiceNetworkDesign.unique_routes s) (ServiceNetworkDesign.w_transfers s)
        (ServiceNetworkDesign.discomfort s) (ServiceNetworkDesign.prev_route s)
        (ServiceNetworkDesign.segments s)
  | BusLeg w route_id d =>
      ServiceNetworkDesign.mk_walk
        (ServiceNetworkDesign.total_time s + w)%Q
        (set_add (ServiceNetworkDesign.unique_routes s) route_id)
        (if ServiceNetworkDesign.is_transfer (ServiceNetworkDesign.prev_route s) route_id
         then ServiceNetworkDesign.w_transfers s + 1
         else ServiceNetworkDesign.w_transfers s)
        (ServiceNetworkDesign.discomfort s + d)%Q
        (Some route_id)
        (ServiceNetworkDesign.segments s + 1)
  end.

(** ** Scenarios *)

Module Scenario.
Import ServiceNetworkDesign.

Definition bus1 : Bus.t :=
  Bus.mk "Bus1" 60 0.0148 300000 25000 1 12 "5f0c1a52-bus1".
Definition bus2 : Bus.t :=
  Bus.mk "Bus2" 90 0.022 750000 40000 1 12 "9a7d3e10-bus2".
(** A bus whose average speed is zero. *)
Definition bus_parked : Bus.t :=
  Bus.mk "Parked" 40 0.01 100000 9000 1 0 "c41b77e9-parked".
(** A bus that is in no fleet below. *)
Definition bus_stray : Bus.t :=
  Bus.mk "Stray" 10 0.5 1000 100 3 20 "0d2e6b8c-stray".

Definition route_1 : Route.t := Route.mk "route_1" [0; 1; 2].

Definition od_flow : ODFlow.t := ODFlow.mk 0 1 100.
Definition od_idle : ODFlow.t := ODFlow.mk 0 1 0.

Definition unit_edge : attrs :=
  [("weight"%string, VNum 1); ("distance"%string, VNum 1)].

(** The street network [0 - 1 - 2], unit weights. *)
Definition street : Graph.t := [(0, 1, unit_edge); (1, 2, unit_edge)].

Definition fleet : FleetComposition.t :=
  FleetComposition.mk [bus1; bus2] [Operator.default; Operator.default].

Definition design : t := mk [route_1] [od_flow] fleet street [] [].

(** The same design with one bus that does not move. *)
Definition fleet_parked : FleetComposition.t :=
  FleetComposition.mk [bus_parked] [Operator.default].
Definition design_parked : t := mk [route_1] [od_flow] fleet_parked street [] [].

(** A design with no demand at all. *)
Definition design_idle : t := mk [route_1] [od_idle] fleet street [] [].

Definition put (route : Route.t) (a : FleetAssignment.t) (bus : Bus.t)
  : FleetAssignment.t :=
  fst (FleetAssignment.assign_bus_to_route a bus route).

Definition fresh (network : t) : FleetAssignment.t :=
  FleetAssignment.init (fleet_composition network) None None.

(** Routines: every bus on [route]; only the first bus on [route_1]. *)
Definition routine_all (route : Route.t) (network : t) : result FleetAssignment.t :=
  Ok (fold_left (put route)
                (FleetComposition.fleet (fleet_composition network))
                (fresh network)).

Definition routine_first (network : t) : result FleetAssignment.t :=
  Ok (match FleetComposition.fleet (fleet_composition network) with
      | bus :: _ => put route_1 (fresh network) bus
      | [] => fresh network
      end).

Definition all_on_route_1 : FleetAssignment.t :=
  fold_left (put route_1) [bus1; bus2] (fresh design).
Definition first_on_route_1 : FleetAssignment.t := put route_1 (fresh design) bus1.
Definition parked_on_route_1 : FleetAssignment.t :=
  put route_1 (fresh design_parked) bus_parked.

(** A service graph of two bus legs, [0 -> 1] on the route named by the
    empty string and [1 -> 2] on route [A]. *)
Definition route_blank : Route.t := Route.mk "" [0; 1].
Definition route_A : Route.t := Route.mk "A" [1; 2].

Definition two_legs : MultiDiGraph.t :=
  MultiDiGraph.add_edge
    (MultiDiGraph.add_edge [] 0 1 None (bus_edge_attrs (1 / 12) route_blank bus1))
    1 2 None (bus_edge_attrs (1 / 12) route_A bus2).

(** Two parallel-free legs on properly named routes, for comparison. *)
Definition route_B : Route.t := Route.mk "B" [0; 1].
Definition two_named_legs : MultiDiGraph.t :=
  MultiDiGraph.add_edge
    (MultiDiGraph.add_edge [] 0 1 None (bus_edge_attrs (1 / 12) route_B bus1))
    1 2 None (bus_edge_attrs (1 / 12) route_A bus2).

(** The design of the two routes [""] and [A], one bus on each, with the
    graph of the two legs in its history. *)
Definition od_0_2_busy : ODFlow.t := ODFlow.mk 0 2 10.
Definition one_on_each : FleetAssignment.t :=
  put route_A (put route_blank (FleetAssignment.init fleet None None) bus1) bus2.
Definition design_blank : t :=
  mk [route_blank; route_A] [od_0_2_busy] fleet street [] [].
Definition design_blank_served : t :=
  mk [route_blank; route_A] [od_0_2_busy] fleet street [one_on_each] [two_legs].

(** A design whose graph history was filled in by hand. *)
Definition od_0_2 : ODFlow.t := ODFlow.mk 0 2 0.
Definition design_analysed : t :=
  mk [route_B; route_A] [od_0_2] fleet street [all_on_route_1] [two_named_legs].

(** A service graph of two street legs, carried over with a tag of their
    own. *)
Definition street_leg : attrs :=
  [("weight"%string, VNum 1); ("type"%string, VStr "street")].
Definition two_street_legs : MultiDiGraph.t :=
  [MultiDiGraph.mk_edge 0 1 0 street_leg; MultiDiGraph.mk_edge 1 2 0 street_leg].

(** The bus catalogue of two types. *)
Definition emissions_table : pydict string Q :=
  [("Standard"%string, 0.0148%Q); ("Articulated"%string, 0.022%Q)].
Definition prices_table : pydict string Z :=
  [("Standard"%string, 300000); ("Articulated"%string, 750000)].
Definition capacity_table : pydict string Z :=
  [("Standard"%string, 60); ("Articulated"%string, 90)].
Definition avg_mph_table : pydict string Q :=
  [("Standard"%string, 12%Q); ("Articulated"%string, 11%Q)].
Definition discomfort_table : pydict string Z :=
  [("Standard"%string, 1); ("Articulated"%string, 2)].

(** The only path from [0] to [2] in the two-leg graphs. *)
Definition path_0_1_2 (_ : MultiDiGraph.t) (_ _ : Z) : result (list Z) :=
  Ok [0; 1; 2].

(** The bus legs of [route_1] with both buses of the fleet on it, and the
    designs they are derived for. *)
Definition route_1_legs : MultiDiGraph.t :=
  [MultiDiGraph.mk_edge 0 1 0 (bus_edge_attrs (1 / 12) route_1 bus1);
   MultiDiGraph.mk_edge 1 2 0 (bus_edge_attrs (1 / 12) route_1 bus1);
   MultiDiGraph.mk_edge 0 1 1 (bus_edge_attrs (1 / 12) route_1 bus2);
   MultiDiGraph.mk_edge 1 2 1 (bus_edge_attrs (1 / 12) route_1 bus2)].
Definition design_served : t :=
  mk [route_1] [od_flow] fleet street [all_on_route_1] [route_1_legs].
Definition design_idle_served : t :=
  mk [route_1] [od_idle] fleet street [all_on_route_1] [route_1_legs].

(** The shortest path from [0] to [1] in [route_1_legs]. *)
Definition path_0_1 (_ : MultiDiGraph.t) (_ _ : Z) : result (list Z) :=
  Ok [0; 1].

(** An assignment constructed with dictionaries of its own, which hold the
    stray bus and none of the fleet. *)
Definition strays_only : FleetAssignment.t :=
  FleetAssignment.init fleet (Some [(bus_stray, false)]) (Some [(bus_stray, None)]).
End Scenario.

(** * Properties *)

(** ** Dictionaries under an equivalence on keys *)

Section DictFacts.
Context {K V : Type} (keqb : K -> K -> bool).
Hypothesis keqb_refl : forall k, keqb k k = true.
Hypothesis keqb_sym : forall a b, keqb a b = true -> keqb b a = true.
Hypothesis keqb_trans :
  forall a b c, keqb a b = true -> keqb b c = true -> keqb a c = true.

Lemma keqb_comm (a b : K) : keqb a b = keqb b a.
Proof using keqb_sym.
  destruct (keqb a b) eqn:Hab, (keqb b a) eqn:Hba; auto.
  - apply keqb_sym in Hab. congruence.
  - apply keqb_sym in Hba. congruence.
Qed.

Lemma keqb_congr (a b c : K) : keqb a b = true -> keqb a c = keqb b c.
Proof using keqb_sym keqb_trans.
  intros Hab.
  destruct (keqb a c) eqn:Hac, (keqb b c) eqn:Hbc; auto.
  - apply keqb_sym in Hab. rewrite (keqb_trans _ _ _ Hab Hac) in Hbc. discriminate.
  - rewrite (keqb_trans _ _ _ Hab Hbc) in Hac. discriminate.
Qed.

Lemma dict_get_congr (d : pydict K V) (k k' : K) :
  keqb k k' = true -> dict_get keqb d k = dict_get keqb d k'.
Proof using keqb_sym keqb_trans.
  intros Hk. induction d as [|[k0 v0] d IH]; simpl; auto.
  now rewrite (keqb_comm k0 k), (keqb_congr k k' k0 Hk), (keqb_comm k' k0), IH.
Qed.

Lemma dict_get_set_eq (d : pydict K V) (k k' : K) (v : V) :
  keqb k k' = true -> dict_get keqb (dict_set keqb d k v) k' = Some v.
Proof using keqb_sym keqb_trans.
  intros Hk. induction d as [|[k0 v0] d IH]; simpl.
  - now rewrite Hk.
  - destruct (keqb k0 k) eqn:H0; simpl.
    + now rewrite (keqb_trans _ _ _ H0 Hk).
    + rewrite (keqb_comm k0 k'), <- (keqb_congr k k' k0 Hk), (keqb_comm k k0), H0.
      exact IH.
Qed.

Lemma dict_get_set_neq (d : pydict K V) (k k' : K) (v : V) :
  keqb k k' = false -> dict_get keqb (dict_set keqb d k v) k' = dict_get keqb d k'.
Proof using keqb_sym keqb_trans.
  intros Hk. induction d as [|[k0 v0] d IH]; simpl.
  - now rewrite Hk.
  - destruct (keqb k0 k) eqn:H0; simpl.
    + rewrite (keqb_congr k0 k k' H0), Hk. reflexivity.
    + destruct (keqb k0 k'); auto.
Qed.

Lemma dict_contains_set (d : pydict K V) (k k' : K) (v : V) :
  dict_contains keqb (dict_set keqb d k v) k' = keqb k k' || dict_contains keqb d k'.
Proof using keqb_sym keqb_trans.
  unfold dict_contains. destruct (keqb k k') eqn:Hk.
  - now rewrite dict_get_set_eq.
  - now rewrite dict_get_set_neq.
Qed.

Lemma dict_contains_fold_set (ks : list K) (v : V) (d : pydict K V) (k : K) :
  dict_contains keqb (fold_left (fun d x => dict_set keqb d x v) ks d) k
  = existsb (keqb k) ks || dict_contains keqb d k.
Proof using keqb_sym keqb_trans.
  revert d. induction ks as [|x ks IH]; intros d; simpl; auto.
  rewrite IH, dict_contains_set, (keqb_comm k x).
  destruct (keqb x k), (existsb (keqb k) ks); reflexivity.
Qed.

Lemma dict_contains_fromkeys (ks : list K) (v : V) (k : K) :
  dict_contains keqb (dict_fromkeys keqb ks v) k = existsb (keqb k) ks.
Proof using keqb_sym keqb_trans.
  unfold dict_fromkeys. rewrite dict_contains_fold_set. simpl.
  apply orb_false_r.
Qed.
End DictFacts.

(** ** Equality of buses is an equivalence *)

Lemma Bus_eqb_refl (b : Bus.t) : Bus.eqb b b = true.
Proof.
  unfold Bus.eqb.
  now rewrite !String.eqb_refl, !Z.eqb_refl, !Qeq_bool_refl.
Qed.

Lemma Bus_eqb_sym (a b : Bus.t) : Bus.eqb a b = true -> Bus.eqb b a = true.
Proof.
  unfold Bus.eqb. rewrite !andb_true_iff.
  intros [[[[[[[H1 H2] H3] H4] H5] H6] H7] H8].
  rewrite (String.eqb_sym (Bus.name b)), (String.eqb_sym (Bus._uuid b)).
  rewrite (Z.eqb_sym (Bus.capacity b)), (Z.eqb_sym (Bus.procurement_price b)),
    (Z.eqb_sym (Bus.annual_maintenance_cost b)), (Z.eqb_sym (Bus.discomfort_level b)).
  repeat split; auto using Qeq_bool_sym.
Qed.

Lemma Bus_eqb_trans (a b c : Bus.t) :
  Bus.eqb a b = true -> Bus.eqb b c = true -> Bus.eqb a c = true.
Proof.
  unfold Bus.eqb. rewrite !andb_true_iff.
  intros [[[[[[[H1 H2] H3] H4] H5] H6] H7] H8] [[[[[[[G1 G2] G3] G4] G5] G6] G7] G8].
  apply String.eqb_eq in H1, H8, G1, G8. apply Z.eqb_eq in H2, H4, H5, H6, G2, G4, G5, G6.
  repeat split.
  - apply String.eqb_eq. congruence.
  - apply Z.eqb_eq. congruence.
  - eauto using Qeq_bool_trans.
  - apply Z.eqb_eq. congruence.
  - apply Z.eqb_eq. congruence.
  - apply Z.eqb_eq. congruence.
  - eauto using Qeq_bool_trans.
  - apply String.eqb_eq. congruence.
Qed.

(** Side conditions of the dictionary lemmas at bus keys. *)
Ltac bus_eq :=
  try solve [ exact Bus_eqb_refl | exact Bus_eqb_sym | exact Bus_eqb_trans
            | assumption | reflexivity ].

(** ** [assign_bus_to_route] *)

Section AssignBusToRoute.
Import FleetAssignment.

Lemma flag_contains (a : t) (bus : Bus.t) :
  dict_contains Bus.eqb (assigned_buses a) bus
  = match flag a bus with Some _ => true | None => false end.
Proof. reflexivity. Qed.

Lemma flag_congr (a : t) (b b' : Bus.t) :
  Bus.eqb b b' = true -> flag a b = flag a b'.
Proof. apply dict_get_congr; bus_eq. Qed.

Lemma assign_unknown (a : t) (bus : Bus.t) (route : Route.t) :
  flag a bus = None ->
  assign_bus_to_route a bus route = (a, Raise (ValueError "Bus is not in the fleet.")).
Proof.
  intros H. unfold assign_bus_to_route. now rewrite flag_contains, H.
Qed.

Lemma assign_already (a : t) (bus : Bus.t) (route : Route.t) :
  flag a bus = Some true ->
  assign_bus_to_route a bus route = (a, Raise (ValueError "Bus is already assigned.")).
Proof.
  intros H. unfold assign_bus_to_route, dict_getitem.
  rewrite flag_contains. unfold flag in H. unfold flag. now rewrite H.
Qed.

Lemma assign_fresh (a : t) (bus : Bus.t) (route : Route.t) :
  flag a bus = Some false ->
  assign_bus_to_route a bus route
  = (mk (composition a)
        (dict_set Bus.eqb (assigned_buses a) bus true)
        (dict_set Bus.eqb (assigned_bus_routes a) bus (Some route)),
     Ok tt).
Proof.
  intros H. unfold assign_bus_to_route, dict_getitem.
  rewrite flag_contains. unfold flag in H. unfold flag. now rewrite H.
Qed.

(** The three ways a call can go, by the state of the bus. *)
Lemma assign_cases (a : t) (bus : Bus.t) (route : Route.t) :
  (flag a bus = None /\
   assign_bus_to_route a bus route = (a, Raise (ValueError "Bus is not in the fleet.")))
  \/ (flag a bus = Some true /\
      assign_bus_to_route a bus route = (a, Raise (ValueError "Bus is already assigned.")))
  \/ (flag a bus = Some false /\
      assign_bus_to_route a bus route
      = (mk (composition a)
            (dict_set Bus.eqb (assigned_buses a) bus true)
            (dict_set Bus.eqb (assigned_bus_routes a) bus (Some route)),
         Ok tt)).
Proof.
  destruct (flag a bus) as [[|]|] eqn:H.
  - right; left. auto using assign_already.
  - right; right. auto using assign_fresh.
  - left. auto using assign_unknown.
Qed.

Lemma assign_raise_unchanged (a a' : t) (bus : Bus.t) (route : Route.t) (e : exn) :
  assign_bus_to_route a bus route = (a', Raise e) -> a' = a.
Proof.
  destruct (assign_cases a bus route) as [[_ H]|[[_ H]|[_ H]]];
    rewrite H; intros E; inversion E; reflexivity.
Qed.

Lemma assign_keeps_assigned (a : t) (bus b : Bus.t) (route : Route.t) :
  is_assigned a b = true ->
  is_assigned (fst (assign_bus_to_route a bus route)) b = true.
Proof.
  intros Hb.
  destruct (assign_cases a bus route) as [[_ H]|[[_ H]|[_ H]]]; rewrite H; simpl; auto.
  unfold is_assigned, flag in *. simpl.
  destruct (Bus.eqb bus b) eqn:E.
  - rewrite dict_get_set_eq; bus_eq.
  - rewrite dict_get_set_neq; bus_eq.
Qed.

Lemma assign_keeps_keyed (a : t) (bus : Bus.t) (route : Route.t) :
  keyed_by_fleet a -> keyed_by_fleet (fst (assign_bus_to_route a bus route)).
Proof.
  intros Hk.
  destruct (assign_cases a bus route) as [[_ H]|[[_ H]|[Hf H]]]; rewrite H; simpl; auto.
  intros b.
  change (dict_contains Bus.eqb (dict_set Bus.eqb (assigned_buses a) bus true) b
          = in_fleet a b).
  rewrite dict_contains_set; bus_eq.
  destruct (Bus.eqb bus b) eqn:E; simpl.
  - rewrite <- (Hk b), flag_contains, <- (flag_congr a bus b E), Hf. reflexivity.
  - apply Hk.
Qed.

Lemma init_keyed_by_fleet (c : FleetComposition.t) : keyed_by_fleet (init c None None).
Proof.
  intros b. unfold in_fleet. simpl.
  apply dict_contains_fromkeys; bus_eq.
Qed.

(** Once a bus is assigned, no later call for it succeeds. *)
Lemma run_calls_assigned (calls : list (Bus.t * Route.t)) (a : t) (b : Bus.t) :
  is_assigned a b = true -> times_assigned b (snd (run_calls a calls)) = O.
Proof.
  revert a. induction calls as [|[bus route] calls IH]; intros a Hb; simpl; auto.
  pose proof (assign_keeps_assigned a bus b route Hb) as Hb'.
  destruct (assign_bus_to_route a bus route) as [a' r] eqn:E. simpl in Hb'.
  specialize (IH a' Hb').
  destruct (run_calls a' calls) as [a'' done]. simpl in *.
  destruct r as [[]|e]; simpl; auto.
  unfold times_assigned. simpl.
  destruct (Bus.eqb bus b) eqn:Ebus; auto.
  exfalso.
  unfold is_assigned in Hb. rewrite <- (flag_congr a bus b Ebus) in Hb.
  destruct (flag a bus) as [[|]|] eqn:Hf; try discriminate.
  rewrite (assign_already a bus route Hf) in E. discriminate.
Qed.

Lemma run_calls_at_most_once (calls : list (Bus.t * Route.t)) (a : t) (b : Bus.t) :
  (times_assigned b (snd (run_calls a calls)) <= 1)%nat.
Proof.
  revert a. induction calls as [|[bus route] calls IH]; intros a; simpl; auto.
  destruct (assign_cases a bus route) as [[_ H]|[[_ H]|[Hf H]]]; rewrite H.
  - specialize (IH a). destruct (run_calls a calls). exact IH.
  - specialize (IH a). destruct (run_calls a calls). exact IH.
  - set (a' := mk _ _ _).
    pose proof (IH a') as IHa'.
    pose proof (run_calls_assigned calls a' b) as Hz.
    destruct (run_calls a' calls) as [a'' done]. simpl in *.
    unfold times_assigned in *. simpl.
    destruct (Bus.eqb bus b) eqn:Ebus; auto.
    simpl. rewrite Hz; auto.
    unfold is_assigned, flag, a'. simpl.
    rewrite dict_get_set_eq; bus_eq.
Qed.
End AssignBusToRoute.

(** C8 as stated fails on an assignment constructed with dictionaries of its
    own: the flag dictionary holds the stray bus and none of the fleet, so
    the stray bus, which is not part of the composition, is assigned, and a
    bus of the composition that is not assigned is refused. *)
Lemma assign_bus_to_route_accepts_stray :
  Scenario.strays_only
  = FleetAssignment.init Scenario.fleet
      (Some [(Scenario.bus_stray, false)]) (Some [(Scenario.bus_stray, None)]) /\
  in_fleet Scenario.strays_only Scenario.bus_stray = false /\
  snd (FleetAssignment.assign_bus_to_route
         Scenario.strays_only Scenario.bus_stray Scenario.route_1) = Ok tt /\
  is_assigned
    (fst (FleetAssignment.assign_bus_to_route
            Scenario.strays_only Scenario.bus_stray Scenario.route_1))
    Scenario.bus_stray = true /\
  in_fleet Scenario.strays_only Scenario.bus1 = true /\
  is_assigned Scenario.strays_only Scenario.bus1 = false /\
  exists msg,
    FleetAssignment.assign_bus_to_route Scenario.strays_only Scenario.bus1 Scenario.route_1
    = (Scenario.strays_only, Raise (ValueError msg)).
Proof.
  vm_compute. repeat split. eexists. reflexivity.
Qed.

(** C8, as amended.  On every assignment, [assign_bus_to_route(bus, route)]
    decides by the flag dictionary: it raises a [ValueError] and changes
    nothing when the bus is not a key of the dictionary and when the flag of
    the bus is set; otherwise it sets the flag and records the route, leaving
    every other bus as it was, and a second call for the same bus fails; over
    any sequence of calls a bus is assigned at most once.  On an assignment
    whose flag dictionary is keyed by exactly the buses of its composition,
    as the constructor builds it when the dictionaries are left out, the
    buses that are not keys are the buses that are not part of the
    composition, and the call leaves the dictionary keyed that way. *)
Theorem assign_bus_to_route_at_most_once
    (a : FleetAssignment.t) (bus : Bus.t) (route : Route.t) :
  (flag a bus = None ->
   exists msg,
     FleetAssignment.assign_bus_to_route a bus route = (a, Raise (ValueError msg))) /\
  (is_assigned a bus = true ->
   exists msg,
     FleetAssignment.assign_bus_to_route a bus route = (a, Raise (ValueError msg))) /\
  (flag a bus = Some false ->
   exists a',
     FleetAssignment.assign_bus_to_route a bus route = (a', Ok tt) /\
     flag a' bus = Some true /\
     route_of a' bus = Some (Some route) /\
     (forall b, Bus.eqb bus b = false ->
                flag a' b = flag a b /\ route_of a' b = route_of a b) /\
     (forall route',
        exists msg,
          FleetAssignment.assign_bus_to_route a' bus route'
          = (a', Raise (ValueError msg)))) /\
  (forall calls b, (times_assigned b (snd (run_calls a calls)) <= 1)%nat) /\
  (keyed_by_fleet a ->
   (flag a bus = None <-> in_fleet a bus = false) /\
   keyed_by_fleet (fst (FleetAssignment.assign_bus_to_route a bus route))).
Proof.
  split; [|split; [|split; [|split]]].
  - intros Hf. eexists. now apply assign_unknown.
  - intros Has. eexists. apply assign_already.
    unfold is_assigned in Has. destruct (flag a bus) as [[|]|]; congruence.
  - intros Hf.
    pose proof (assign_fresh a bus route Hf) as E.
    eexists. split; [exact E|].
    assert (Hset : flag (FleetAssignment.mk (FleetAssignment.composition a)
                     (dict_set Bus.eqb (FleetAssignment.assigned_buses a) bus true)
                     (dict_set Bus.eqb (FleetAssignment.assigned_bus_routes a) bus
                        (Some route))) bus = Some true).
    { unfold flag. simpl. apply dict_get_set_eq; bus_eq. apply Bus_eqb_refl. }
    repeat split; auto.
    + unfold route_of. simpl. apply dict_get_set_eq; bus_eq. apply Bus_eqb_refl.
    + unfold flag. simpl. apply dict_get_set_neq; bus_eq.
    + unfold route_of. simpl. apply dict_get_set_neq; bus_eq.
    + intros route'. eexists. now apply assign_already.
  - intros calls b. apply run_calls_at_most_once.
  - intros Hk. split; [|now apply assign_keeps_keyed].
    specialize (Hk bus). rewrite flag_contains in Hk.
    destruct (flag a bus), (in_fleet a bus); split; congruence.
Qed.

Lemma assign_bus_to_route_at_most_once_witness :
  keyed_by_fleet (Scenario.fresh Scenario.design) /\
  (exists a',
     FleetAssignment.assign_bus_to_route
       (Scenario.fresh Scenario.design) Scenario.bus1 Scenario.route_1 = (a', Ok tt) /\
     flag a' Scenario.bus1 = Some true /\
     route_of a' Scenario.bus1 = Some (Some Scenario.route_1)) /\
  in_fleet (Scenario.fresh Scenario.design) Scenario.bus_stray = false /\
  (exists msg,
     FleetAssignment.assign_bus_to_route
       (Scenario.fresh Scenario.design) Scenario.bus_stray Scenario.route_1
     = (Scenario.fresh Scenario.design, Raise (ValueError msg))) /\
  (exists msg,
     FleetAssignment.assign_bus_to_route
       Scenario.all_on_route_1 Scenario.bus1 Scenario.route_1
     = (Scenario.all_on_route_1, Raise (ValueError msg))).
Proof.
  pose proof (init_keyed_by_fleet (ServiceNetworkDesign.fleet_composition Scenario.design))
    as Hk.
  split; [exact Hk|]. split; [|split; [reflexivity|split]].
  - destruct (assign_bus_to_route_at_most_once
                (Scenario.fresh Scenario.design) Scenario.bus1 Scenario.route_1)
      as (_ & _ & H & _).
    destruct H as (a' & E & Hf & Hr & _); [reflexivity|].
    exists a'. auto.
  - destruct (assign_bus_to_route_at_most_once
                (Scenario.fresh Scenario.design) Scenario.bus_stray Scenario.route_1)
      as (H & _ & _ & _ & Hkeyed).
    apply H. apply (proj1 (Hkeyed Hk)). reflexivity.
  - destruct (assign_bus_to_route_at_most_once
                Scenario.all_on_route_1 Scenario.bus1 Scenario.route_1)
      as (_ & H & _).
    apply H. reflexivity.
Defined.

(** ** The assignment history and the graph history *)

Section Histories.
Import ServiceNetworkDesign.
Variable lib : MultiDiGraph.on_bad_edge_list.

(** [all(...)] over the keys of the flag dictionary never fails. *)
Lemma buses_assigned_always (a : FleetAssignment.t) :
  FleetAssignment.buses_assigned a = true.
Proof.
  unfold FleetAssignment.buses_assigned.
  induction (dict_iter (FleetAssignment.assigned_buses a)); simpl; auto.
Qed.

Lemma assign_buses_accepts (self : t) (routine : t -> result FleetAssignment.t)
    (a : FleetAssignment.t) :
  routine self = Ok a ->
  assign_buses lib self routine
  = _update_service_network_graphs lib
      (with_fleet_assignments self (fleet_assignments self ++ [a])).
Proof.
  intros H. unfold assign_buses. now rewrite H, buses_assigned_always.
Qed.

Lemma assign_buses_cases (self : t) (routine : t -> result FleetAssignment.t) :
  (exists e, routine self = Raise e /\ assign_buses lib self routine = (self, Raise e))
  \/ (exists a e,
        routine self = Ok a /\
        build_service_network_graph lib
          (with_fleet_assignments self (fleet_assignments self ++ [a])) = Raise e /\
        assign_buses lib self routine
        = (with_fleet_assignments self (fleet_assignments self ++ [a]), Raise e))
  \/ (exists a g,
        routine self = Ok a /\
        build_service_network_graph lib
          (with_fleet_assignments self (fleet_assignments self ++ [a])) = Ok g /\
        assign_buses lib self routine
        = (mk (routes self) (od_flows self) (fleet_composition self)
              (street_network_graph self)
              (fleet_assignments self ++ [a])
              (service_network_graphs self ++ [g]), Ok tt)).
Proof.
  destruct (routine self) as [a|e] eqn:Hr.
  - rewrite (assign_buses_accepts self routine a Hr).
    unfold _update_service_network_graphs.
    destruct (build_service_network_graph lib _) as [g|e] eqn:Hb.
    + right; right. exists a, g. auto.
    + right; left. exists a, e. auto.
  - left. exists e. unfold assign_buses. rewrite Hr. auto.
Qed.

Lemma list_remove_spec {A : Type} (eqb : A -> A -> bool) (l l' : list A) (x : A) :
  list_remove eqb l x = Ok l' ->
  exists front y back,
    l = front ++ y :: back /\ l' = front ++ back /\
    eqb y x = true /\ forallb (fun z => negb (eqb z x)) front = true.
Proof.
  revert l'. induction l as [|y l IH]; intros l'; simpl; [discriminate|].
  destruct (eqb y x) eqn:E.
  - intros H. inversion H; subst. exists [], y, l'. auto.
  - destruct (list_remove eqb l x) as [r|e]; simpl; [|discriminate].
    intros H. inversion H; subst.
    destruct (IH r eq_refl) as (front & z & back & -> & -> & Hz & Hfront).
    exists (y :: front), z, back. simpl. rewrite E, Hfront. auto.
Qed.
End Histories.

(** C9.  [remove_assignment] and [remove_all_assignments] change the
    assignment history only: the graph history (and every other field) is
    what it was; [remove_all_assignments] empties the assignment history,
    and a [remove_assignment] that returns has dropped the first entry equal
    to its argument, one that raises has dropped nothing. *)
Theorem removal_leaves_graph_history
    (self : ServiceNetworkDesign.t) (assignment : FleetAssignment.t) :
  let after := fst (ServiceNetworkDesign.remove_assignment self assignment) in
  let cleared := ServiceNetworkDesign.remove_all_assignments self in
  ServiceNetworkDesign.service_network_graphs after
  = ServiceNetworkDesign.service_network_graphs self /\
  ServiceNetworkDesign.service_network_graphs cleared
  = ServiceNetworkDesign.service_network_graphs self /\
  after = ServiceNetworkDesign.with_fleet_assignments self
            (ServiceNetworkDesign.fleet_assignments after) /\
  cleared = ServiceNetworkDesign.with_fleet_assignments self [] /\
  match snd (ServiceNetworkDesign.remove_assignment self assignment) with
  | Ok _ =>
      exists front y back,
        ServiceNetworkDesign.fleet_assignments self = front ++ y :: back /\
        ServiceNetworkDesign.fleet_assignments after = front ++ back /\
        FleetAssignment.eqb y assignment = true /\
        forallb (fun z => negb (FleetAssignment.eqb z assignment)) front = true
  | Raise _ => after = self
  end.
Proof.
  unfold ServiceNetworkDesign.remove_assignment, ServiceNetworkDesign.remove_all_assignments.
  destruct (list_remove FleetAssignment.eqb
              (ServiceNetworkDesign.fleet_assignments self) assignment) as [l|e] eqn:E;
    simpl; repeat split; auto.
  - now apply list_remove_spec.
  - destruct self; reflexivity.
Qed.

(** C1, as amended.  A call of [assign_buses] that returns has appended
    exactly the assignment returned by the routine to the assignment history
    and exactly the graph derived for it to the graph history, and nothing
    else has changed; if the two histories had equal length before the call
    they have equal length after it, with the new assignment and the new
    graph at the same index. *)
Theorem assign_buses_appends_one_of_each
    (lib : MultiDiGraph.on_bad_edge_list)
    (self self' : ServiceNetworkDesign.t)
    (routine : ServiceNetworkDesign.t -> result FleetAssignment.t) :
  ServiceNetworkDesign.assign_buses lib self routine = (self', Ok tt) ->
  exists a g,
    routine self = Ok a /\
    ServiceNetworkDesign.build_service_network_graph lib
      (ServiceNetworkDesign.with_fleet_assignments self
         (ServiceNetworkDesign.fleet_assignments self ++ [a])) = Ok g /\
    ServiceNetworkDesign.fleet_assignments self'
    = ServiceNetworkDesign.fleet_assignments self ++ [a] /\
    ServiceNetworkDesign.service_network_graphs self'
    = ServiceNetworkDesign.service_network_graphs self ++ [g] /\
    ServiceNetworkDesign.routes self' = ServiceNetworkDesign.routes self /\
    ServiceNetworkDesign.od_flows self' = ServiceNetworkDesign.od_flows self /\
    ServiceNetworkDesign.fleet_composition self'
    = ServiceNetworkDesign.fleet_composition self /\
    ServiceNetworkDesign.street_network_graph self'
    = ServiceNetworkDesign.street_network_graph self /\
    (List.length (ServiceNetworkDesign.fleet_assignments self)
     = List.length (ServiceNetworkDesign.service_network_graphs self) ->
     List.length (ServiceNetworkDesign.fleet_assignments self')
     = List.length (ServiceNetworkDesign.service_network_graphs self') /\
     let i := List.length (ServiceNetworkDesign.fleet_assignments self) in
     nth_error (ServiceNetworkDesign.fleet_assignments self') i = Some a /\
     nth_error (ServiceNetworkDesign.service_network_graphs self') i = Some g).
Proof.
  intros H.
  destruct (assign_buses_cases lib self routine)
    as [(e & _ & E)|[(a & e & _ & _ & E)|(a & g & Hr & Hb & E)]];
    rewrite E in H; inversion H; subst; clear H.
  exists a, g. simpl. repeat (split; [solve [auto]|]).
  intros Hlen. repeat split.
  - rewrite !length_app. simpl. lia.
  - rewrite nth_error_app2, Nat.sub_diag; auto.
  - rewrite Hlen, nth_error_app2, Nat.sub_diag; auto.
Qed.

Lemma assign_buses_appends_one_of_each_witness :
  ServiceNetworkDesign.__post_init__ Scenario.design = Ok tt /\
  ServiceNetworkDesign.assign_buses MultiDiGraph.Swallows Scenario.design
    (Scenario.routine_all Scenario.route_1)
  = (Scenario.design_served, Ok tt) /\
  exists a g,
    Scenario.routine_all Scenario.route_1 Scenario.design = Ok a /\
    ServiceNetworkDesign.fleet_assignments Scenario.design_served
    = ServiceNetworkDesign.fleet_assignments Scenario.design ++ [a] /\
    ServiceNetworkDesign.service_network_graphs Scenario.design_served
    = ServiceNetworkDesign.service_network_graphs Scenario.design ++ [g] /\
    nth_error (ServiceNetworkDesign.fleet_assignments Scenario.design_served) 0
    = Some a /\
    nth_error (ServiceNetworkDesign.service_network_graphs Scenario.design_served) 0
    = Some g /\
    List.length g = 4%nat.
Proof.
  assert (E : ServiceNetworkDesign.assign_buses MultiDiGraph.Swallows Scenario.design
                (Scenario.routine_all Scenario.route_1)
              = (Scenario.design_served, Ok tt))
    by (vm_compute; reflexivity).
  split; [vm_compute; reflexivity|].
  split; [exact E|].
  destruct (assign_buses_appends_one_of_each _ _ _ _ E)
    as (a & g & Hr & _ & Hfa & Hsg & _ & _ & _ & _ & Haligned).
  destruct (Haligned eq_refl) as (_ & Ha & Hg).
  exists a, g. repeat (split; [assumption|]).
  simpl in Hsg. inversion Hsg. reflexivity.
Defined.

(** C1 as stated fails on a design whose assignment history was emptied:
    on the accepted design of the test-suite, with a library that lets the
    call return, every bus is put on the route, the history is cleared with
    [remove_all_assignments], and every bus is assigned again.  Both calls
    of [assign_buses] return, the routine's assignment is fully assigned, and
    afterwards the assignment history has one entry and the graph history
    two: the new assignment is at index 0, the new graph at index 1. *)
Lemma assign_buses_after_removal_misaligned :
  let lib := MultiDiGraph.Swallows in
  let routine := Scenario.routine_all Scenario.route_1 in
  let first := ServiceNetworkDesign.assign_buses lib Scenario.design routine in
  let cleared := ServiceNetworkDesign.remove_all_assignments (fst first) in
  let second := ServiceNetworkDesign.assign_buses lib cleared routine in
  ServiceNetworkDesign.__post_init__ Scenario.design = Ok tt /\
  snd first = Ok tt /\
  routine cleared = Ok Scenario.all_on_route_1 /\
  fully_assigned Scenario.all_on_route_1 = true /\
  snd second = Ok tt /\
  ServiceNetworkDesign.fleet_assignments (fst second) = [Scenario.all_on_route_1] /\
  ServiceNetworkDesign.service_network_graphs (fst second)
  = [Scenario.route_1_legs; Scenario.route_1_legs] /\
  List.length (ServiceNetworkDesign.fleet_assignments (fst second))
  <> List.length (ServiceNetworkDesign.service_network_graphs (fst second)).
Proof.
  vm_compute. repeat split; discriminate.
Qed.

(** ** What [assign_buses] does with the routine's assignment *)

(** The completeness check never rejects: whatever assignment the routine
    returns is appended to the assignment history. *)
Lemma assign_buses_never_rejects
    (lib : MultiDiGraph.on_bad_edge_list)
    (self : ServiceNetworkDesign.t)
    (routine : ServiceNetworkDesign.t -> result FleetAssignment.t)
    (a : FleetAssignment.t) :
  routine self = Ok a ->
  ServiceNetworkDesign.fleet_assignments
    (fst (ServiceNetworkDesign.assign_buses lib self routine))
  = ServiceNetworkDesign.fleet_assignments self ++ [a].
Proof.
  intros Hr.
  destruct (assign_buses_cases lib self routine)
    as [(e & Hr' & E)|[(a' & e & Hr' & _ & E)|(a' & g & Hr' & _ & E)]];
    rewrite E; simpl; congruence.
Qed.

(** Reading the street network: [edges(data=True)] yields 3-tuples, the
    generator unpacks each item into four names, so it raises on the first
    edge of the street network, whatever the edge is tagged. *)
Lemma carried_edges_of_street (g : Graph.t) :
  g <> [] ->
  ServiceNetworkDesign.carried_edges (Graph.edges_data g)
  = Raise (ValueError "wrong number of values to unpack (expected 4)").
Proof.
  destruct g as [|[[u v] d] g]; [congruence|reflexivity].
Qed.

(** A street network with at least one edge is never carried over: the
    library reports the failure or returns a graph without edges. *)
Lemma get_empty_service_network_graph_fails
    (lib : MultiDiGraph.on_bad_edge_list) (self : ServiceNetworkDesign.t) :
  ServiceNetworkDesign.street_network_graph self <> [] ->
  ServiceNetworkDesign._get_empty_service_network_graph lib self
  = match lib with
    | MultiDiGraph.Reports => Raise NetworkXError
    | MultiDiGraph.Swallows => Ok []
    end.
Proof.
  intros H. unfold ServiceNetworkDesign._get_empty_service_network_graph.
  now rewrite (carried_edges_of_street _ H).
Qed.

(** On a street network without edges there is nothing to read. *)
Lemma get_empty_service_network_graph_bare
    (lib : MultiDiGraph.on_bad_edge_list) (self : ServiceNetworkDesign.t) :
  ServiceNetworkDesign.street_network_graph self = [] ->
  ServiceNetworkDesign._get_empty_service_network_graph lib self = Ok [].
Proof.
  unfold ServiceNetworkDesign._get_empty_service_network_graph.
  now intros ->.
Qed.

(** Whatever the street network and the library, the graph the bus edges
    are added to has no edge. *)
Lemma get_empty_service_network_graph_empty
    (lib : MultiDiGraph.on_bad_edge_list) (self : ServiceNetworkDesign.t)
    (g : MultiDiGraph.t) :
  ServiceNetworkDesign._get_empty_service_network_graph lib self = Ok g -> g = [].
Proof.
  destruct (ServiceNetworkDesign.street_network_graph self) as [|e es] eqn:Hs.
  - rewrite (get_empty_service_network_graph_bare lib self Hs). congruence.
  - rewrite get_empty_service_network_graph_fails by (rewrite Hs; discriminate).
    destruct lib; congruence.
Qed.

(** A design that passed the constructor has a route of two nodes at least,
    joined by a street edge: its street network is not empty. *)
Lemma valid_design_has_street_edge (self : ServiceNetworkDesign.t) :
  ServiceNetworkDesign.__post_init__ self = Ok tt ->
  Forall (fun r => Route.__post_init__ r = Ok tt) (ServiceNetworkDesign.routes self) ->
  ServiceNetworkDesign.street_network_graph self <> [].
Proof.
  unfold ServiceNetworkDesign.__post_init__.
  intros H Hroutes Hnil. rewrite Hnil in H.
  destruct (ServiceNetworkDesign.routes self) as [|r rs]; [discriminate H|].
  inversion Hroutes as [|? ? Hr _]; subst.
  unfold Route.__post_init__ in Hr.
  destruct (Route.nodes r) as [|n0 [|n1 ns]] eqn:Hn; try discriminate Hr.
  simpl in H.
  destruct (List.length (ServiceNetworkDesign.od_flows self) <? 1)%nat; [discriminate H|].
  simpl in H.
  destruct (_ <? _)%nat; [discriminate H|]. simpl in H.
  destruct (_ =? _)%nat; [|discriminate H]. simpl in H.
  destruct (for_each (ServiceNetworkDesign.od_flows self) _ tt); [|discriminate H].
  simpl in H. rewrite Hn in H.
  assert (Hp : consecutive_pairs (n0 :: n1 :: ns)
               = (n0, n1) :: consecutive_pairs (n1 :: ns)) by reflexivity.
  rewrite Hp in H. simpl in H. discriminate H.
Qed.

(** With a library that reports the failure, on a design accepted by the
    constructor, whatever assignment the routine returns, [assign_buses]
    appends it and then raises while reading the street network: no call
    returns. *)
Lemma assign_buses_on_accepted_design
    (self : ServiceNetworkDesign.t)
    (routine : ServiceNetworkDesign.t -> result FleetAssignment.t)
    (a : FleetAssignment.t) :
  ServiceNetworkDesign.__post_init__ self = Ok tt ->
  Forall (fun r => Route.__post_init__ r = Ok tt) (ServiceNetworkDesign.routes self) ->
  routine self = Ok a ->
  ServiceNetworkDesign.assign_buses MultiDiGraph.Reports self routine
  = (ServiceNetworkDesign.with_fleet_assignments self
       (ServiceNetworkDesign.fleet_assignments self ++ [a]),
     Raise NetworkXError).
Proof.
  intros Hvalid Hroutes Hr.
  rewrite (assign_buses_accepts MultiDiGraph.Reports self routine a Hr).
  unfold ServiceNetworkDesign._update_service_network_graphs,
    ServiceNetworkDesign.build_service_network_graph.
  rewrite get_empty_service_network_graph_fails; [reflexivity|].
  now apply valid_design_has_street_edge.
Qed.

(** ** Deriving the service graph *)

Section ServiceGraph.
Import ServiceNetworkDesign.

(** Items of four components [(u, v, key, data)] would be carried over
    unchanged and in order, those tagged [distance] left out. *)
Lemma carried_edges_of_4_tuples (es : list (Z * Z * Z * attrs)) :
  carried_edges
    (map (fun e => let '(u, v, k, d) := e in [PInt u; PInt v; PInt k; PDict d]) es)
  = Ok (map (fun e => let '(u, v, k, d) := e in (PInt u, PInt v, PInt k, PDict d))
            (filter (fun e => let '(_, _, _, d) := e in not_distance d) es)).
Proof.
  unfold carried_edges.
  enough (H : forall acc,
             for_each
               (map (fun e => let '(u, v, k, d) := e in [PInt u; PInt v; PInt k; PDict d])
                    es)
               (fun acc item =>
                  '(u, v, key, data) <- unpack4 item ;;
                  d <- as_dict data ;;
                  Ok (if not_distance d then acc ++ [(u, v, key, data)] else acc))
               acc
             = Ok (acc ++ map (fun e => let '(u, v, k, d) := e in
                                        (PInt u, PInt v, PInt k, PDict d))
                              (filter (fun e => let '(_, _, _, d) := e in not_distance d)
                                      es)))
    by apply (H []).
  induction es as [|[[[u v] k] d] es IH]; intros acc; simpl.
  - now rewrite app_nil_r.
  - destruct (not_distance d); simpl; rewrite IH; [|reflexivity].
    now rewrite <- app_assoc.
Qed.

(** A loop whose body only appends edges appends the edges of all rounds. *)
Lemma for_each_extends {A L : Type} (Q : L -> MultiDiGraph.edge -> Prop)
    (f : A -> list L) (body : MultiDiGraph.t -> A -> result MultiDiGraph.t)
    (xs : list A) :
  (forall g x g', body g x = Ok g' ->
                  exists new, g' = g ++ new /\ Forall2 Q (f x) new) ->
  forall g g', for_each xs body g = Ok g' ->
               exists new, g' = g ++ new /\ Forall2 Q (flat_map f xs) new.
Proof.
  intros Hbody. induction xs as [|x xs IH]; intros g g'; simpl.
  - intros H. inversion H. exists []. rewrite app_nil_r. auto.
  - destruct (body g x) as [g1|] eqn:E; simpl; [|discriminate].
    intros H.
    destruct (Hbody g x g1 E) as (new1 & -> & H1).
    destruct (IH _ _ H) as (new2 & -> & H2).
    exists (new1 ++ new2). rewrite app_assoc. split; auto.
    now apply Forall2_app.
Qed.

Lemma add_bus_edge_spec (self : t) (route : Route.t) (bus : Bus.t)
    (g g' : MultiDiGraph.t) (uv : Z * Z) :
  add_bus_edge self route bus g uv = Ok g' ->
  exists new,
    g' = g ++ new /\
    Forall2 (is_service_edge (street_network_graph self)) [(route, bus, uv)] new.
Proof.
  unfold add_bus_edge. destruct uv as [u v].
  destruct (Graph.getitem (street_network_graph self) u v) as [d|] eqn:Hd;
    simpl; [|discriminate].
  destruct (attrs_getitem d "weight") as [[w|]|] eqn:Hw; simpl; try discriminate.
  unfold truediv.
  destruct (Qeq_bool (Bus.avg_speed bus) (0 # 1)) eqn:Hs; simpl; [discriminate|].
  intros H. inversion H; subst. eexists. split; [reflexivity|].
  constructor; [|constructor]. simpl. repeat split. exists d, w. auto.
Qed.

(** The loops add exactly the service edges of the service legs, in order,
    after the edges the graph had. *)
Lemma add_bus_edges_spec (self : t) (a : FleetAssignment.t) (g g' : MultiDiGraph.t) :
  add_bus_edges self a g = Ok g' ->
  exists new,
    g' = g ++ new /\
    Forall2 (is_service_edge (street_network_graph self))
            (service_legs (routes self)
                          (FleetComposition.fleet (fleet_composition self)) a)
            new.
Proof.
  unfold add_bus_edges, service_legs.
  apply for_each_extends. intros g1 route g1'.
  apply for_each_extends. clear g1 g1'. intros g1 bus g1'.
  unfold serves, is_assigned, flag, route_of, dict_getitem.
  destruct (dict_get Bus.eqb (FleetAssignment.assigned_buses a) bus) as [[|]|];
    simpl; try discriminate.
  - destruct (dict_get Bus.eqb (FleetAssignment.assigned_bus_routes a) bus) as [r|];
      simpl; [|discriminate].
    destruct (is_route r route).
    + intros H.
      destruct (for_each_extends (is_service_edge (street_network_graph self))
                  (fun uv => [(route, bus, uv)]) (add_bus_edge self route bus)
                  (consecutive_pairs (Route.nodes route))
                  (fun g x g' => add_bus_edge_spec self route bus g g' x) _ _ H)
        as (new & -> & Hnew).
      exists new. split; [reflexivity | exact Hnew].
    + intros H. inversion H. exists []. rewrite app_nil_r. auto.
  - intros H. inversion H. exists []. rewrite app_nil_r. auto.
Qed.

(** The loops on the design of the test-suite with both buses on [route_1],
    started from an empty graph: each pair of nodes gets two parallel edges. *)
Lemma add_bus_edges_example :
  add_bus_edges Scenario.design Scenario.all_on_route_1 []
  = Ok [MultiDiGraph.mk_edge 0 1 0 (bus_edge_attrs (1 # 12) Scenario.route_1 Scenario.bus1);
        MultiDiGraph.mk_edge 1 2 0 (bus_edge_attrs (1 # 12) Scenario.route_1 Scenario.bus1);
        MultiDiGraph.mk_edge 0 1 1 (bus_edge_attrs (1 # 12) Scenario.route_1 Scenario.bus2);
        MultiDiGraph.mk_edge 1 2 1 (bus_edge_attrs (1 # 12) Scenario.route_1 Scenario.bus2)].
Proof. vm_compute. reflexivity. Qed.

(** A service edge is tagged as a bus edge. *)
Lemma service_edge_is_bus (street : Graph.t) (leg : Route.t * Bus.t * (Z * Z))
    (e : MultiDiGraph.edge) :
  is_service_edge street leg e -> has_type (MultiDiGraph.data e) "bus" = true.
Proof.
  destruct leg as [[route bus] uv]. intros (_ & _ & d & w & _ & _ & _ & ->).
  reflexivity.
Qed.

(** Whatever the library does, a graph that is derived holds the service
    edges of the last assignment and nothing else. *)
Lemma build_service_network_graph_spec (lib : MultiDiGraph.on_bad_edge_list)
    (self : t) (g : MultiDiGraph.t) :
  build_service_network_graph lib self = Ok g ->
  exists a,
    list_last (fleet_assignments self) = Ok a /\
    Forall2 (is_service_edge (street_network_graph self))
            (service_legs (routes self)
                          (FleetComposition.fleet (fleet_composition self)) a)
            g /\
    Forall (fun e => has_type (MultiDiGraph.data e) "bus" = true) g.
Proof.
  unfold build_service_network_graph.
  destruct (_get_empty_service_network_graph lib self) as [g0|] eqn:E0;
    simpl; [|discriminate].
  apply get_empty_service_network_graph_empty in E0. subst g0.
  destruct (list_last (fleet_assignments self)) as [a|] eqn:Ea; simpl; [|discriminate].
  intros H. destruct (add_bus_edges_spec self a [] g H) as (new & -> & Hnew).
  exists a. split; [reflexivity|]. split; [exact Hnew|].
  simpl. clear H. induction Hnew as [|leg e legs es He _ IH]; constructor; auto.
  exact (service_edge_is_bus _ leg e He).
Qed.
End ServiceGraph.

(** C3, on the code.  The design of the test-suite (two buses, one route,
    street network [0 - 1 - 2]) is accepted by the constructor; the routine
    assigns the first bus only, so the flag of the second bus is false and
    the assignment is not fully assigned; yet [buses_assigned] answers true
    and [assign_buses] appends the incomplete assignment: the assignment
    history grows from length 0 to length 1, whatever the graph library
    does next. *)
Theorem assign_buses_accepts_incomplete (lib : MultiDiGraph.on_bad_edge_list) :
  ServiceNetworkDesign.__post_init__ Scenario.design = Ok tt /\
  Scenario.routine_first Scenario.design = Ok Scenario.first_on_route_1 /\
  flag Scenario.first_on_route_1 Scenario.bus2 = Some false /\
  fully_assigned Scenario.first_on_route_1 = false /\
  FleetAssignment.buses_assigned Scenario.first_on_route_1 = true /\
  ServiceNetworkDesign.fleet_assignments Scenario.design = [] /\
  ServiceNetworkDesign.fleet_assignments
    (fst (ServiceNetworkDesign.assign_buses lib Scenario.design Scenario.routine_first))
  = [Scenario.first_on_route_1].
Proof.
  destruct lib; vm_compute; repeat split.
Qed.

(** C2, on the code.  The street edges are never carried over.  Whatever
    the graph library does with the failed reading of the street network, a
    service graph that is derived holds the service edges of the last
    assignment, one per route, bus serving it and consecutive node pair, and
    no other edge.  On the accepted design of the test-suite with every bus
    assigned to its route, neither street edge is tagged as a distance edge;
    a library that reports the failure makes [assign_buses] raise with the
    assignment appended and no graph derived, and a library that swallows
    it makes [assign_buses] return with the four bus legs as the graph. *)
Theorem street_edges_not_carried_over (lib : MultiDiGraph.on_bad_edge_list) :
  (forall self g,
     ServiceNetworkDesign.build_service_network_graph lib self = Ok g ->
     exists a,
       list_last (ServiceNetworkDesign.fleet_assignments self) = Ok a /\
       Forall2 (is_service_edge (ServiceNetworkDesign.street_network_graph self))
               (service_legs (ServiceNetworkDesign.routes self)
                  (FleetComposition.fleet (ServiceNetworkDesign.fleet_composition self))
                  a)
               g /\
       Forall (fun e => has_type (MultiDiGraph.data e) "bus" = true) g) /\
  ServiceNetworkDesign.__post_init__ Scenario.design = Ok tt /\
  Scenario.routine_all Scenario.route_1 Scenario.design = Ok Scenario.all_on_route_1 /\
  fully_assigned Scenario.all_on_route_1 = true /\
  Forall (fun e => ServiceNetworkDesign.not_distance (snd e) = true) Scenario.street /\
  ServiceNetworkDesign._get_empty_service_network_graph lib Scenario.design
  = match lib with
    | MultiDiGraph.Reports => Raise NetworkXError
    | MultiDiGraph.Swallows => Ok []
    end /\
  ServiceNetworkDesign.assign_buses lib Scenario.design
    (Scenario.routine_all Scenario.route_1)
  = match lib with
    | MultiDiGraph.Reports =>
        (ServiceNetworkDesign.mk [Scenario.route_1] [Scenario.od_flow] Scenario.fleet
           Scenario.street [Scenario.all_on_route_1] [],
         Raise NetworkXError)
    | MultiDiGraph.Swallows => (Scenario.design_served, Ok tt)
    end.
Proof.
  split; [intros self g; apply build_service_network_graph_spec|].
  destruct lib; vm_compute; repeat split; repeat constructor.
Qed.

(** C5 as stated fails: on an accepted design whose only bus has average
    speed zero, [assign_buses] raises, whichever way the graph library
    reacts, and the design it leaves behind is not the design it was given:
    the assignment has been appended. *)
Lemma assign_buses_raise_not_atomic :
  let reported :=
    ServiceNetworkDesign.assign_buses MultiDiGraph.Reports Scenario.design_parked
      (Scenario.routine_all Scenario.route_1) in
  let swallowed :=
    ServiceNetworkDesign.assign_buses MultiDiGraph.Swallows Scenario.design_parked
      (Scenario.routine_all Scenario.route_1) in
  ServiceNetworkDesign.__post_init__ Scenario.design_parked = Ok tt /\
  Scenario.routine_all Scenario.route_1 Scenario.design_parked
  = Ok Scenario.parked_on_route_1 /\
  ServiceNetworkDesign.fleet_assignments Scenario.design_parked = [] /\
  ((exists e, snd reported = Raise e) /\
   ServiceNetworkDesign.fleet_assignments (fst reported) = [Scenario.parked_on_route_1] /\
   fst reported <> Scenario.design_parked) /\
  ((exists e, snd swallowed = Raise e) /\
   ServiceNetworkDesign.fleet_assignments (fst swallowed) = [Scenario.parked_on_route_1] /\
   fst swallowed <> Scenario.design_parked).
Proof.
  vm_compute. repeat split; try discriminate; eexists; reflexivity.
Qed.

(** C5, as amended.  A call of [assign_bus_to_route] or of
    [remove_assignment] that raises leaves its object exactly as it was.  A
    call of [assign_buses] that raises leaves the design exactly as it was
    when the error is the routine's; otherwise the error arose while the
    service graph was derived, and the design is left with the routine's
    assignment appended to the assignment history and nothing else changed. *)
Theorem mutators_after_an_error :
  (forall a bus route a' e,
     FleetAssignment.assign_bus_to_route a bus route = (a', Raise e) -> a' = a) /\
  (forall self assignment self' e,
     ServiceNetworkDesign.remove_assignment self assignment = (self', Raise e) ->
     self' = self) /\
  (forall lib self routine self' e,
     ServiceNetworkDesign.assign_buses lib self routine = (self', Raise e) ->
     (routine self = Raise e /\ self' = self) \/
     (exists a,
        routine self = Ok a /\
        ServiceNetworkDesign.build_service_network_graph lib
          (ServiceNetworkDesign.with_fleet_assignments self
             (ServiceNetworkDesign.fleet_assignments self ++ [a])) = Raise e /\
        self' = ServiceNetworkDesign.with_fleet_assignments self
                  (ServiceNetworkDesign.fleet_assignments self ++ [a]))).
Proof.
  repeat split.
  - intros a bus route a' e. apply assign_raise_unchanged.
  - intros self assignment self' e. unfold ServiceNetworkDesign.remove_assignment.
    destruct (list_remove _ _ _); intros H; inversion H; reflexivity.
  - intros lib self routine self' e H.
    destruct (assign_buses_cases lib self routine)
      as [(e' & Hr & E)|[(a & e' & Hr & Hb & E)|(a & g & _ & _ & E)]];
      rewrite E in H; inversion H; subst.
    + left. auto.
    + right. exists a. auto.
Qed.

Lemma mutators_after_an_error_witness :
  fst (FleetAssignment.assign_bus_to_route
         (Scenario.fresh Scenario.design) Scenario.bus_stray Scenario.route_1)
  = Scenario.fresh Scenario.design /\
  fst (ServiceNetworkDesign.remove_assignment Scenario.design Scenario.all_on_route_1)
  = Scenario.design /\
  fst (ServiceNetworkDesign.assign_buses MultiDiGraph.Reports Scenario.design_parked
         (Scenario.routine_all Scenario.route_1))
  = ServiceNetworkDesign.with_fleet_assignments Scenario.design_parked
      [Scenario.parked_on_route_1] /\
  fst (ServiceNetworkDesign.assign_buses MultiDiGraph.Swallows Scenario.design_parked
         (Scenario.routine_all Scenario.route_1))
  = ServiceNetworkDesign.with_fleet_assignments Scenario.design_parked
      [Scenario.parked_on_route_1].
Proof.
  destruct mutators_after_an_error as (H1 & H2 & H3).
  split; [|split; [|split]].
  - apply (H1 _ Scenario.bus_stray Scenario.route_1 _
             (ValueError "Bus is not in the fleet.")).
    vm_compute. reflexivity.
  - apply (H2 _ Scenario.all_on_route_1 _ (ValueError "x not in list")).
    vm_compute. reflexivity.
  - destruct (H3 MultiDiGraph.Reports Scenario.design_parked
                (Scenario.routine_all Scenario.route_1)
                (ServiceNetworkDesign.with_fleet_assignments Scenario.design_parked
                   [Scenario.parked_on_route_1]) NetworkXError)
      as [[Hr _]|(a & Hr & _ & E)].
    + vm_compute. reflexivity.
    + vm_compute in Hr. discriminate Hr.
    + vm_compute. reflexivity.
  - destruct (H3 MultiDiGraph.Swallows Scenario.design_parked
                (Scenario.routine_all Scenario.route_1)
                (ServiceNetworkDesign.with_fleet_assignments Scenario.design_parked
                   [Scenario.parked_on_route_1]) ZeroDivisionError)
      as [[Hr _]|(a & Hr & _ & E)].
    + vm_compute. reflexivity.
    + vm_compute in Hr. discriminate Hr.
    + vm_compute. reflexivity.
Defined.

(** ** The derived queries of an assignment *)

Section DerivedQueries.
Import FleetAssignment.

Lemma selected_never {A : Type} (route : Route.t) (l : list (A * Bus.t * Bus.t)) :
  filter (selected route) l = [].
Proof.
  induction l as [|[[x assigned] assigned_route] l IH]; simpl; auto.
Qed.

(** Every per-route query answers zero, for every assignment and route. *)
Lemma per_route_queries_zero (a : t) (route : Route.t) :
  capacity_for_route a route = 0 /\
  capital_cost_for_route a route = 0 /\
  operational_cost_for_route a route = 0 /\
  emissions_for_route a route = (0 # 1)%Q /\
  num_buses_assigned_to_route a route = 0.
Proof.
  unfold capacity_for_route, capital_cost_for_route, operational_cost_for_route,
    emissions_for_route, num_buses_assigned_to_route.
  rewrite !selected_never. repeat split.
Qed.

Lemma map_fst_combine {A B : Type} (l : list A) (l' : list B) :
  map fst (combine l l') = firstn (List.length l') l.
Proof.
  revert l'. induction l as [|x l IH]; intros [|y l']; simpl; auto.
  now rewrite IH.
Qed.

(** [total_emissions] adds up the buses of the fleet that are paired with
    a key of the flag dictionary, whatever the flags are. *)
Lemma total_emissions_ignores_flags (a : t) :
  total_emissions a
  = py_sum_Q (map Bus.per_mile_emissions
                  (firstn (List.length (assigned_buses a))
                          (FleetComposition.fleet (composition a)))).
Proof.
  unfold total_emissions.
  assert (Hfilter : forall l : list (Bus.t * Bus.t),
             filter (fun row => Bus.truthy (snd row)) l = l).
  { induction l as [|x l IH]; simpl; [|rewrite IH]; reflexivity. }
  rewrite Hfilter, <- (map_map fst Bus.per_mile_emissions), map_fst_combine.
  unfold dict_iter. now rewrite length_map.
Qed.
End DerivedQueries.

(** C4, on the code.  With both buses of the fleet assigned to [route_1]
    through [assign_bus_to_route], both serve the route: their capacities add
    up to 150, their prices to 1050000, salaries and maintenance to 155056,
    their emission rates to 0.0368, and they are two.  Every per-route query
    of the assignment answers 0. *)
Theorem per_route_queries_miss_assigned_buses :
  buses_serving Scenario.all_on_route_1 Scenario.route_1
  = [Scenario.bus1; Scenario.bus2] /\
  py_sum_Z (map Bus.capacity (buses_serving Scenario.all_on_route_1 Scenario.route_1))
  = 150 /\
  FleetAssignment.capacity_for_route Scenario.all_on_route_1 Scenario.route_1 = 0 /\
  py_sum_Z (map Bus.procurement_price
                (buses_serving Scenario.all_on_route_1 Scenario.route_1)) = 1050000 /\
  FleetAssignment.capital_cost_for_route Scenario.all_on_route_1 Scenario.route_1 = 0 /\
  py_sum_Z (map Operator.annual_salary
                (operators_serving Scenario.all_on_route_1 Scenario.route_1))
  + py_sum_Z (map Bus.annual_maintenance_cost
                  (buses_serving Scenario.all_on_route_1 Scenario.route_1)) = 155056 /\
  FleetAssignment.operational_cost_for_route Scenario.all_on_route_1 Scenario.route_1
  = 0 /\
  (py_sum_Q (map Bus.per_mile_emissions
                 (buses_serving Scenario.all_on_route_1 Scenario.route_1)) == 0.0368)%Q /\
  (FleetAssignment.emissions_for_route Scenario.all_on_route_1 Scenario.route_1 == 0)%Q /\
  List.length (buses_serving Scenario.all_on_route_1 Scenario.route_1) = 2%nat /\
  FleetAssignment.num_buses_assigned_to_route Scenario.all_on_route_1 Scenario.route_1
  = 0.
Proof.
  vm_compute. repeat split.
Qed.

(** C7, on the code.  In a freshly constructed assignment no bus is
    assigned, so the emission rates of the assigned buses add up to 0; yet
    [total_emissions] is 0.0368, the rates of both buses of the fleet. *)
Theorem total_emissions_counts_unassigned_buses :
  filter (is_assigned (Scenario.fresh Scenario.design))
         (FleetComposition.fleet
            (FleetAssignment.composition (Scenario.fresh Scenario.design))) = [] /\
  (FleetAssignment.total_emissions (Scenario.fresh Scenario.design) == 0.0368)%Q /\
  ~ (FleetAssignment.total_emissions (Scenario.fresh Scenario.design) == 0)%Q.
Proof.
  vm_compute. repeat split; discriminate.
Qed.

(** ** The walk of the flow analysis *)

Section FlowAnalysis.
Import ServiceNetworkDesign.

Lemma walk_edge_read (graph : MultiDiGraph.t) (s : walk) (uv : Z * Z) :
  walk_edge graph s uv = (l <- read_leg graph uv ;; Ok (walk_leg s l)).
Proof.
  unfold walk_edge, read_leg. destruct uv as [u v]. simpl.
  destruct (MultiDiGraph.getitem0 graph u v) as [edge_data|]; simpl; auto.
  destruct (attrs_getitem edge_data "weight") as [w|]; simpl; auto.
  destruct (as_number w) as [q|]; simpl; auto.
  destruct (attrs_getitem edge_data "type") as [ty|]; simpl; auto.
  destruct (attrval_eqb ty (VStr "bus")); simpl; auto.
  destruct (attrs_getitem edge_data "route_id") as [r|]; simpl; auto.
  destruct (attrs_getitem edge_data "discomfort") as [d|]; simpl; auto.
  destruct (as_number d) as [qd|]; simpl; auto.
Qed.

Lemma for_each_walk (graph : MultiDiGraph.t) (pairs : list (Z * Z)) (s : walk) :
  for_each pairs (walk_edge graph) s
  = (legs <- read_legs graph pairs ;; Ok (fold_left walk_leg legs s)).
Proof.
  revert s. induction pairs as [|uv pairs IH]; intros s; simpl; auto.
  rewrite walk_edge_read.
  destruct (read_leg graph uv) as [l|]; simpl; auto.
  rewrite IH. destruct (read_legs graph pairs); reflexivity.
Qed.

(** What the walk has accumulated after the legs [legs]. *)
Lemma walk_accumulates (legs : list leg) (s : walk) :
  let s' := fold_left walk_leg legs s in
  total_time s' = fold_left Qplus (map leg_weight legs) (total_time s) /\
  discomfort s' = fold_left Qplus (bus_discomforts legs) (discomfort s) /\
  segments s' = segments s + Z.of_nat (List.length (bus_ids legs)) /\
  w_transfers s' = w_transfers s + transfers_from (prev_route s) (bus_ids legs) /\
  unique_routes s' = fold_left set_add (bus_ids legs) (unique_routes s).
Proof.
  revert s. induction legs as [|l legs IH]; intros s; simpl.
  - repeat split; lia.
  - destruct (IH (walk_leg s l)) as (Ht & Hd & Hs & Hw & Hu).
    rewrite Ht, Hd, Hs, Hw, Hu. clear.
    destruct l as [w|w r d]; simpl; repeat split; try lia.
    destruct (is_transfer (prev_route s) r); lia.
Qed.

(** With route names that are all true (no empty name), the walk counts
    exactly the changes of route name. *)
Lemma transfers_from_some (ids : list attrval) (a : attrval) :
  attrval_truthy a = true ->
  forallb attrval_truthy ids = true ->
  transfers_from (Some a) ids = changes (a :: ids).
Proof.
  revert a. induction ids as [|b ids IH]; intros a Ha Hids; [reflexivity|].
  simpl in Hids. apply andb_true_iff in Hids. destruct Hids as [Hb Hids].
  change (transfers_from (Some a) (b :: ids))
    with ((if is_transfer (Some a) b then 1 else 0) + transfers_from (Some b) ids).
  change (changes (a :: b :: ids))
    with ((if attrval_eqb a b then 0 else 1) + changes (b :: ids)).
  rewrite (IH b Hb Hids). unfold is_transfer. rewrite Ha.
  destruct (attrval_eqb a b); reflexivity.
Qed.

Lemma transfers_from_changes (ids : list attrval) :
  forallb attrval_truthy ids = true ->
  transfers_from None ids = changes ids.
Proof.
  destruct ids as [|a ids]; [reflexivity|].
  simpl forallb. rewrite andb_true_iff. intros [Ha Hids].
  change (transfers_from None (a :: ids)) with (0 + transfers_from (Some a) ids).
  now rewrite transfers_from_some.
Qed.

Lemma attrval_eqb_refl (a : attrval) : attrval_eqb a a = true.
Proof. destruct a; simpl; [apply Qeq_bool_refl | apply String.eqb_refl]. Qed.

Lemma attrval_eqb_comm (a b : attrval) : attrval_eqb a b = attrval_eqb b a.
Proof.
  destruct a as [p|s], b as [q|t]; simpl; auto.
  - destruct (Qeq_bool p q) eqn:E, (Qeq_bool q p) eqn:E'; auto.
    + apply Qeq_bool_sym in E. congruence.
    + apply Qeq_bool_sym in E'. congruence.
  - apply String.eqb_sym.
Qed.

Lemma set_add_keeps (s : list attrval) (x z : attrval) :
  existsb (attrval_eqb z) s = true -> existsb (attrval_eqb z) (set_add s x) = true.
Proof.
  intros H. unfold set_add. destruct (existsb (attrval_eqb x) s); auto.
  rewrite existsb_app, H. reflexivity.
Qed.

Lemma set_add_has (s : list attrval) (x : attrval) :
  existsb (attrval_eqb x) (set_add s x) = true.
Proof.
  unfold set_add. destruct (existsb (attrval_eqb x) s) eqn:E; auto.
  rewrite existsb_app. simpl. rewrite attrval_eqb_refl. apply orb_true_r.
Qed.

Lemma all_different_snoc (s : list attrval) (x : attrval) :
  existsb (attrval_eqb x) s = false -> all_different s = true ->
  all_different (s ++ [x]) = true.
Proof.
  induction s as [|y s IH]; simpl; auto.
  rewrite orb_false_iff, andb_true_iff, negb_true_iff. intros [Hxy Hx] [Hy Hs].
  rewrite existsb_app, Hy, IH; auto. simpl.
  rewrite (attrval_eqb_comm y x), Hxy. reflexivity.
Qed.

Lemma set_add_different (s : list attrval) (x : attrval) :
  all_different s = true -> all_different (set_add s x) = true.
Proof.
  intros H. unfold set_add. destruct (existsb (attrval_eqb x) s) eqn:E; auto.
  now apply all_different_snoc.
Qed.

Lemma set_add_from (s : list attrval) (x y : attrval) :
  In y (set_add s x) -> In y s \/ y = x.
Proof.
  unfold set_add. destruct (existsb (attrval_eqb x) s); auto.
  rewrite in_app_iff. simpl. intuition.
Qed.

(** The set of route names collected from [ids]: its members are pairwise
    different, every name of [ids] is in it, and it has no other member. *)
Lemma collected_names (ids s0 : list attrval) :
  let s := fold_left set_add ids s0 in
  (all_different s0 = true -> all_different s = true) /\
  (forall z, existsb (attrval_eqb z) s0 = true -> existsb (attrval_eqb z) s = true) /\
  (forall id, In id ids -> existsb (attrval_eqb id) s = true) /\
  (forall y, In y s -> In y s0 \/ In y ids).
Proof.
  revert s0. induction ids as [|x ids IH]; intros s0; simpl.
  - repeat split; auto; intros id [].
  - destruct (IH (set_add s0 x)) as (Hd & Hk & Hc & Hf). repeat split.
    + intros H. apply Hd. now apply set_add_different.
    + intros z H. apply Hk. now apply set_add_keeps.
    + intros id [->|Hin]; [apply Hk, set_add_has | now apply Hc].
    + intros y Hy. destruct (Hf y Hy) as [H|H]; auto.
      destruct (set_add_from _ _ _ H); auto.
Qed.

Lemma length_consecutive_pairs {A : Type} (l : list A) :
  List.length (consecutive_pairs l) = pred (List.length l).
Proof.
  unfold consecutive_pairs. rewrite length_combine, length_tl.
  destruct l as [|x l]; [reflexivity|].
  rewrite removelast_firstn_len, length_firstn. simpl. lia.
Qed.

(** The analysis of a path whose edges can all be read: what the record
    holds, in terms of the legs read. *)
Lemma analyze_path_spec (graph : MultiDiGraph.t) (path : list Z) (legs : list leg) :
  read_legs graph (consecutive_pairs path) = Ok legs ->
  exists r,
    analyze_path graph path = Ok r /\
    number_of_hops r = Z.of_nat (pred (List.length path)) /\
    average_travel_time r
    = (if number_of_hops r >? 0
       then py_sum_Q (map leg_weight legs) / inject_Z (number_of_hops r)
       else 0)%Q /\
    average_discomfort r
    = (if Z.of_nat (List.length (bus_ids legs)) >? 0
       then py_sum_Q (bus_discomforts legs)
            / inject_Z (Z.of_nat (List.length (bus_ids legs)))
       else 0)%Q /\
    (exists services,
       number_of_services r = Z.of_nat (List.length services) /\
       all_different services = true /\
       (forall id, In id (bus_ids legs) ->
                   existsb (attrval_eqb id) services = true) /\
       (forall y, In y services -> In y (bus_ids legs))) /\
    transfers r = transfers_from None (bus_ids legs) /\
    (forallb attrval_truthy (bus_ids legs) = true ->
     transfers r = changes (bus_ids legs)).
Proof.
  intros Hread. unfold analyze_path.
  rewrite for_each_walk, Hread. simpl.
  destruct (walk_accumulates legs walk_start) as (Ht & Hd & Hs & Hw & Hu).
  simpl in Ht, Hd, Hs, Hw, Hu.
  destruct (collected_names (bus_ids legs) []) as (Hdiff & _ & Hcov & Hfrom).
  eexists. split; [reflexivity|]. simpl.
  rewrite Ht, Hd, Hs, Hw, Hu, length_consecutive_pairs.
  repeat split; auto.
  - exists (fold_left set_add (bus_ids legs) []). repeat split; auto.
    intros y Hy. destruct (Hfrom y Hy) as [[]|H]; auto.
  - intros Hall. now apply transfers_from_changes.
Qed.

(** An edge of the path that cannot be read makes the analysis raise. *)
Lemma analyze_path_raises (graph : MultiDiGraph.t) (path : list Z) (e : exn) :
  read_legs graph (consecutive_pairs path) = Raise e ->
  analyze_path graph path = Raise e.
Proof.
  intros Hread. unfold analyze_path. now rewrite for_each_walk, Hread.
Qed.
End FlowAnalysis.

(** C6, on the code.  The design of the two routes named [""] and [A] is
    accepted by the constructor.  On the service graph of the two bus legs
    [0 -> 1] (route [""]) and [1 -> 2] (route [A]) the path from 0 to 2 has
    two bus edges whose route names differ, once; the analysis reports two
    hops and two services but no transfer.  With the first route named [B]
    instead, the same walk reports the transfer. *)
Theorem transfer_missed_after_unnamed_route :
  ServiceNetworkDesign.__post_init__ Scenario.design_blank = Ok tt /\
  bus_ids [BusLeg (1 / 12) (VStr "") 1; BusLeg (1 / 12) (VStr "A") 1]
  = [VStr ""; VStr "A"] /\
  read_legs Scenario.two_legs (consecutive_pairs [0; 1; 2])
  = Ok [BusLeg (1 / 12) (VStr "") 1; BusLeg (1 / 12) (VStr "A") 1] /\
  changes [VStr ""; VStr "A"] = 1 /\
  (exists r,
     ServiceNetworkDesign.analyze_flow_for_assignment Scenario.path_0_1_2
       Scenario.design_blank_served Scenario.one_on_each Scenario.od_0_2_busy = Ok r /\
     ServiceNetworkDesign.number_of_hops r = 2 /\
     ServiceNetworkDesign.number_of_services r = 2 /\
     ServiceNetworkDesign.transfers r = 0) /\
  (exists r,
     ServiceNetworkDesign.analyze_path Scenario.two_named_legs [0; 1; 2] = Ok r /\
     ServiceNetworkDesign.transfers r = 1).
Proof.
  split; [vm_compute; reflexivity|].
  split; [reflexivity|].
  split; [vm_compute; reflexivity|].
  split; [reflexivity|].
  split; eexists; (split; [vm_compute; reflexivity|]); repeat split.
Qed.

(** ** Demand-weighted aggregates *)

Section Aggregates.
Import ServiceNetworkDesign.
Variable shortest_path : MultiDiGraph.t -> Z -> Z -> result (list Z).

Lemma py_sum_Z_zero (l : list Z) : (forall x, In x l -> x = 0) -> py_sum_Z l = 0.
Proof.
  unfold py_sum_Z. induction l as [|x l IH]; simpl; intros H; auto.
  rewrite (H x); auto.
Qed.

Lemma truediv_by_zero (q : Q) : truediv q (inject_Z 0) = Raise ZeroDivisionError.
Proof. reflexivity. Qed.

(** The numerator either has a value or raises what a flow analysis raised. *)
Lemma weighted_sum_cases (metric : flow_analysis -> Q) (self : t)
    (a : FleetAssignment.t) (ods : list ODFlow.t) (acc : Q) :
  let body := fun acc od_flow =>
    r <- analyze_flow_for_assignment shortest_path self a od_flow ;;
    Ok (acc + metric r * inject_Z (ODFlow.flow od_flow))%Q in
  (exists q, for_each ods body acc = Ok q /\
             Forall (fun od =>
               is_ok (analyze_flow_for_assignment shortest_path self a od) = true) ods)
  \/ (exists e od, for_each ods body acc = Raise e /\ In od ods /\
                   analyze_flow_for_assignment shortest_path self a od = Raise e).
Proof.
  revert acc. induction ods as [|od ods IH]; intros acc; simpl.
  - left. eauto.
  - destruct (analyze_flow_for_assignment shortest_path self a od) as [r|e] eqn:E;
      simpl.
    + destruct (IH (acc + metric r * inject_Z (ODFlow.flow od))%Q)
        as [(q & Hq & Hall)|(e & od' & He & Hin & Hod')].
      * left. exists q. split; auto. constructor; auto. now rewrite E.
      * right. exists e, od'. auto.
    + right. exists e, od. auto.
Qed.

(** The numerator stops at the first OD flow whose analysis raises, with
    the error of that analysis: the division is not reached. *)
Lemma demand_weighted_first_failure (metric : flow_analysis -> Q) (self : t)
    (a : FleetAssignment.t) (front back : list ODFlow.t) (od : ODFlow.t) (e : exn) :
  od_flows self = front ++ od :: back ->
  Forall (fun od' =>
    is_ok (analyze_flow_for_assignment shortest_path self a od') = true) front ->
  analyze_flow_for_assignment shortest_path self a od = Raise e ->
  demand_weighted shortest_path metric self a = Raise e.
Proof.
  intros Hods Hfront Hod.
  assert (Hnum : forall acc,
             for_each (front ++ od :: back)
               (fun acc od_flow =>
                  r <- analyze_flow_for_assignment shortest_path self a od_flow ;;
                  Ok (acc + metric r * inject_Z (ODFlow.flow od_flow))%Q)
               acc
             = Raise e).
  { clear Hods.
    induction Hfront as [|od' front Hod' _ IH]; intros acc; simpl.
    - now rewrite Hod.
    - destruct (analyze_flow_for_assignment shortest_path self a od') as [r|];
        [|discriminate Hod'].
      simpl. apply IH. }
  unfold demand_weighted. rewrite Hods, Hnum. reflexivity.
Qed.

Lemma demand_weighted_zero_demand (metric : flow_analysis -> Q) (self : t)
    (a : FleetAssignment.t) :
  (forall od, In od (od_flows self) -> ODFlow.flow od = 0) ->
  (exists e, demand_weighted shortest_path metric self a = Raise e) /\
  (Forall (fun od =>
     is_ok (analyze_flow_for_assignment shortest_path self a od) = true)
     (od_flows self) ->
   demand_weighted shortest_path metric self a = Raise ZeroDivisionError) /\
  (forall e, demand_weighted shortest_path metric self a = Raise e ->
     e = ZeroDivisionError \/
     exists od, In od (od_flows self) /\
                analyze_flow_for_assignment shortest_path self a od = Raise e).
Proof.
  intros Hzero. unfold demand_weighted.
  rewrite py_sum_Z_zero.
  2:{ intros x Hx. apply in_map_iff in Hx. destruct Hx as (od & <- & Hod). auto. }
  destruct (weighted_sum_cases metric self a (od_flows self) (0 # 1)%Q)
    as [(q & Hq & Hall)|(e & od & He & Hin & Hod)].
  - rewrite Hq. simpl. rewrite truediv_by_zero. repeat split; eauto.
    intros e H. left. inversion H. reflexivity.
  - rewrite He. simpl. repeat split; eauto.
    + intros Hall. rewrite Forall_forall in Hall.
      specialize (Hall od Hin). rewrite Hod in Hall. discriminate.
    + intros e' H. inversion H; subst. right. eauto.
Qed.
End Aggregates.

(** C10 as stated fails: the design has a single OD flow of volume 0 and is
    accepted by the constructor, and nothing has been assigned yet; asked for
    an assignment, the aggregate raises the [ValueError] of the failed lookup
    in the assignment history, not a division error. *)
Lemma zero_demand_other_error_first :
  ODFlow.__post_init__ Scenario.od_idle = Ok tt /\
  ServiceNetworkDesign.__post_init__ Scenario.design_idle = Ok tt /\
  ServiceNetworkDesign.avg_travel_time_for_assignment Scenario.path_0_1_2
    Scenario.design_idle Scenario.all_on_route_1 = Raise (ValueError "x not in list") /\
  ServiceNetworkDesign.avg_travel_time_for_assignment Scenario.path_0_1_2
    Scenario.design_idle Scenario.all_on_route_1 <> Raise ZeroDivisionError.
Proof.
  vm_compute. repeat split. discriminate.
Qed.

(** C10, as amended.  An OD flow of volume 0 between different nodes is
    accepted.  On a design all of whose OD flows have volume 0, none of the
    four demand-weighted aggregates returns a value: each raises the division
    error when the flow analysis of every OD flow succeeds; and when the
    flow analysis of an OD flow raises, those of the OD flows before it
    succeeding, each raises the error of that flow analysis, which is
    evaluated before the division. *)
Theorem zero_demand_aggregates_raise
    (shortest_path : MultiDiGraph.t -> Z -> Z -> result (list Z))
    (self : ServiceNetworkDesign.t) (a : FleetAssignment.t) :
  (forall od, In od (ServiceNetworkDesign.od_flows self) -> ODFlow.flow od = 0) ->
  (forall origin destination,
     origin <> destination ->
     ODFlow.__post_init__ (ODFlow.mk origin destination 0) = Ok tt) /\
  forall aggregate,
    In aggregate
       [ServiceNetworkDesign.avg_travel_time_for_assignment shortest_path;
        ServiceNetworkDesign.avg_discomfort_level_for_assignment shortest_path;
        ServiceNetworkDesign.avg_transfers_for_assignment shortest_path;
        ServiceNetworkDesign.avg_hops_for_assignment shortest_path] ->
    (exists e, aggregate self a = Raise e) /\
    (Forall (fun od =>
       is_ok (ServiceNetworkDesign.analyze_flow_for_assignment
                shortest_path self a od) = true)
       (ServiceNetworkDesign.od_flows self) ->
     aggregate self a = Raise ZeroDivisionError) /\
    (forall front od back e,
       ServiceNetworkDesign.od_flows self = front ++ od :: back ->
       Forall (fun od' =>
         is_ok (ServiceNetworkDesign.analyze_flow_for_assignment
                  shortest_path self a od') = true) front ->
       ServiceNetworkDesign.analyze_flow_for_assignment shortest_path self a od
       = Raise e ->
       aggregate self a = Raise e).
Proof.
  intros Hzero. split.
  - intros origin destination Hne. unfold ODFlow.__post_init__. simpl.
    apply Z.eqb_neq in Hne. now rewrite Hne.
  - intros aggregate [<-|[<-|[<-|[<-|[]]]]];
      (split; [|split];
       [ now apply demand_weighted_zero_demand
       | now apply demand_weighted_zero_demand
       | intros front od back e; apply demand_weighted_first_failure ]).
Qed.

Lemma zero_demand_aggregates_raise_witness :
  ServiceNetworkDesign.__post_init__ Scenario.design_idle = Ok tt /\
  ServiceNetworkDesign.assign_buses MultiDiGraph.Swallows Scenario.design_idle
    (Scenario.routine_all Scenario.route_1)
  = (Scenario.design_idle_served, Ok tt) /\
  (forall od, In od (ServiceNetworkDesign.od_flows Scenario.design_idle_served) ->
              ODFlow.flow od = 0) /\
  ServiceNetworkDesign.avg_travel_time_for_assignment Scenario.path_0_1
    Scenario.design_idle_served Scenario.all_on_route_1 = Raise ZeroDivisionError /\
  ServiceNetworkDesign.avg_hops_for_assignment Scenario.path_0_1
    Scenario.design_idle_served Scenario.all_on_route_1 = Raise ZeroDivisionError /\
  ServiceNetworkDesign.avg_transfers_for_assignment Scenario.path_0_1
    Scenario.design_idle_served Scenario.first_on_route_1
  = Raise (ValueError "x not in list").
Proof.
  assert (Hzero : forall od,
             In od (ServiceNetworkDesign.od_flows Scenario.design_idle_served) ->
             ODFlow.flow od = 0).
  { intros od [<-|[]]. reflexivity. }
  assert (Hall : Forall (fun od =>
             is_ok (ServiceNetworkDesign.analyze_flow_for_assignment
                      Scenario.path_0_1 Scenario.design_idle_served
                      Scenario.all_on_route_1 od) = true)
             (ServiceNetworkDesign.od_flows Scenario.design_idle_served)).
  { repeat constructor. }
  split; [vm_compute; reflexivity|].
  split; [vm_compute; reflexivity|].
  split; [exact Hzero|].
  split; [|split].
  - destruct (zero_demand_aggregates_raise Scenario.path_0_1
                Scenario.design_idle_served Scenario.all_on_route_1 Hzero) as [_ H].
    apply (H (ServiceNetworkDesign.avg_travel_time_for_assignment Scenario.path_0_1));
      [simpl; auto | exact Hall].
  - destruct (zero_demand_aggregates_raise Scenario.path_0_1
                Scenario.design_idle_served Scenario.all_on_route_1 Hzero) as [_ H].
    apply (H (ServiceNetworkDesign.avg_hops_for_assignment Scenario.path_0_1));
      [simpl; auto | exact Hall].
  - destruct (zero_demand_aggregates_raise Scenario.path_0_1
                Scenario.design_idle_served Scenario.first_on_route_1 Hzero) as [_ H].
    destruct (H (ServiceNetworkDesign.avg_transfers_for_assignment Scenario.path_0_1))
      as (_ & _ & Hfirst); [simpl; auto|].
    apply (Hfirst [] Scenario.od_idle []); [reflexivity | constructor | reflexivity].
Defined.

(** * Further properties of the data model *)

(** ** Sums and dictionaries, continued *)

Lemma py_sum_Z_from (l : list Z) (a : Z) : fold_left Z.add l a = a + py_sum_Z l.
Proof.
  unfold py_sum_Z. revert a. induction l as [|x l IH]; intros a; simpl; [lia|].
  rewrite IH, (IH x). lia.
Qed.

Lemma py_sum_Z_cons (x : Z) (l : list Z) : py_sum_Z (x :: l) = x + py_sum_Z l.
Proof. unfold py_sum_Z at 1. simpl. apply py_sum_Z_from. Qed.

Lemma py_sum_Z_app (l l' : list Z) : py_sum_Z (l ++ l') = py_sum_Z l + py_sum_Z l'.
Proof.
  induction l as [|x l IH]; simpl; [reflexivity|].
  rewrite !py_sum_Z_cons, IH. lia.
Qed.

Lemma py_sum_Z_repeat (x : Z) (n : nat) : py_sum_Z (repeat x n) = x * Z.of_nat n.
Proof.
  induction n as [|n IH]; [unfold py_sum_Z; simpl; lia|].
  change (repeat x (S n)) with (x :: repeat x n).
  rewrite py_sum_Z_cons, IH. lia.
Qed.

Lemma py_sum_Q_snoc (l : list Q) (x : Q) : py_sum_Q (l ++ [x]) = (py_sum_Q l + x)%Q.
Proof. unfold py_sum_Q. now rewrite fold_left_app. Qed.

Section DictFacts2.
Context {K V : Type} (keqb : K -> K -> bool).
Hypothesis keqb_sym : forall a b, keqb a b = true -> keqb b a = true.
Hypothesis keqb_trans :
  forall a b c, keqb a b = true -> keqb b c = true -> keqb a c = true.

Lemma dict_get_fold_set (ks : list K) (v : V) (d : pydict K V) (k : K) :
  dict_get keqb (fold_left (fun d x => dict_set keqb d x v) ks d) k
  = if existsb (keqb k) ks then Some v else dict_get keqb d k.
Proof using keqb_sym keqb_trans.
  revert d. induction ks as [|x ks IH]; intros d; simpl; auto.
  rewrite IH. destruct (existsb (keqb k) ks); [now rewrite orb_true_r|].
  rewrite orb_false_r, (keqb_comm keqb keqb_sym k x).
  destruct (keqb x k) eqn:E.
  - now apply dict_get_set_eq.
  - now apply dict_get_set_neq.
Qed.

Lemma dict_get_fromkeys (ks : list K) (v : V) (k : K) :
  dict_get keqb (dict_fromkeys keqb ks v) k
  = if existsb (keqb k) ks then Some v else None.
Proof using keqb_sym keqb_trans. unfold dict_fromkeys. now rewrite dict_get_fold_set. Qed.

(** Storing under a key that is there changes neither the keys nor their
    order. *)
Lemma dict_iter_set (d : pydict K V) (k : K) (v : V) :
  dict_contains keqb d k = true -> dict_iter (dict_set keqb d k v) = dict_iter d.
Proof using Type.
  unfold dict_contains, dict_iter.
  induction d as [|[k0 v0] d IH]; simpl; [discriminate|].
  destruct (keqb k0 k); simpl; auto.
  intros H. now rewrite IH.
Qed.

(** Storing the value that is there changes nothing. *)
Lemma dict_set_same (d : pydict K V) (k : K) (v : V) :
  dict_get keqb d k = Some v -> dict_set keqb d k v = d.
Proof using Type.
  induction d as [|[k0 v0] d IH]; simpl; [discriminate|].
  destruct (keqb k0 k); simpl.
  - intros H. inversion H. reflexivity.
  - intros H. now rewrite IH.
Qed.

Lemma dict_set_not_empty (d : pydict K V) (k : K) (v : V) : dict_set keqb d k v <> [].
Proof using Type.
  destruct d as [|[k0 v0] d]; simpl; [discriminate|].
  destruct (keqb k0 k); discriminate.
Qed.

Lemma dict_fromkeys_not_empty (ks : list K) (v : V) :
  ks <> [] -> dict_fromkeys keqb ks v <> [].
Proof using Type.
  assert (Hfold : forall ks d, d <> [] ->
                    fold_left (fun d x => dict_set keqb d x v) ks d <> []).
  { clear ks. induction ks as [|y ks IH]; intros d Hd; simpl; auto.
    apply IH. apply dict_set_not_empty. }
  unfold dict_fromkeys. destruct ks as [|x ks]; [congruence|]. intros _.
  apply (Hfold ks (dict_set keqb [] x v)). apply dict_set_not_empty.
Qed.
End DictFacts2.

(** ** Routes, OD flows, compositions *)

(** X1.  A route is accepted exactly when it has two nodes at least, and is
    otherwise refused with the message of the constructor; the length of an
    accepted route is the number of its consecutive node pairs, one at
    least. *)
Theorem route_accepted_iff (r : Route.t) :
  (Route.__post_init__ r = Ok tt <-> (2 <= List.length (Route.nodes r))%nat) /\
  (Route.__post_init__ r = Ok tt \/
   Route.__post_init__ r = Raise (ValueError "Route must contain at least 2 nodes")) /\
  (Route.__post_init__ r = Ok tt ->
   Route.__len__ r = Z.of_nat (List.length (consecutive_pairs (Route.nodes r))) /\
   1 <= Route.__len__ r).
Proof.
  unfold Route.__post_init__, Route.__len__.
  destruct (List.length (Route.nodes r) <? 2)%nat eqn:E.
  - apply Nat.ltb_lt in E. repeat split; auto; try discriminate. lia.
  - apply Nat.ltb_ge in E. repeat split; auto.
    + rewrite length_consecutive_pairs. lia.
    + lia.
Qed.

(** X2.  An OD flow is accepted exactly when its volume is not negative and
    its end points differ; a negative volume is reported first. *)
Theorem od_flow_accepted_iff (od : ODFlow.t) :
  (ODFlow.__post_init__ od = Ok tt <->
   0 <= ODFlow.flow od /\ ODFlow.origin od <> ODFlow.destination od) /\
  (ODFlow.flow od < 0 ->
   ODFlow.__post_init__ od = Raise (ValueError "Flow must be non-negative")) /\
  (0 <= ODFlow.flow od -> ODFlow.origin od = ODFlow.destination od ->
   ODFlow.__post_init__ od
   = Raise (ValueError "Origin and destination must be different")).
Proof.
  unfold ODFlow.__post_init__.
  destruct (ODFlow.flow od <? 0) eqn:Ef;
    [apply Z.ltb_lt in Ef | apply Z.ltb_ge in Ef];
    (destruct (ODFlow.origin od =? ODFlow.destination od) eqn:Eo;
     [apply Z.eqb_eq in Eo | apply Z.eqb_neq in Eo]);
    repeat split; intros; try discriminate; try lia; try tauto; auto.
Qed.

(** X3.  A composition is built exactly when the fleet is not empty and the
    operators, if given, are as many as the buses; a composition that was
    built has the fleet it was given and one operator per bus. *)
Theorem composition_built_iff
    (fleet : list Bus.t) (operators : option (list Operator.t)) :
  (is_ok (FleetComposition.init fleet operators) = true <->
   fleet <> [] /\
   forall ops, operators = Some ops -> List.length ops = List.length fleet) /\
  (forall c, FleetComposition.init fleet operators = Ok c ->
     FleetComposition.fleet c = fleet /\
     List.length (FleetComposition.operators c)
     = List.length (FleetComposition.fleet c) /\
     (operators = None ->
      FleetComposition.operators c = repeat Operator.default (List.length fleet))).
Proof.
  unfold FleetComposition.init.
  destruct fleet as [|b fleet]; simpl.
  - split; [|discriminate]. split; [discriminate|]. intros [H _]. congruence.
  - destruct operators as [ops|]; simpl.
    + destruct (List.length ops =? S (List.length fleet))%nat eqn:E; simpl.
      * apply Nat.eqb_eq in E. split.
        -- split; auto. intros _. split; [discriminate|].
           intros ops' H. inversion H. now subst.
        -- intros c H. inversion H. simpl. repeat split; auto. discriminate.
      * apply Nat.eqb_neq in E. split; [|discriminate].
        split; [discriminate|]. intros [_ H]. specialize (H ops eq_refl). congruence.
    + split.
      * split; auto. intros _. split; discriminate.
      * intros c H. inversion H. simpl. rewrite repeat_length. auto.
Qed.

(** X4.  With the operators left out, the operational cost of a composition
    is the default salary for every bus plus the maintenance costs of the
    buses. *)
Theorem default_operational_cost (fleet : list Bus.t) (c : FleetComposition.t) :
  FleetComposition.init fleet None = Ok c ->
  FleetComposition.total_operational_cost c
  = BUS_OPERATOR_SALARY * FleetComposition.num_buses c
    + py_sum_Z (map Bus.annual_maintenance_cost fleet).
Proof.
  unfold FleetComposition.init.
  destruct (List.length fleet <? 1)%nat; [discriminate|].
  intros H. inversion H.
  unfold FleetComposition.total_operational_cost, FleetComposition.num_buses. simpl.
  assert (Hmap : forall n, map Operator.annual_salary (repeat Operator.default n)
                         = repeat BUS_OPERATOR_SALARY n).
  { induction n as [|n IH]; simpl; [|rewrite IH]; reflexivity. }
  now rewrite Hmap, py_sum_Z_repeat.
Qed.

Lemma default_operational_cost_witness :
  FleetComposition.init [Scenario.bus1; Scenario.bus2] None = Ok Scenario.fleet /\
  FleetComposition.total_operational_cost Scenario.fleet
  = BUS_OPERATOR_SALARY * FleetComposition.num_buses Scenario.fleet
    + py_sum_Z (map Bus.annual_maintenance_cost [Scenario.bus1; Scenario.bus2]).
Proof.
  split; [reflexivity|].
  apply (default_operational_cost [Scenario.bus1; Scenario.bus2]). reflexivity.
Defined.

(** ** Assignments: construction and sequences of calls *)

Section AssignmentLife.
Import FleetAssignment.

Lemma assign_keeps_keys (a : t) (bus : Bus.t) (route : Route.t) :
  dict_iter (assigned_buses (fst (assign_bus_to_route a bus route)))
  = dict_iter (assigned_buses a).
Proof.
  destruct (assign_cases a bus route) as [[_ H]|[[_ H]|[Hf H]]]; rewrite H; simpl; auto.
  apply dict_iter_set. rewrite flag_contains, Hf. reflexivity.
Qed.

Lemma assign_keeps_composition (a : t) (bus : Bus.t) (route : Route.t) :
  composition (fst (assign_bus_to_route a bus route)) = composition a.
Proof.
  destruct (assign_cases a bus route) as [[_ H]|[[_ H]|[_ H]]]; now rewrite H.
Qed.

Lemma run_calls_step (a : t) (c : Bus.t * Route.t) (calls : list (Bus.t * Route.t)) :
  fst (run_calls a (c :: calls))
  = fst (run_calls (fst (assign_bus_to_route a (fst c) (snd c))) calls).
Proof.
  simpl. destruct (assign_bus_to_route a (fst c) (snd c)) as [a' r]. simpl.
  now destruct (run_calls a' calls).
Qed.

Lemma run_calls_keeps_keys (calls : list (Bus.t * Route.t)) (a : t) :
  dict_iter (assigned_buses (fst (run_calls a calls))) = dict_iter (assigned_buses a) /\
  composition (fst (run_calls a calls)) = composition a.
Proof.
  revert a. induction calls as [|c calls IH]; intros a; [auto|].
  rewrite run_calls_step.
  destruct (IH (fst (assign_bus_to_route a (fst c) (snd c)))) as [Hk Hc].
  now rewrite Hk, Hc, assign_keeps_keys, assign_keeps_composition.
Qed.

Lemma run_calls_keeps_assigned (calls : list (Bus.t * Route.t)) (a : t) (b : Bus.t) :
  is_assigned a b = true -> is_assigned (fst (run_calls a calls)) b = true.
Proof.
  revert a. induction calls as [|c calls IH]; intros a Hb; [exact Hb|].
  rewrite run_calls_step. apply IH. now apply assign_keeps_assigned.
Qed.

Lemma assign_sets_flag (a : t) (bus : Bus.t) (route : Route.t) :
  dict_contains Bus.eqb (assigned_buses a) bus = true ->
  is_assigned (fst (assign_bus_to_route a bus route)) bus = true.
Proof.
  rewrite flag_contains. intros Hin.
  destruct (assign_cases a bus route) as [[Hf H]|[[Hf H]|[Hf H]]]; rewrite H; simpl.
  - rewrite Hf in Hin. discriminate.
  - unfold is_assigned. now rewrite Hf.
  - unfold is_assigned, flag. simpl.
    rewrite dict_get_set_eq; bus_eq. apply Bus_eqb_refl.
Qed.

Lemma contains_by_keys (d d' : pydict Bus.t bool) (b : Bus.t) :
  dict_iter d = dict_iter d' ->
  dict_contains Bus.eqb d b = dict_contains Bus.eqb d' b.
Proof.
  unfold dict_contains, dict_iter.
  revert d'. induction d as [|[k v] d IH]; intros [|[k' v'] d']; simpl;
    try discriminate; auto.
  intros H. inversion H; subst.
  destruct (Bus.eqb k' b); auto.
Qed.

Lemma run_calls_assigns (calls : list (Bus.t * Route.t)) (a : t)
    (b : Bus.t) (r : Route.t) :
  In (b, r) calls ->
  dict_contains Bus.eqb (assigned_buses a) b = true ->
  is_assigned (fst (run_calls a calls)) b = true.
Proof.
  revert a. induction calls as [|c calls IH]; intros a Hin Hb; [destruct Hin|].
  rewrite run_calls_step. destruct Hin as [->|Hin].
  - apply run_calls_keeps_assigned. simpl. now apply assign_sets_flag.
  - apply IH; auto.
    rewrite (contains_by_keys _ (assigned_buses a)); auto.
    apply assign_keeps_keys.
Qed.
End AssignmentLife.

(** X5.  An assignment constructed from a composition alone holds, for
    every bus of the composition, the flag false and no route, and holds
    nothing for any other bus. *)
Theorem fresh_assignment_unassigned (c : FleetComposition.t) (bus : Bus.t) :
  let a := FleetAssignment.init c None None in
  FleetAssignment.composition a = c /\
  flag a bus = (if in_fleet a bus then Some false else None) /\
  route_of a bus = (if in_fleet a bus then Some None else None) /\
  is_assigned a bus = false.
Proof.
  simpl. unfold is_assigned, flag, route_of, in_fleet. simpl.
  rewrite !dict_get_fromkeys; bus_eq.
  repeat split. now destruct (existsb _ _).
Qed.

(** X6.  [assign_bus_to_route] never changes the composition of an
    assignment nor the keys of its flag dictionary or their order, whether
    it succeeds or raises; and over any sequence of calls the same holds. *)
Theorem assign_bus_to_route_keeps_keys
    (a : FleetAssignment.t) (calls : list (Bus.t * Route.t)) :
  (forall bus route,
     FleetAssignment.composition
       (fst (FleetAssignment.assign_bus_to_route a bus route))
     = FleetAssignment.composition a /\
     dict_iter (FleetAssignment.assigned_buses
                  (fst (FleetAssignment.assign_bus_to_route a bus route)))
     = dict_iter (FleetAssignment.assigned_buses a)) /\
  FleetAssignment.composition (fst (run_calls a calls))
  = FleetAssignment.composition a /\
  dict_iter (FleetAssignment.assigned_buses (fst (run_calls a calls)))
  = dict_iter (FleetAssignment.assigned_buses a).
Proof.
  destruct (run_calls_keeps_keys calls a) as [Hk Hc].
  repeat split; auto using assign_keeps_composition, assign_keeps_keys.
Qed.

(** X7.  On an assignment constructed from a composition that was built
    (one bus at least), [num_buses_assigned] raises a [TypeError] instead of
    counting, after any sequence of [assign_bus_to_route] calls. *)
Theorem num_buses_assigned_raises
    (fleet : list Bus.t) (operators : option (list Operator.t))
    (c : FleetComposition.t) (calls : list (Bus.t * Route.t)) :
  FleetComposition.init fleet operators = Ok c ->
  FleetAssignment.num_buses_assigned
    (fst (run_calls (FleetAssignment.init c None None) calls))
  = Raise TypeError.
Proof.
  intros Hc.
  destruct (composition_built_iff fleet operators) as [[Hok _] Hfleet].
  destruct (Hfleet c Hc) as [Hf _].
  destruct Hok as [Hne _]; [now rewrite Hc|].
  unfold FleetAssignment.num_buses_assigned.
  destruct (run_calls_keeps_keys calls (FleetAssignment.init c None None)) as [-> _].
  simpl. rewrite Hf.
  pose proof (dict_fromkeys_not_empty Bus.eqb fleet false Hne) as Hd.
  destruct (dict_fromkeys Bus.eqb fleet false); [congruence|reflexivity].
Qed.

Lemma num_buses_assigned_raises_witness :
  FleetComposition.init [Scenario.bus1; Scenario.bus2] None = Ok Scenario.fleet /\
  FleetAssignment.num_buses_assigned
    (fst (run_calls (FleetAssignment.init Scenario.fleet None None)
            [(Scenario.bus1, Scenario.route_1)]))
  = Raise TypeError.
Proof.
  split; [reflexivity|].
  apply (num_buses_assigned_raises [Scenario.bus1; Scenario.bus2] None). reflexivity.
Defined.

(** X8.  Calling [assign_bus_to_route] once for every bus of the fleet, on
    an assignment constructed from the composition alone, leaves every bus
    of the composition assigned, whatever route each bus is given. *)
Theorem assigning_every_bus_completes
    (c : FleetComposition.t) (route_for : Bus.t -> Route.t) :
  fully_assigned
    (fst (run_calls (FleetAssignment.init c None None)
            (map (fun bus => (bus, route_for bus)) (FleetComposition.fleet c))))
  = true.
Proof.
  unfold fully_assigned.
  destruct (run_calls_keeps_keys
              (map (fun bus => (bus, route_for bus)) (FleetComposition.fleet c))
              (FleetAssignment.init c None None)) as [_ ->].
  simpl. apply forallb_forall. intros b Hb.
  apply (run_calls_assigns _ _ b (route_for b)).
  - apply in_map_iff. exists b. auto.
  - rewrite (init_keyed_by_fleet c b). unfold in_fleet. simpl.
    apply existsb_exists. exists b. split; auto. apply Bus_eqb_refl.
Qed.

(** ** What the constructor of a design checks *)

Section DesignValidation.
Import ServiceNetworkDesign.

Lemma bind_unit_ok (r k : result unit) :
  (_ <- r ;; k) = Ok tt <-> r = Ok tt /\ k = Ok tt.
Proof.
  destruct r as [[]|e]; simpl.
  - split; [intros H; split; auto | intros [_ H]; exact H].
  - split; [discriminate | intros [H _]; discriminate H].
Qed.

Lemma check_ok (b : bool) (msg : string) : check b msg = Ok tt <-> b = true.
Proof. destruct b; simpl; split; auto; discriminate. Qed.

Lemma path_check_ok (r : result bool) (msg : string) :
  (p <- r ;; check p msg) = Ok tt <-> r = Ok true.
Proof.
  destruct r as [[|]|e]; simpl; split; auto; discriminate.
Qed.

Lemma Forall_iff_ext {A : Type} (P Q : A -> Prop) (l : list A) :
  (forall x, P x <-> Q x) -> (Forall P l <-> Forall Q l).
Proof.
  intros H. split; apply Forall_impl; intros x; apply H.
Qed.

Lemma for_each_unit_ok {A : Type} (body : unit -> A -> result unit) (xs : list A) :
  for_each xs body tt = Ok tt <-> Forall (fun x => body tt x = Ok tt) xs.
Proof.
  induction xs as [|x xs IH]; simpl.
  - split; auto.
  - destruct (body tt x) as [[]|e] eqn:E; simpl.
    + rewrite IH. split; [auto|]. intros H. now inversion H.
    + split; [discriminate|]. intros H. inversion H. congruence.
Qed.

Lemma nodup_length_iff (l : list string) :
  (List.length (nodup string_dec l) =? List.length l)%nat = true <-> NoDup l.
Proof.
  rewrite Nat.eqb_eq. split.
  - induction l as [|x l IH]; simpl; [constructor|].
    destruct (in_dec string_dec x l) as [Hin|Hnin]; simpl.
    + intros H. exfalso.
      assert (Hle : (List.length (nodup string_dec l) <= List.length l)%nat).
      { apply NoDup_incl_length; [apply NoDup_nodup|].
        intros y Hy. now apply nodup_In in Hy. }
      lia.
    + intros H. constructor; auto.
  - intros H. now rewrite nodup_fixed_point.
Qed.

Lemma names_unique_iff (routes : list Route.t) :
  (List.length (nodup string_dec (map Route.name routes)) =? List.length routes)%nat
  = true
  <-> NoDup (map Route.name routes).
Proof.
  rewrite <- nodup_length_iff. now rewrite length_map.
Qed.

Lemma weights_loop (g : Graph.t) (acc : bool) :
  for_each (Graph.edges_data g)
    (fun acc item =>
       '(_, _, edge_data) <- unpack3 item ;;
       edge_data <- as_dict edge_data ;;
       Ok (acc && dict_contains String.eqb edge_data "weight"%string))
    acc
  = Ok (acc && forallb (fun e => dict_contains String.eqb (snd e) "weight"%string) g).
Proof.
  revert acc. induction g as [|[[u v] d] g IH]; intros acc; simpl.
  - now rewrite andb_true_r.
  - rewrite IH. now rewrite andb_assoc.
Qed.

Lemma not_empty_length {A : Type} (l : list A) :
  negb (List.length l <? 1)%nat = true <-> l <> [].
Proof.
  destruct l; simpl; split; try congruence; auto; discriminate.
Qed.
End DesignValidation.

(** X9.  The constructor of a design accepts exactly the designs that have
    a route and an OD flow, as many buses as routes at least, routes with
    distinct names, a street path between the end points of every OD flow,
    a street edge under every consecutive node pair of every route, and a
    weight on every street edge. *)
Theorem design_accepted_iff (self : ServiceNetworkDesign.t) :
  ServiceNetworkDesign.__post_init__ self = Ok tt <->
  ServiceNetworkDesign.routes self <> [] /\
  ServiceNetworkDesign.od_flows self <> [] /\
  (List.length (ServiceNetworkDesign.routes self)
   <= List.length (FleetComposition.fleet
                     (ServiceNetworkDesign.fleet_composition self)))%nat /\
  NoDup (map Route.name (ServiceNetworkDesign.routes self)) /\
  Forall (fun od =>
            Graph.has_path (ServiceNetworkDesign.street_network_graph self)
              (ODFlow.origin od) (ODFlow.destination od) = Ok true)
         (ServiceNetworkDesign.od_flows self) /\
  Forall (fun route =>
            Forall (fun uv =>
                      Graph.has_edge (ServiceNetworkDesign.street_network_graph self)
                        (fst uv) (snd uv) = true)
                   (consecutive_pairs (Route.nodes route)))
         (ServiceNetworkDesign.routes self) /\
  Forall (fun e => dict_contains String.eqb (snd e) "weight"%string = true)
         (ServiceNetworkDesign.street_network_graph self).
Proof.
  unfold ServiceNetworkDesign.__post_init__.
  rewrite !bind_unit_ok, weights_loop. simpl bind.
  rewrite !check_ok, !not_empty_length, names_unique_iff, !for_each_unit_ok.
  rewrite negb_true_iff, Nat.ltb_ge, forallb_forall, <- Forall_forall.
  rewrite (Forall_iff_ext _
             (fun od =>
                Graph.has_path (ServiceNetworkDesign.street_network_graph self)
                  (ODFlow.origin od) (ODFlow.destination od) = Ok true)
             (ServiceNetworkDesign.od_flows self)
             (fun od => path_check_ok _ _)).
  rewrite (Forall_iff_ext _
             (fun route =>
                Forall (fun uv =>
                          Graph.has_edge (ServiceNetworkDesign.street_network_graph self)
                            (fst uv) (snd uv) = true)
                       (consecutive_pairs (Route.nodes route)))
             (ServiceNetworkDesign.routes self)).
  2:{ intros route. rewrite for_each_unit_ok.
      apply Forall_iff_ext. intros uv. apply check_ok. }
  tauto.
Qed.

(** ** Design-level aggregates over the history *)

Section DesignAggregates.
Import ServiceNetworkDesign.

Lemma ODFlow_eqb_refl (od : ODFlow.t) : ODFlow.eqb od od = true.
Proof. unfold ODFlow.eqb. now rewrite !Z.eqb_refl. Qed.

Lemma ODFlow_eqb_eq (a b : ODFlow.t) : ODFlow.eqb a b = true <-> a = b.
Proof.
  unfold ODFlow.eqb. rewrite !andb_true_iff, !Z.eqb_eq.
  destruct a, b; simpl. split.
  - intros [[-> ->] ->]. reflexivity.
  - intros H. inversion H. auto.
Qed.

Lemma ODFlow_eqb_sym (a b : ODFlow.t) : ODFlow.eqb a b = true -> ODFlow.eqb b a = true.
Proof. rewrite !ODFlow_eqb_eq. auto. Qed.

Lemma ODFlow_eqb_trans (a b c : ODFlow.t) :
  ODFlow.eqb a b = true -> ODFlow.eqb b c = true -> ODFlow.eqb a c = true.
Proof. rewrite !ODFlow_eqb_eq. congruence. Qed.

(** Adding nothing to an entry that is there leaves the dictionary as it is. *)
Lemma add_to_entry_zero (d : pydict ODFlow.t Z) (od : ODFlow.t) (v : Z) :
  dict_get ODFlow.eqb d od = Some v -> add_to_entry d od 0 = Ok d.
Proof.
  intros H. unfold add_to_entry, dict_getitem. rewrite H. simpl.
  rewrite Z.add_0_r. now rewrite dict_set_same.
Qed.

Lemma for_each_fixed {A S : Type} (xs : list A) (body : S -> A -> result S) (s : S) :
  (forall x, In x xs -> body s x = Ok s) -> for_each xs body s = Ok s.
Proof.
  induction xs as [|x xs IH]; intros H; simpl; auto.
  rewrite (H x) by (left; reflexivity). simpl.
  apply IH. intros y Hy. apply H. now right.
Qed.
End DesignAggregates.

(** X10.  Whenever the routine returns an assignment, the call of
    [assign_buses], whether it then returns or raises, raises the total
    capital cost of the design by the capital cost of the fleet of that
    assignment and the total emissions by the total emissions of that
    assignment, whatever the graph library does;
    [remove_all_assignments] brings both back to zero. *)
Theorem design_totals_follow_history
    (lib : MultiDiGraph.on_bad_edge_list)
    (self : ServiceNetworkDesign.t)
    (routine : ServiceNetworkDesign.t -> result FleetAssignment.t)
    (a : FleetAssignment.t) :
  routine self = Ok a ->
  let after := fst (ServiceNetworkDesign.assign_buses lib self routine) in
  ServiceNetworkDesign.total_capital_cost after
  = ServiceNetworkDesign.total_capital_cost self
    + FleetComposition.total_capital_cost (FleetAssignment.composition a) /\
  ServiceNetworkDesign.total_emissions after
  = (ServiceNetworkDesign.total_emissions self + FleetAssignment.total_emissions a)%Q /\
  ServiceNetworkDesign.total_capital_cost
    (ServiceNetworkDesign.remove_all_assignments after) = 0 /\
  ServiceNetworkDesign.total_emissions
    (ServiceNetworkDesign.remove_all_assignments after) = 0%Q.
Proof.
  intros Hr. simpl.
  unfold ServiceNetworkDesign.total_capital_cost, ServiceNetworkDesign.total_emissions.
  rewrite (assign_buses_never_rejects lib self routine a Hr).
  rewrite !map_app. cbn [map]. rewrite py_sum_Z_app, py_sum_Q_snoc.
  repeat split.
Qed.

Lemma design_totals_follow_history_witness :
  Scenario.routine_all Scenario.route_1 Scenario.design = Ok Scenario.all_on_route_1 /\
  ServiceNetworkDesign.total_capital_cost
    (fst (ServiceNetworkDesign.assign_buses MultiDiGraph.Reports Scenario.design
            (Scenario.routine_all Scenario.route_1)))
  = ServiceNetworkDesign.total_capital_cost Scenario.design
    + FleetComposition.total_capital_cost
        (FleetAssignment.composition Scenario.all_on_route_1) /\
  ServiceNetworkDesign.total_capital_cost
    (fst (ServiceNetworkDesign.assign_buses MultiDiGraph.Swallows Scenario.design
            (Scenario.routine_all Scenario.route_1)))
  = ServiceNetworkDesign.total_capital_cost Scenario.design
    + FleetComposition.total_capital_cost
        (FleetAssignment.composition Scenario.all_on_route_1).
Proof.
  split; [reflexivity|]. split.
  - apply (design_totals_follow_history MultiDiGraph.Reports Scenario.design
             (Scenario.routine_all Scenario.route_1) Scenario.all_on_route_1).
    reflexivity.
  - apply (design_totals_follow_history MultiDiGraph.Swallows Scenario.design
             (Scenario.routine_all Scenario.route_1) Scenario.all_on_route_1).
    reflexivity.
Defined.

(** X11.  Whatever the history of a design, its total operational cost is 0
    and its count of the buses assigned to any route is 0. *)
Theorem design_route_totals_zero (self : ServiceNetworkDesign.t) (route : Route.t) :
  ServiceNetworkDesign.total_operational_cost self = 0 /\
  ServiceNetworkDesign.num_buses_assigned_to_route self route = 0.
Proof.
  unfold ServiceNetworkDesign.total_operational_cost,
    ServiceNetworkDesign.num_buses_assigned_to_route.
  split; apply py_sum_Z_zero; intros x Hx.
  - apply in_flat_map in Hx. destruct Hx as (a & _ & Hx).
    apply in_map_iff in Hx. destruct Hx as (r & <- & _).
    apply per_route_queries_zero.
  - apply in_map_iff in Hx. destruct Hx as (a & <- & _).
    apply per_route_queries_zero.
Qed.

(** X12.  [satisfied_demand] never raises, and whatever the history of the
    design it maps every OD flow of the design to 0: it returns the
    dictionary it started from. *)
Theorem satisfied_demand_all_zero (self : ServiceNetworkDesign.t) :
  ServiceNetworkDesign.satisfied_demand self
  = Ok (dict_fromkeys ODFlow.eqb (ServiceNetworkDesign.od_flows self) 0) /\
  forall od,
    dict_get ODFlow.eqb
      (dict_fromkeys ODFlow.eqb (ServiceNetworkDesign.od_flows self) 0) od
    = if existsb (ODFlow.eqb od) (ServiceNetworkDesign.od_flows self)
      then Some 0 else None.
Proof.
  split.
  - unfold ServiceNetworkDesign.satisfied_demand.
    apply for_each_fixed. intros a _.
    apply for_each_fixed. intros route _.
    apply for_each_fixed. intros od Hod.
    destruct (ServiceNetworkDesign.route_covers route od); [|reflexivity].
    destruct (per_route_queries_zero a route) as [-> _].
    apply (add_to_entry_zero _ od 0).
    rewrite (dict_get_fromkeys ODFlow.eqb ODFlow_eqb_sym ODFlow_eqb_trans).
    replace (existsb (ODFlow.eqb od) (ServiceNetworkDesign.od_flows self)) with true;
      [reflexivity|].
    symmetry. apply existsb_exists. exists od. auto using ODFlow_eqb_refl.
  - intros od. apply (dict_get_fromkeys ODFlow.eqb ODFlow_eqb_sym ODFlow_eqb_trans).
Qed.

(** ** More on the flow analysis *)

Section FlowAnalysisMore.
Import ServiceNetworkDesign.

Lemma list_index_first {A : Type} (eqb : A -> A -> bool)
    (front : list A) (y : A) (back : list A) (x : A) :
  forallb (fun z => negb (eqb z x)) front = true -> eqb y x = true ->
  list_index eqb (front ++ y :: back) x = Ok (List.length front).
Proof.
  intros Hfront Hy. induction front as [|z front IH]; simpl.
  - now rewrite Hy.
  - simpl in Hfront. apply andb_true_iff in Hfront. destruct Hfront as [Hz Hfront].
    apply negb_true_iff in Hz. rewrite Hz, (IH Hfront). reflexivity.
Qed.

Lemma list_index_absent {A : Type} (eqb : A -> A -> bool) (l : list A) (x : A) :
  forallb (fun z => negb (eqb z x)) l = true ->
  list_index eqb l x = Raise (ValueError "x not in list").
Proof.
  induction l as [|z l IH]; simpl; auto.
  rewrite andb_true_iff, negb_true_iff. intros [-> Hl]. now rewrite (IH Hl).
Qed.

Lemma read_legs_length (graph : MultiDiGraph.t) (pairs : list (Z * Z)) (legs : list leg) :
  read_legs graph pairs = Ok legs -> List.length legs = List.length pairs.
Proof.
  revert legs. induction pairs as [|uv pairs IH]; intros legs; simpl.
  - intros H. now inversion H.
  - destruct (read_leg graph uv); simpl; [|discriminate].
    destruct (read_legs graph pairs) as [ls|]; simpl; [|discriminate].
    intros H. inversion H. simpl. now rewrite (IH ls).
Qed.

Lemma bus_ids_length (legs : list leg) :
  (List.length (bus_ids legs) <= List.length legs)%nat.
Proof.
  induction legs as [|[w|w r d] legs IH]; simpl; lia.
Qed.

Lemma transfers_from_bounds (ids : list attrval) (prev : option attrval) :
  0 <= transfers_from prev ids <= Z.of_nat (List.length ids).
Proof.
  revert prev. induction ids as [|b ids IH]; intros prev.
  - simpl. lia.
  - change (transfers_from prev (b :: ids))
      with ((if is_transfer prev b then 1 else 0) + transfers_from (Some b) ids).
    specialize (IH (Some b)). simpl List.length.
    destruct (is_transfer prev b); lia.
Qed.

Lemma transfers_from_start (ids : list attrval) :
  0 <= transfers_from None ids <= Z.max 0 (Z.of_nat (List.length ids) - 1).
Proof.
  destruct ids as [|b ids]; [simpl; lia|].
  change (transfers_from None (b :: ids)) with (0 + transfers_from (Some b) ids).
  pose proof (transfers_from_bounds ids (Some b)). simpl List.length. lia.
Qed.

Lemma attrval_eqb_trans (a b c : attrval) :
  attrval_eqb a b = true -> attrval_eqb b c = true -> attrval_eqb a c = true.
Proof.
  destruct a, b, c; simpl; try discriminate.
  - apply Qeq_bool_trans.
  - rewrite !String.eqb_eq. congruence.
Qed.

(** Route names that are all equal to one name give no transfer. *)
Lemma transfers_from_same (m : attrval) (ids : list attrval) (prev : option attrval) :
  (forall id, In id ids -> attrval_eqb id m = true) ->
  match prev with Some p => attrval_eqb p m = true | None => True end ->
  transfers_from prev ids = 0.
Proof.
  revert prev. induction ids as [|b ids IH]; intros prev Hids Hprev; [reflexivity|].
  change (transfers_from prev (b :: ids))
    with ((if is_transfer prev b then 1 else 0) + transfers_from (Some b) ids).
  assert (Hb : attrval_eqb b m = true) by (apply Hids; now left).
  rewrite (IH (Some b)); [|intros id Hid; apply Hids; now right|exact Hb].
  destruct prev as [p|]; simpl; [|reflexivity].
  rewrite (attrval_eqb_trans p m b Hprev); [|now rewrite attrval_eqb_comm].
  now rewrite andb_false_r.
Qed.

Lemma all_different_NoDup (s : list attrval) : all_different s = true -> NoDup s.
Proof.
  induction s as [|x s IH]; simpl; [constructor|].
  rewrite andb_true_iff, negb_true_iff. intros [Hx Hs].
  constructor; auto. intros Hin.
  assert (existsb (attrval_eqb x) s = true); [|congruence].
  apply existsb_exists. exists x. split; auto. apply attrval_eqb_refl.
Qed.

Lemma analyze_path_legs (graph : MultiDiGraph.t) (path : list Z) (r : flow_analysis) :
  analyze_path graph path = Ok r ->
  exists legs, read_legs graph (consecutive_pairs path) = Ok legs.
Proof.
  intros H. destruct (read_legs graph (consecutive_pairs path)) as [legs|e] eqn:E.
  - eauto.
  - rewrite (analyze_path_raises graph path e E) in H. discriminate.
Qed.

Lemma per_assignment_loop (f : t -> FleetAssignment.t -> result Q) (self : t)
    (l : list FleetAssignment.t) (acc : list Q) :
  match for_each l (fun acc assignment => q <- f self assignment ;; Ok (acc ++ [q])) acc
  with
  | Ok out => exists qs, out = acc ++ qs /\ Forall2 (fun a q => f self a = Ok q) l qs
  | Raise e => exists a, In a l /\ f self a = Raise e
  end.
Proof.
  revert acc. induction l as [|a l IH]; intros acc; simpl.
  - exists []. rewrite app_nil_r. auto.
  - destruct (f self a) as [q|e] eqn:E; simpl.
    + specialize (IH (acc ++ [q])).
      destruct (for_each l _ (acc ++ [q])) as [out|e].
      * destruct IH as (qs & -> & Hqs). exists (q :: qs).
        rewrite <- app_assoc. split; auto.
      * destruct IH as (a' & Hin & Ha'). eauto.
    + eauto.
Qed.
End FlowAnalysisMore.

(** X13.  The flow analysis of an assignment works on the graph stored at
    the index of the FIRST assignment of the history that equals it (an
    [IndexError] if the graph history is too short); for an assignment that
    equals none of the history it raises the [ValueError] of the lookup. *)
Theorem analysis_graph_of_first_equal
    (shortest_path : MultiDiGraph.t -> Z -> Z -> result (list Z))
    (self : ServiceNetworkDesign.t) (a : FleetAssignment.t) (od : ODFlow.t) :
  (forallb (fun z => negb (FleetAssignment.eqb z a))
           (ServiceNetworkDesign.fleet_assignments self) = true ->
   ServiceNetworkDesign.analyze_flow_for_assignment shortest_path self a od
   = Raise (ValueError "x not in list")) /\
  (forall front y back,
     ServiceNetworkDesign.fleet_assignments self = front ++ y :: back ->
     forallb (fun z => negb (FleetAssignment.eqb z a)) front = true ->
     FleetAssignment.eqb y a = true ->
     ServiceNetworkDesign.analyze_flow_for_assignment shortest_path self a od
     = match nth_error (ServiceNetworkDesign.service_network_graphs self)
                       (List.length front) with
       | Some graph =>
           path <- shortest_path graph (ODFlow.origin od) (ODFlow.destination od) ;;
           ServiceNetworkDesign.analyze_path graph path
       | None => Raise IndexError
       end).
Proof.
  unfold ServiceNetworkDesign.analyze_flow_for_assignment. split.
  - intros H. now rewrite (list_index_absent _ _ _ H).
  - intros front y back Hfa Hfront Hy.
    rewrite Hfa, (list_index_first _ _ _ _ _ Hfront Hy). simpl.
    unfold list_getitem. now destruct (nth_error _ _).
Qed.

Lemma analysis_graph_of_first_equal_witness :
  ServiceNetworkDesign.analyze_flow_for_assignment Scenario.path_0_1_2
    Scenario.design_idle Scenario.all_on_route_1 Scenario.od_idle
  = Raise (ValueError "x not in list") /\
  ServiceNetworkDesign.analyze_flow_for_assignment Scenario.path_0_1_2
    Scenario.design_analysed Scenario.all_on_route_1 Scenario.od_0_2
  = ServiceNetworkDesign.analyze_path Scenario.two_named_legs [0; 1; 2].
Proof.
  split.
  - apply (analysis_graph_of_first_equal Scenario.path_0_1_2 Scenario.design_idle).
    reflexivity.
  - apply (proj2 (analysis_graph_of_first_equal Scenario.path_0_1_2
                    Scenario.design_analysed Scenario.all_on_route_1 Scenario.od_0_2)
             [] Scenario.all_on_route_1 []); reflexivity.
Defined.

(** X14.  On a path of fewer than two nodes the analysis looks at no edge
    of the graph and returns the record of all zeros. *)
Theorem analysis_of_short_path (graph : MultiDiGraph.t) (path : list Z) :
  (List.length path <= 1)%nat ->
  ServiceNetworkDesign.analyze_path graph path
  = Ok (ServiceNetworkDesign.mk_flow_analysis 0 0 0 0 0).
Proof.
  destruct path as [|n [|n' path]]; simpl; try reflexivity. lia.
Qed.

Lemma analysis_of_short_path_witness :
  (List.length [5] <= 1)%nat /\
  ServiceNetworkDesign.analyze_path Scenario.two_legs [5]
  = Ok (ServiceNetworkDesign.mk_flow_analysis 0 0 0 0 0).
Proof.
  split; [simpl; lia|].
  apply analysis_of_short_path. simpl. lia.
Defined.

(** X15.  On a path whose edges can all be read and none of which is tagged
    as a bus edge, the analysis returns a record with no transfer, no
    service and average discomfort 0, the number of hops being the number
    of edges of the path. *)
Theorem analysis_without_bus_edges
    (graph : MultiDiGraph.t) (path : list Z) (legs : list leg) :
  read_legs graph (consecutive_pairs path) = Ok legs ->
  bus_ids legs = [] ->
  exists r,
    ServiceNetworkDesign.analyze_path graph path = Ok r /\
    ServiceNetworkDesign.transfers r = 0 /\
    ServiceNetworkDesign.number_of_services r = 0 /\
    ServiceNetworkDesign.average_discomfort r = 0%Q /\
    ServiceNetworkDesign.number_of_hops r = Z.of_nat (pred (List.length path)).
Proof.
  intros Hread Hnone.
  destruct (analyze_path_spec graph path legs Hread)
    as (r & Hr & Hhops & _ & Hd & (services & Hs & _ & _ & Hfrom) & Ht & _).
  exists r. rewrite Hnone in *. simpl in *. repeat split; auto.
  destruct services as [|x services]; [exact Hs|].
  destruct (Hfrom x (or_introl eq_refl)).
Qed.

Lemma analysis_without_bus_edges_witness :
  read_legs Scenario.two_street_legs (consecutive_pairs [0; 1; 2])
  = Ok [StreetLeg 1; StreetLeg 1] /\
  exists r,
    ServiceNetworkDesign.analyze_path Scenario.two_street_legs [0; 1; 2] = Ok r /\
    ServiceNetworkDesign.transfers r = 0 /\
    ServiceNetworkDesign.average_discomfort r = 0%Q.
Proof.
  assert (H : read_legs Scenario.two_street_legs (consecutive_pairs [0; 1; 2])
              = Ok [StreetLeg 1; StreetLeg 1]) by reflexivity.
  split; [exact H|].
  destruct (analysis_without_bus_edges _ _ _ H eq_refl) as (r & Hr & Ht & _ & Hd & _).
  exists r. auto.
Defined.

(** X16.  In every record the analysis returns, the number of hops is the
    number of edges of the path, the number of services is at most the
    number of hops, the number of transfers is less than the number of hops
    (and is 0 when there is no hop), and a journey on at most one service
    has no transfer. *)
Theorem analysis_record_bounds
    (graph : MultiDiGraph.t) (path : list Z) (r : ServiceNetworkDesign.flow_analysis) :
  ServiceNetworkDesign.analyze_path graph path = Ok r ->
  ServiceNetworkDesign.number_of_hops r = Z.of_nat (pred (List.length path)) /\
  0 <= ServiceNetworkDesign.number_of_services r
    <= ServiceNetworkDesign.number_of_hops r /\
  0 <= ServiceNetworkDesign.transfers r
    <= Z.max 0 (ServiceNetworkDesign.number_of_hops r - 1) /\
  (ServiceNetworkDesign.number_of_services r <= 1 ->
   ServiceNetworkDesign.transfers r = 0).
Proof.
  intros H. destruct (analyze_path_legs graph path r H) as (legs & Hread).
  destruct (analyze_path_spec graph path legs Hread)
    as (r' & Hr & Hhops & _ & _ & (services & Hs & Hdiff & Hcov & Hfrom) & Ht & _).
  rewrite H in Hr. inversion Hr; subst r'. clear Hr.
  pose proof (read_legs_length _ _ _ Hread) as Hlen.
  rewrite length_consecutive_pairs in Hlen.
  pose proof (bus_ids_length legs) as Hbus.
  pose proof (transfers_from_start (bus_ids legs)) as Htr.
  assert (Hsv : (List.length services <= List.length (bus_ids legs))%nat).
  { apply NoDup_incl_length; [now apply all_different_NoDup | exact Hfrom]. }
  rewrite Hhops, Hs, Ht. repeat split; try lia.
  intros Hone.
  destruct services as [|m [|m' services]]; simpl in Hone; try lia.
  - destruct (bus_ids legs) as [|b ids]; [reflexivity|].
    specialize (Hcov b (or_introl eq_refl)). discriminate Hcov.
  - apply (transfers_from_same m); [|exact I].
    intros id Hid. specialize (Hcov id Hid). simpl in Hcov.
    now rewrite orb_false_r in Hcov.
Qed.

Lemma analysis_record_bounds_witness :
  exists r,
    ServiceNetworkDesign.analyze_path Scenario.two_named_legs [0; 1; 2] = Ok r /\
    0 <= ServiceNetworkDesign.transfers r
      <= Z.max 0 (ServiceNetworkDesign.number_of_hops r - 1).
Proof.
  assert (E : exists r,
             ServiceNetworkDesign.analyze_path Scenario.two_named_legs [0; 1; 2] = Ok r)
    by (eexists; vm_compute; reflexivity).
  destruct E as [r E]. exists r. split; [exact E|].
  destruct (analysis_record_bounds _ _ _ E) as (_ & _ & H & _). exact H.
Defined.

(** X17.  Each of the four per-assignment lists ([avg_travel_times],
    [avg_discomfort_levels], [avg_transfers], [avg_hops]) is empty on an
    empty history; when it has a value, that value lists the aggregate of
    every assignment of the history, in order; when it raises, it raises
    what the aggregate of one of the assignments raises; and on a design
    whose OD flows all have volume 0 it raises as soon as the history is not
    empty. *)
Theorem per_assignment_lists
    (shortest_path : MultiDiGraph.t -> Z -> Z -> result (list Z))
    (self : ServiceNetworkDesign.t) :
  forall listing aggregate,
    In (listing, aggregate)
       [(ServiceNetworkDesign.avg_travel_times shortest_path,
         ServiceNetworkDesign.avg_travel_time_for_assignment shortest_path);
        (ServiceNetworkDesign.avg_discomfort_levels shortest_path,
         ServiceNetworkDesign.avg_discomfort_level_for_assignment shortest_path);
        (ServiceNetworkDesign.avg_transfers shortest_path,
         ServiceNetworkDesign.avg_transfers_for_assignment shortest_path);
        (ServiceNetworkDesign.avg_hops shortest_path,
         ServiceNetworkDesign.avg_hops_for_assignment shortest_path)] ->
    (ServiceNetworkDesign.fleet_assignments self = [] -> listing self = Ok []) /\
    (forall l, listing self = Ok l ->
       Forall2 (fun a q => aggregate self a = Ok q)
               (ServiceNetworkDesign.fleet_assignments self) l) /\
    (forall e, listing self = Raise e ->
       exists a, In a (ServiceNetworkDesign.fleet_assignments self) /\
                 aggregate self a = Raise e) /\
    ((forall od, In od (ServiceNetworkDesign.od_flows self) -> ODFlow.flow od = 0) ->
     ServiceNetworkDesign.fleet_assignments self <> [] ->
     exists e, listing self = Raise e).
Proof.
  assert (Hgen : forall metric,
    let listing := ServiceNetworkDesign.per_assignment
                     (ServiceNetworkDesign.demand_weighted shortest_path metric) in
    let aggregate := ServiceNetworkDesign.demand_weighted shortest_path metric in
    (ServiceNetworkDesign.fleet_assignments self = [] -> listing self = Ok []) /\
    (forall l, listing self = Ok l ->
       Forall2 (fun a q => aggregate self a = Ok q)
               (ServiceNetworkDesign.fleet_assignments self) l) /\
    (forall e, listing self = Raise e ->
       exists a, In a (ServiceNetworkDesign.fleet_assignments self) /\
                 aggregate self a = Raise e) /\
    ((forall od, In od (ServiceNetworkDesign.od_flows self) -> ODFlow.flow od = 0) ->
     ServiceNetworkDesign.fleet_assignments self <> [] ->
     exists e, listing self = Raise e)).
  { intros metric. simpl.
    pose proof (per_assignment_loop
                  (ServiceNetworkDesign.demand_weighted shortest_path metric) self
                  (ServiceNetworkDesign.fleet_assignments self) []) as Hloop.
    unfold ServiceNetworkDesign.per_assignment.
    destruct (for_each (ServiceNetworkDesign.fleet_assignments self) _ [])
      as [out|e] eqn:E.
    - destruct Hloop as (qs & -> & Hqs). simpl. repeat split.
      + intros Hnil. rewrite Hnil in Hqs. now inversion Hqs.
      + intros l Hl. inversion Hl. now subst.
      + discriminate.
      + intros Hzero Hne.
        destruct (ServiceNetworkDesign.fleet_assignments self) as [|a l]; [congruence|].
        inversion Hqs as [|? q ? ? Ha _]; subst.
        destruct (demand_weighted_zero_demand shortest_path metric self a Hzero)
          as ((e & He) & _). congruence.
    - destruct Hloop as (a & Hin & Ha). repeat split.
      + intros Hnil. rewrite Hnil in Hin. destruct Hin.
      + discriminate.
      + intros e' He'. inversion He'; subst. eauto.
      + eauto. }
  intros listing aggregate [H|[H|[H|[H|[]]]]]; inversion H; subst; apply Hgen.
Qed.

Lemma per_assignment_lists_witness :
  In (ServiceNetworkDesign.avg_travel_times Scenario.path_0_1_2,
      ServiceNetworkDesign.avg_travel_time_for_assignment Scenario.path_0_1_2)
     [(ServiceNetworkDesign.avg_travel_times Scenario.path_0_1_2,
       ServiceNetworkDesign.avg_travel_time_for_assignment Scenario.path_0_1_2);
      (ServiceNetworkDesign.avg_discomfort_levels Scenario.path_0_1_2,
       ServiceNetworkDesign.avg_discomfort_level_for_assignment Scenario.path_0_1_2);
      (ServiceNetworkDesign.avg_transfers Scenario.path_0_1_2,
       ServiceNetworkDesign.avg_transfers_for_assignment Scenario.path_0_1_2);
      (ServiceNetworkDesign.avg_hops Scenario.path_0_1_2,
       ServiceNetworkDesign.avg_hops_for_assignment Scenario.path_0_1_2)] /\
  ServiceNetworkDesign.avg_travel_times Scenario.path_0_1_2 Scenario.design_idle = Ok [] /\
  exists e,
    ServiceNetworkDesign.avg_travel_times Scenario.path_0_1_2 Scenario.design_analysed
    = Raise e.
Proof.
  assert (Hin : In (ServiceNetworkDesign.avg_travel_times Scenario.path_0_1_2,
      ServiceNetworkDesign.avg_travel_time_for_assignment Scenario.path_0_1_2)
     [(ServiceNetworkDesign.avg_travel_times Scenario.path_0_1_2,
       ServiceNetworkDesign.avg_travel_time_for_assignment Scenario.path_0_1_2);
      (ServiceNetworkDesign.avg_discomfort_levels Scenario.path_0_1_2,
       ServiceNetworkDesign.avg_discomfort_level_for_assignment Scenario.path_0_1_2);
      (ServiceNetworkDesign.avg_transfers Scenario.path_0_1_2,
       ServiceNetworkDesign.avg_transfers_for_assignment Scenario.path_0_1_2);
      (ServiceNetworkDesign.avg_hops Scenario.path_0_1_2,
       ServiceNetworkDesign.avg_hops_for_assignment Scenario.path_0_1_2)])
    by (left; reflexivity).
  split; [exact Hin|]. split.
  - apply (per_assignment_lists Scenario.path_0_1_2 Scenario.design_idle _ _ Hin).
    reflexivity.
  - apply (per_assignment_lists Scenario.path_0_1_2 Scenario.design_analysed _ _ Hin).
    + intros od [<-|[]]. reflexivity.
    + discriminate.
Defined.

(** ** Edge weights by type *)

Section EdgeWeights.

Lemma first_weight_app (l l' : list attrs) (ty : string) :
  first_weight (l ++ l') ty
  = if existsb (fun d => has_type d ty) l then first_weight l ty
    else first_weight l' ty.
Proof.
  induction l as [|d l IH]; simpl; auto.
  destruct (has_type d ty); simpl; auto.
Qed.

Lemma parallel_app (g g' : MultiDiGraph.t) (u v : Z) :
  map MultiDiGraph.data (filter (MultiDiGraph.between u v) (g ++ g'))
  = map MultiDiGraph.data (filter (MultiDiGraph.between u v) g)
    ++ map MultiDiGraph.data (filter (MultiDiGraph.between u v) g').
Proof. now rewrite filter_app, map_app. Qed.

Lemma between_mk_edge (u v u' v' k : Z) (d : attrs) :
  MultiDiGraph.between u v (MultiDiGraph.mk_edge u' v' k d) = (u' =? u) && (v' =? v).
Proof. reflexivity. Qed.

Lemma first_weight_found (l : list attrs) (ty : string) (w : attrval) :
  first_weight l ty = Some w ->
  exists d, In d l /\ has_type d ty = true /\
            dict_get String.eqb d "weight"%string = Some w.
Proof.
  induction l as [|d l IH]; simpl; [discriminate|].
  destruct (has_type d ty) eqn:E.
  - intros H. exists d. auto.
  - intros H. destruct (IH H) as (d' & Hin & Hd'). exists d'. auto.
Qed.
End EdgeWeights.

(** X18.  [get_edge_weight] answers [None] when the graph has no edge from
    [u] to [v]; an answer is the weight of an edge from [u] to [v] of the
    type asked for.  After a bus edge of travel time [t] is added from [u]
    to [v], the bus weight of [(u, v)] is [t] if there was no bus edge from
    [u] to [v] before and is what it was otherwise (the first edge wins),
    and the weights of the other node pairs are what they were. *)
Theorem get_edge_weight_spec
    (graph : MultiDiGraph.t) (u v : Z) (edge_type : string) :
  ((forall e, In e graph -> MultiDiGraph.between u v e = false) ->
   get_edge_weight graph u v edge_type = None) /\
  (forall w, get_edge_weight graph u v edge_type = Some w ->
     exists e, In e graph /\
               MultiDiGraph.src e = u /\ MultiDiGraph.dst e = v /\
               has_type (MultiDiGraph.data e) edge_type = true /\
               dict_get String.eqb (MultiDiGraph.data e) "weight"%string = Some w) /\
  (forall t route bus,
     get_edge_weight
       (MultiDiGraph.add_edge graph u v None
          (ServiceNetworkDesign.bus_edge_attrs t route bus)) u v "bus"
     = if existsb (fun e => MultiDiGraph.between u v e
                            && has_type (MultiDiGraph.data e) "bus") graph
       then get_edge_weight graph u v "bus"
       else Some (VNum t)) /\
  (forall u' v' attr,
     (u' =? u) && (v' =? v) = false ->
     get_edge_weight (MultiDiGraph.add_edge graph u' v' None attr) u v edge_type
     = get_edge_weight graph u v edge_type).
Proof.
  unfold get_edge_weight. repeat split.
  - intros Hnone.
    replace (filter (MultiDiGraph.between u v) graph) with (@nil MultiDiGraph.edge);
      [reflexivity|].
    symmetry. induction graph as [|e g IH]; simpl; auto.
    rewrite (Hnone e (or_introl eq_refl)). apply IH.
    intros e' He'. apply Hnone. now right.
  - intros w H. apply first_weight_found in H. destruct H as (d & Hin & Hty & Hw).
    apply in_map_iff in Hin. destruct Hin as (e & <- & He).
    apply filter_In in He. destruct He as [He Hb].
    unfold MultiDiGraph.between in Hb. apply andb_true_iff in Hb.
    rewrite !Z.eqb_eq in Hb. destruct Hb. exists e. auto.
  - intros t route bus. unfold MultiDiGraph.add_edge.
    rewrite parallel_app, first_weight_app.
    cbn [filter]. rewrite between_mk_edge, !Z.eqb_refl. simpl.
    assert (Hex : existsb (fun d => has_type d "bus")
                    (map MultiDiGraph.data (filter (MultiDiGraph.between u v) graph))
                  = existsb (fun e => MultiDiGraph.between u v e
                                      && has_type (MultiDiGraph.data e) "bus") graph).
    { clear. induction graph as [|e g IH]; simpl; auto.
      destruct (MultiDiGraph.between u v e); simpl; now rewrite IH. }
    rewrite Hex. reflexivity.
  - intros u' v' attr Hne. unfold MultiDiGraph.add_edge.
    rewrite parallel_app.
    cbn [filter]. rewrite between_mk_edge, Hne. simpl. now rewrite app_nil_r.
Qed.

Lemma get_edge_weight_spec_witness :
  get_edge_weight Scenario.two_legs 2 0 "bus" = None /\
  get_edge_weight
    (MultiDiGraph.add_edge Scenario.two_legs 0 1 None
       (ServiceNetworkDesign.bus_edge_attrs 5 Scenario.route_A Scenario.bus2)) 0 1 "bus"
  = get_edge_weight Scenario.two_legs 0 1 "bus" /\
  get_edge_weight
    (MultiDiGraph.add_edge Scenario.two_legs 1 2 None [("type"%string, VStr "walk")])
    0 1 "bus"
  = get_edge_weight Scenario.two_legs 0 1 "bus".
Proof.
  split; [|split].
  - apply (proj1 (get_edge_weight_spec Scenario.two_legs 2 0 "bus")).
    intros e [<-|[<-|[]]]; reflexivity.
  - apply (proj1 (proj2 (proj2 (get_edge_weight_spec Scenario.two_legs 0 1 "bus")))
             5%Q Scenario.route_A Scenario.bus2).
  - apply (proj2 (proj2 (proj2 (get_edge_weight_spec Scenario.two_legs 0 1 "bus")))).
    reflexivity.
Defined.

(** ** The bus catalogue *)

(** X19.  The bus generator builds a bus exactly for the types found in all
    five tables (a [KeyError] otherwise).  The bus has the type as its name
    and the figures of the tables, its annual maintenance cost being its
    procurement price (both are read from the price table); and two buses
    generated for one type are equal exactly when their identities are. *)
Theorem bus_generator_spec
    (emissions_data : pydict string Q) (prices_data : pydict string Z)
    (capacity_data : pydict string Z) (avg_mph_data : pydict string Q)
    (discomfort_level_data : pydict string Z) (bus_type : string) :
  let generate :=
    bus_generator emissions_data prices_data capacity_data avg_mph_data
                  discomfort_level_data bus_type in
  (forall uuid,
     is_ok (generate uuid)
     = dict_contains String.eqb emissions_data bus_type
       && dict_contains String.eqb capacity_data bus_type
       && dict_contains String.eqb prices_data bus_type
       && dict_contains String.eqb avg_mph_data bus_type
       && dict_contains String.eqb discomfort_level_data bus_type) /\
  (forall uuid, generate uuid = Raise KeyError \/ exists bus, generate uuid = Ok bus) /\
  (forall uuid bus, generate uuid = Ok bus ->
     Bus.name bus = bus_type /\ Bus._uuid bus = uuid /\
     dict_get String.eqb emissions_data bus_type = Some (Bus.per_mile_emissions bus) /\
     dict_get String.eqb capacity_data bus_type = Some (Bus.capacity bus) /\
     dict_get String.eqb prices_data bus_type = Some (Bus.procurement_price bus) /\
     dict_get String.eqb avg_mph_data bus_type = Some (Bus.avg_speed bus) /\
     dict_get String.eqb discomfort_level_data bus_type
     = Some (Bus.discomfort_level bus) /\
     Bus.annual_maintenance_cost bus = Bus.procurement_price bus) /\
  (forall uuid uuid' bus bus',
     generate uuid = Ok bus -> generate uuid' = Ok bus' ->
     Bus.eqb bus bus' = String.eqb uuid uuid').
Proof.
  simpl. unfold bus_generator, dict_getitem, dict_contains.
  destruct (dict_get String.eqb emissions_data bus_type) as [e|];
    destruct (dict_get String.eqb capacity_data bus_type) as [c|];
    destruct (dict_get String.eqb prices_data bus_type) as [p|];
    destruct (dict_get String.eqb avg_mph_data bus_type) as [s|];
    destruct (dict_get String.eqb discomfort_level_data bus_type) as [d|];
    simpl;
    (split; [reflexivity|]);
    (split; [intros x; eauto|]);
    (split; [intros x bus H; inversion H; simpl; repeat split|]);
    intros x x' bus bus' H H'; inversion H; inversion H'.
  unfold Bus.eqb. simpl.
  now rewrite String.eqb_refl, !Z.eqb_refl, !Qeq_bool_refl.
Qed.

Lemma bus_generator_spec_witness :
  exists bus bus',
    bus_generator Scenario.emissions_table Scenario.prices_table Scenario.capacity_table
      Scenario.avg_mph_table Scenario.discomfort_table "Articulated" "id-1" = Ok bus /\
    bus_generator Scenario.emissions_table Scenario.prices_table Scenario.capacity_table
      Scenario.avg_mph_table Scenario.discomfort_table "Articulated" "id-2" = Ok bus' /\
    Bus.annual_maintenance_cost bus = 750000 /\
    Bus.eqb bus bus' = false.
Proof.
  eexists. eexists.
  split; [reflexivity|]. split; [reflexivity|]. split; [reflexivity|].
  apply (proj2 (proj2 (proj2 (bus_generator_spec Scenario.emissions_table
           Scenario.prices_table Scenario.capacity_table Scenario.avg_mph_table
           Scenario.discomfort_table "Articulated"))) "id-1"%string "id-2"%string);
    reflexivity.
Defined.

(** ** The bus-edge loops of the service graph *)

Section BusEdgeLoops.
Import ServiceNetworkDesign.

(** A loop whose body returns in every round returns. *)
Lemma for_each_returns {A S : Type} (xs : list A) (body : S -> A -> result S) :
  (forall s x, In x xs -> exists s', body s x = Ok s') ->
  forall s, exists s', for_each xs body s = Ok s'.
Proof.
  induction xs as [|x xs IH]; intros Hbody s; simpl.
  - eauto.
  - destruct (Hbody s x (or_introl eq_refl)) as [s1 ->]. simpl.
    apply IH. intros s0 x0 Hx0. apply Hbody. now right.
Qed.

Lemma has_edge_getitem (g : Graph.t) (u v : Z) :
  Graph.has_edge g u v = true ->
  exists e, In e g /\ Graph.getitem g u v = Ok (snd e).
Proof.
  unfold Graph.has_edge, Graph.getitem.
  induction g as [|e g IH]; simpl; [discriminate|].
  destruct (Graph.joins u v e) eqn:E; simpl.
  - intros _. exists e. destruct e as [[a b] d]. auto.
  - intros H. destruct (IH H) as (e' & Hin & He'). exists e'. auto.
Qed.

Lemma add_bus_edge_returns (self : t) (route : Route.t) (bus : Bus.t)
    (g : MultiDiGraph.t) (uv : Z * Z) :
  Graph.has_edge (street_network_graph self) (fst uv) (snd uv) = true ->
  Forall (fun e => dict_contains String.eqb (snd e) "weight"%string = true)
         (street_network_graph self) ->
  forallb numeric_weight (street_network_graph self) = true ->
  Qeq_bool (Bus.avg_speed bus) 0 = false ->
  exists g', add_bus_edge self route bus g uv = Ok g'.
Proof.
  intros He Hw Hn Hs. destruct uv as [u v]. simpl in He.
  destruct (has_edge_getitem _ _ _ He) as (e & Hin & Hget).
  unfold add_bus_edge. rewrite Hget. simpl.
  rewrite Forall_forall in Hw. specialize (Hw e Hin).
  rewrite forallb_forall in Hn. specialize (Hn e Hin).
  unfold numeric_weight in Hn. unfold attrs_getitem, dict_getitem.
  change (match dict_get String.eqb (snd e) "weight"%string with
          | Some _ => true
          | None => false
          end = true) in Hw.
  destruct (dict_get String.eqb (snd e) "weight"%string) as [[q|s]|];
    simpl in Hw, Hn; try discriminate.
  simpl. unfold truediv. rewrite Hs. simpl. eexists. reflexivity.
Qed.
End BusEdgeLoops.

(** X20.  On a design that its constructor accepts, whose street weights
    are numbers and whose buses have a speed other than zero, and with an
    assignment that has a flag and a route entry for every bus of the fleet,
    the bus-edge loops return, and they add after the edges the graph had
    exactly one service edge for every route, every bus serving it and every
    consecutive node pair of the route, in that order. *)
Theorem bus_edge_loops_add_service_legs
    (self : ServiceNetworkDesign.t) (a : FleetAssignment.t) (g : MultiDiGraph.t) :
  ServiceNetworkDesign.__post_init__ self = Ok tt ->
  forallb numeric_weight (ServiceNetworkDesign.street_network_graph self) = true ->
  forallb (fun bus =>
             negb (Qeq_bool (Bus.avg_speed bus) 0)
             && dict_contains Bus.eqb (FleetAssignment.assigned_buses a) bus
             && dict_contains Bus.eqb (FleetAssignment.assigned_bus_routes a) bus)
          (FleetComposition.fleet (ServiceNetworkDesign.fleet_composition self))
  = true ->
  exists new,
    ServiceNetworkDesign.add_bus_edges self a g = Ok (g ++ new) /\
    Forall2 (is_service_edge (ServiceNetworkDesign.street_network_graph self))
            (service_legs (ServiceNetworkDesign.routes self)
               (FleetComposition.fleet (ServiceNetworkDesign.fleet_composition self)) a)
            new.
Proof.
  intros Hok Hnum Hfleet.
  apply design_accepted_iff in Hok.
  destruct Hok as (_ & _ & _ & _ & _ & Hroutes & Hweights).
  assert (Hret : exists g', ServiceNetworkDesign.add_bus_edges self a g = Ok g').
  { unfold ServiceNetworkDesign.add_bus_edges.
    apply for_each_returns. intros g1 route Hroute.
    apply for_each_returns. intros g2 bus Hbus.
    rewrite forallb_forall in Hfleet. specialize (Hfleet bus Hbus).
    rewrite !andb_true_iff, negb_true_iff in Hfleet.
    destruct Hfleet as [[Hs Hflag] Hr].
    unfold dict_contains in Hflag, Hr. unfold dict_getitem.
    destruct (dict_get Bus.eqb (FleetAssignment.assigned_buses a) bus) as [[|]|];
      try discriminate; simpl; eauto.
    destruct (dict_get Bus.eqb (FleetAssignment.assigned_bus_routes a) bus) as [r|];
      try discriminate; simpl.
    destruct (ServiceNetworkDesign.is_route r route); eauto.
    apply for_each_returns. intros g3 uv Huv.
    apply add_bus_edge_returns; auto.
    rewrite Forall_forall in Hroutes. specialize (Hroutes route Hroute).
    rewrite Forall_forall in Hroutes. now apply Hroutes. }
  destruct Hret as [g' Hg'].
  destruct (add_bus_edges_spec self a g g' Hg') as (new & -> & Hnew).
  exists new. auto.
Qed.

Lemma bus_edge_loops_add_service_legs_witness :
  ServiceNetworkDesign.__post_init__ Scenario.design = Ok tt /\
  exists new,
    ServiceNetworkDesign.add_bus_edges Scenario.design Scenario.all_on_route_1
      Scenario.two_legs
    = Ok (Scenario.two_legs ++ new) /\
    Forall2 (is_service_edge (ServiceNetworkDesign.street_network_graph Scenario.design))
            (service_legs (ServiceNetworkDesign.routes Scenario.design)
               (FleetComposition.fleet
                  (ServiceNetworkDesign.fleet_composition Scenario.design))
               Scenario.all_on_route_1)
            new.
Proof.
  split; [reflexivity|].
  apply (bus_edge_loops_add_service_legs Scenario.design Scenario.all_on_route_1
           Scenario.two_legs);
    reflexivity.
Defined.

(** ** The street grid *)

Section StreetGrid.

Lemma cell_eqb_eq (a b : Z * Z) : cell_eqb a b = true <-> a = b.
Proof.
  destruct a as [i j], b as [x y]. unfold cell_eqb. simpl.
  rewrite andb_true_iff, !Z.eqb_eq. split.
  - now intros [-> ->].
  - intros H. inversion H. auto.
Qed.

Lemma cell_eqb_sym (a b : Z * Z) : cell_eqb a b = true -> cell_eqb b a = true.
Proof. rewrite !cell_eqb_eq. auto. Qed.

Lemma cell_eqb_trans (a b c : Z * Z) :
  cell_eqb a b = true -> cell_eqb b c = true -> cell_eqb a c = true.
Proof. rewrite !cell_eqb_eq. congruence. Qed.

Lemma dict_get_set_cell (d : pydict (Z * Z) Z) (k k' : Z * Z) (v : Z) :
  dict_get cell_eqb (dict_set cell_eqb d k v) k'
  = if cell_eqb k k' then Some v else dict_get cell_eqb d k'.
Proof.
  destruct (cell_eqb k k') eqn:E.
  - now apply (dict_get_set_eq cell_eqb cell_eqb_sym cell_eqb_trans).
  - now apply (dict_get_set_neq cell_eqb cell_eqb_sym cell_eqb_trans).
Qed.

Lemma In_py_range (n i : Z) : In i (py_range n) <-> 0 <= i < n.
Proof.
  unfold py_range. rewrite in_map_iff. split.
  - intros (k & <- & Hk). apply in_seq in Hk. lia.
  - intros H. exists (Z.to_nat i). split; [lia|]. apply in_seq. lia.
Qed.

Lemma In_grid_cells (m n i j : Z) :
  In (i, j) (grid_cells m n) <-> 0 <= i < m /\ 0 <= j < n.
Proof.
  unfold grid_cells. rewrite in_flat_map. split.
  - intros (i' & Hi & Hj). apply in_map_iff in Hj. destruct Hj as (j' & E & Hj).
    inversion E; subst. now rewrite !In_py_range in *.
  - intros [Hi Hj]. exists i. split; [now apply In_py_range|].
    apply in_map_iff. exists j. split; auto. now apply In_py_range.
Qed.

Ltac split_tests :=
  repeat match goal with
         | |- context [Z.eqb ?a ?b] => destruct (Z.eqb_spec a b)
         | |- context [Z.leb ?a ?b] => destruct (Z.leb_spec a b)
         | |- context [Z.ltb ?a ?b] => destruct (Z.ltb_spec a b)
         end;
  simpl; try reflexivity; try (f_equal; nia); try lia.

(** The cells of one row are numbered from the counter on. *)
Lemma number_row (i : Z) (len : nat) :
  forall (s : nat) (c : Z) (d : pydict (Z * Z) Z),
    let st := fold_left number_cell
                (map (fun j => (i, j)) (map Z.of_nat (seq s len))) (c, d) in
    fst st = c + Z.of_nat len /\
    forall x y,
      dict_get cell_eqb (snd st) (x, y)
      = if (x =? i) && (Z.of_nat s <=? y) && (y <? Z.of_nat (s + len))
        then Some (c + (y - Z.of_nat s))
        else dict_get cell_eqb d (x, y).
Proof.
  induction len as [|len IH]; intros s c d; simpl.
  - split; [lia|]. intros x y. split_tests.
  - destruct (IH (S s) (c + 1) (dict_set cell_eqb d (i, Z.of_nat s) c)) as [Hc Hd].
    unfold number_cell at 2. simpl. split; [lia|].
    intros x y. rewrite Hd, dict_get_set_cell. unfold cell_eqb. simpl.
    split_tests.
Qed.

(** The rows are numbered one after the other. *)
Lemma number_rows (n : Z) (rows : nat) :
  forall (s : nat) (c : Z) (d : pydict (Z * Z) Z),
    let st := fold_left number_cell
                (flat_map (fun i => map (fun j => (i, j)) (py_range n))
                          (map Z.of_nat (seq s rows))) (c, d) in
    fst st = c + Z.of_nat rows * Z.max 0 n /\
    forall x y,
      dict_get cell_eqb (snd st) (x, y)
      = if (Z.of_nat s <=? x) && (x <? Z.of_nat (s + rows)) && (0 <=? y) && (y <? n)
        then Some (c + (x - Z.of_nat s) * n + y)
        else dict_get cell_eqb d (x, y).
Proof.
  induction rows as [|rows IH]; intros s c d; cbn [seq map flat_map].
  - simpl. split; [lia|]. intros x y. split_tests.
  - rewrite fold_left_app.
    destruct (number_row (Z.of_nat s) (Z.to_nat n) 0 c d) as [Hc1 Hd1].
    fold (py_range n) in Hc1, Hd1.
    destruct (fold_left number_cell (map (fun j => (Z.of_nat s, j)) (py_range n)) (c, d))
      as [c1 d1].
    simpl in Hc1, Hd1.
    destruct (IH (S s) c1 d1) as [Hc Hd].
    split; [rewrite Hc, Hc1, Nat2Z.inj_succ, Z.mul_succ_l; lia|].
    intros x y. rewrite Hd, Hd1, Hc1. split_tests.
Qed.

Lemma node_mapping_lookup (m n x y : Z) :
  dict_get cell_eqb (node_mapping m n) (x, y)
  = if (0 <=? x) && (x <? m) && (0 <=? y) && (y <? n)
    then Some (x * n + y)
    else None.
Proof.
  unfold node_mapping, grid_cells, py_range at 2.
  destruct (number_rows n (Z.to_nat m) 0 0 []) as [_ Hd].
  rewrite Hd. simpl. split_tests.
Qed.

Lemma node_mapping_getitem (m n i j : Z) :
  0 <= i < m -> 0 <= j < n ->
  dict_getitem cell_eqb (node_mapping m n) (i, j) = Ok (i * n + j).
Proof.
  intros Hi Hj. unfold dict_getitem. rewrite node_mapping_lookup.
  split_tests.
Qed.

(** On a cell of the grid the loop body adds the edge to the cell above and
    the edge to the cell on the left, where there is one. *)
Lemma join_cell_in_grid (m n : Z) (g : Graph.t) (i j : Z) :
  0 <= i < m -> 0 <= j < n ->
  join_cell (node_mapping m n) g (i, j)
  = Ok (let g1 := if i >? 0
                  then Graph.add_edge g (i * n + j) ((i - 1) * n + j) unit_weight
                  else g in
        if j >? 0
        then Graph.add_edge g1 (i * n + j) (i * n + (j - 1)) unit_weight
        else g1).
Proof.
  intros Hi Hj. unfold join_cell.
  rewrite (node_mapping_getitem m n i j Hi Hj).
  destruct (Z.gtb_spec i 0) as [Hi0|Hi0], (Z.gtb_spec j 0) as [Hj0|Hj0]; simpl;
    rewrite ?(node_mapping_getitem m n (i - 1) j), ?(node_mapping_getitem m n i (j - 1));
    simpl; try reflexivity; lia.
Qed.

Lemma has_edge_add_edge_same (g : Graph.t) (u v : Z) (a : attrs) :
  Graph.has_edge (Graph.add_edge g u v a) u v = true.
Proof.
  unfold Graph.has_edge. induction g as [|[[x y] d] g IH]; simpl.
  - now rewrite !Z.eqb_refl.
  - destruct ((x =? u) && (y =? v) || (x =? v) && (y =? u)) eqn:E; simpl.
    + now rewrite E.
    + now rewrite E, IH.
Qed.

Lemma has_edge_add_edge_mono (g : Graph.t) (u v : Z) (a : attrs) (x y : Z) :
  Graph.has_edge g x y = true -> Graph.has_edge (Graph.add_edge g u v a) x y = true.
Proof.
  unfold Graph.has_edge. induction g as [|[[p q] d] g IH]; simpl; [discriminate|].
  destruct ((p =? u) && (q =? v) || (p =? v) && (q =? u)); simpl; auto.
  rewrite !orb_true_iff. intros [H|H]; auto.
Qed.

Lemma add_edge_Forall (P : Z * Z * attrs -> Prop) (g : Graph.t) (u v : Z) (a : attrs) :
  Forall P g ->
  P (u, v, attrs_update [] a) ->
  (forall e, P e -> P (fst (fst e), snd (fst e), attrs_update (snd e) a)) ->
  Forall P (Graph.add_edge g u v a).
Proof.
  intros Hg Hnew Hupd. induction Hg as [|e g He Hg IH]; simpl.
  - auto.
  - destruct (Graph.joins u v e); auto.
Qed.

(** A loop whose body returns and keeps an invariant returns and keeps it. *)
Lemma for_each_invariant {A S : Type} (P : S -> Prop) (xs : list A)
    (body : S -> A -> result S) :
  (forall s x, In x xs -> P s -> exists s', body s x = Ok s' /\ P s') ->
  forall s, P s -> exists s', for_each xs body s = Ok s' /\ P s'.
Proof.
  induction xs as [|x xs IH]; intros Hbody s Hs; simpl.
  - eauto.
  - destruct (Hbody s x (or_introl eq_refl) Hs) as (s1 & -> & Hs1). simpl.
    apply IH; auto. intros s0 x0 Hx0. apply Hbody. now right.
Qed.

(** What every round establishes for its own item, and no round undoes,
    holds for every item after the loop. *)
Lemma for_each_establishes {A S : Type} (Q : A -> S -> Prop) (xs : list A)
    (body : S -> A -> result S) :
  (forall s x, In x xs ->
               exists s', body s x = Ok s' /\ Q x s' /\ forall y, Q y s -> Q y s') ->
  forall s, exists s', for_each xs body s = Ok s' /\
                       (forall y, Q y s -> Q y s') /\
                       forall x, In x xs -> Q x s'.
Proof.
  induction xs as [|x xs IH]; intros Hbody s; simpl.
  - exists s. repeat split; auto. intros x [].
  - destruct (Hbody s x (or_introl eq_refl)) as (s1 & -> & Hx & Hkeep). simpl.
    destruct (IH (fun s0 x0 Hx0 => Hbody s0 x0 (or_intror Hx0)) s1)
      as (s' & Hs' & Hkeep' & Hall).
    exists s'. repeat split; auto.
    intros x0 [<-|Hx0]; auto.
Qed.

Lemma has_edge_with_length (g : Graph.t) (u v : Z) :
  Graph.has_edge (with_length g) u v = Graph.has_edge g u v.
Proof.
  unfold Graph.has_edge, with_length.
  induction g as [|[[x y] d] g IH]; simpl; auto. now rewrite IH.
Qed.

(** Assignments keep the keys of a dictionary distinct. *)
Lemma dict_set_keys_in (d : pydict (Z * Z) Z) (k : Z * Z) (v : Z) (x : Z * Z) :
  In x (map fst (dict_set cell_eqb d k v)) -> x = k \/ In x (map fst d).
Proof.
  induction d as [|[k0 v0] d IH]; simpl.
  - intros [<-|[]]. now left.
  - destruct (cell_eqb k0 k); simpl; [now right|].
    intros [<-|H]; [now right; left|].
    destruct (IH H); auto.
Qed.

Lemma dict_set_NoDup (d : pydict (Z * Z) Z) (k : Z * Z) (v : Z) :
  NoDup (map fst d) -> NoDup (map fst (dict_set cell_eqb d k v)).
Proof.
  induction d as [|[k0 v0] d IH]; simpl; intros Hd.
  - constructor; [intros []|constructor].
  - destruct (cell_eqb k0 k) eqn:E; simpl; [exact Hd|].
    inversion Hd as [|? ? Hk0 Hd']; subst. constructor; auto.
    intros Hin. apply dict_set_keys_in in Hin. destruct Hin as [->|Hin]; auto.
    assert (cell_eqb k k = true) by now apply cell_eqb_eq. congruence.
Qed.

Lemma number_cells_NoDup (cells : list (Z * Z)) :
  forall st, NoDup (map fst (snd st)) ->
             NoDup (map fst (snd (fold_left number_cell cells st))).
Proof.
  induction cells as [|ij cells IH]; intros st Hst; simpl; auto.
  apply IH. simpl. now apply dict_set_NoDup.
Qed.

Lemma dict_get_of_item (d : pydict (Z * Z) Z) (k : Z * Z) (v : Z) :
  NoDup (map fst d) -> In (k, v) d -> dict_get cell_eqb d k = Some v.
Proof.
  induction d as [|[k0 v0] d IH]; simpl; intros Hd; [intros []|].
  inversion Hd as [|? ? Hk0 Hd']; subst.
  intros [E|Hin].
  - inversion E; subst.
    assert (H : cell_eqb k k = true) by now apply cell_eqb_eq. now rewrite H.
  - destruct (cell_eqb k0 k) eqn:E; [|auto].
    apply cell_eqb_eq in E. subst k0. exfalso. apply Hk0.
    apply in_map_iff. now exists (k, v).
Qed.

Lemma dict_get_item (d : pydict (Z * Z) Z) (k : Z * Z) (v : Z) :
  dict_get cell_eqb d k = Some v -> In (k, v) d.
Proof.
  induction d as [|[k0 v0] d IH]; simpl; [discriminate|].
  destruct (cell_eqb k0 k) eqn:E; auto.
  apply cell_eqb_eq in E. subst k0. intros H. inversion H. now left.
Qed.

(** The items of the numbering: the cells of the grid with their numbers. *)
Lemma node_mapping_items (m n : Z) (item : Z * Z * Z) :
  In item (node_mapping m n) <->
  0 <= fst (fst item) < m /\ 0 <= snd (fst item) < n /\
  snd item = fst (fst item) * n + snd (fst item).
Proof.
  destruct item as [[x y] v]. simpl. split.
  - intros Hin. apply dict_get_of_item in Hin.
    + rewrite node_mapping_lookup in Hin. revert Hin.
      destruct (Z.leb_spec 0 x), (Z.ltb_spec x m), (Z.leb_spec 0 y), (Z.ltb_spec y n);
        simpl; try discriminate.
      intros Hv. inversion Hv. lia.
    + unfold node_mapping. apply number_cells_NoDup. constructor.
  - intros (Hx & Hy & ->). apply dict_get_item. rewrite node_mapping_lookup.
    split_tests.
Qed.

(** A comprehension: the value under a key is the one every item of that
    key gives, when there is such an item. *)
Lemma comprehension_lookup {A V : Type} (key : A -> Z) (value : A -> V)
    (items : list A) (k : Z) (w : V) :
  (forall item, In item items -> key item = k -> value item = w) ->
  forall d,
    dict_get Z.eqb d k = Some w \/ (exists item, In item items /\ key item = k) ->
    dict_get Z.eqb (fold_left (fun d item => dict_set Z.eqb d (key item) (value item))
                              items d) k
    = Some w.
Proof.
  assert (Hsym : forall a b, (a =? b) = true -> (b =? a) = true)
    by (intros a b; rewrite !Z.eqb_eq; auto).
  assert (Htrans : forall a b c, (a =? b) = true -> (b =? c) = true -> (a =? c) = true)
    by (intros a b c; rewrite !Z.eqb_eq; congruence).
  induction items as [|x items IH]; intros Hval d Hd; simpl.
  - destruct Hd as [Hd|(item & [] & _)]. exact Hd.
  - apply IH; [intros item Hin; apply Hval; now right|].
    destruct (Z.eqb_spec (key x) k) as [E|E].
    + left. rewrite (dict_get_set_eq Z.eqb Hsym Htrans);
        [|now apply Z.eqb_eq].
      f_equal. apply Hval; auto. now left.
    + rewrite (dict_get_set_neq Z.eqb Hsym Htrans); [|now apply Z.eqb_neq].
      destruct Hd as [Hd|(item & [<-|Hin] & Hk)]; auto; [congruence|].
      right. now exists item.
Qed.

Lemma grid_pos_lookup (m n i j : Z) :
  0 <= i < m -> 0 <= j < n ->
  dict_get Z.eqb (grid_pos (node_mapping m n)) (i * n + j) = Some (j, - i).
Proof.
  intros Hi Hj. unfold grid_pos.
  apply (comprehension_lookup snd (fun item => (snd (fst item), - fst (fst item)))).
  - intros item Hin Hk. apply node_mapping_items in Hin.
    destruct Hin as (Hx & Hy & Hv). rewrite Hv in Hk.
    assert (fst (fst item) = i) by nia.
    assert (snd (fst item) = j) by nia.
    congruence.
  - right. exists (i, j, i * n + j). split; [|reflexivity].
    apply node_mapping_items. simpl. auto.
Qed.
End StreetGrid.

(** X21.  [create_street_grid] returns for every [m] and [n].  Every edge
    of the graph it returns carries weight 1 and length 1 and nothing else,
    and joins the node of a cell of the grid, the cells being numbered row by
    row from 0, to the node of the cell above it or of the cell on its left
    (so a grid without cells has no edge); every cell of the grid is joined
    to the cell above it and to the cell on its left, where there is one; and
    the node of the cell [(i, j)] is placed at [(j, -i)]. *)
Theorem create_street_grid_spec (m n : Z) :
  exists g pos,
    create_street_grid m n = Ok (g, pos) /\
    Forall (is_grid_edge m n [("weight"%string, VNum 1); ("length"%string, VNum 1)]) g /\
    (forall i j, 0 < i < m -> 0 <= j < n ->
                 Graph.has_edge g (i * n + j) ((i - 1) * n + j) = true) /\
    (forall i j, 0 <= i < m -> 0 < j < n ->
                 Graph.has_edge g (i * n + j) (i * n + (j - 1)) = true) /\
    (forall i j, 0 <= i < m -> 0 <= j < n ->
                 dict_get Z.eqb pos (i * n + j) = Some (j, - i)).
Proof.
  unfold create_street_grid.
  destruct (for_each_invariant (Forall (is_grid_edge m n unit_weight))
              (grid_cells m n) (join_cell (node_mapping m n))) with (s := @nil (Z * Z * attrs))
    as (g & Hg & Hedges).
  { intros g [i j] Hin Hg. apply In_grid_cells in Hin. destruct Hin as [Hi Hj].
    rewrite (join_cell_in_grid m n g i j Hi Hj). eexists. split; [reflexivity|].
    assert (Hupd : forall e, is_grid_edge m n unit_weight e ->
                     is_grid_edge m n unit_weight
                       (fst (fst e), snd (fst e), attrs_update (snd e) unit_weight)).
    { intros e [He Hcell]. split; [simpl; rewrite He; reflexivity | exact Hcell]. }
    simpl.
    destruct (Z.gtb_spec i 0) as [Hi0|Hi0], (Z.gtb_spec j 0) as [Hj0|Hj0]; auto;
      repeat (apply add_edge_Forall; auto);
      (split; [reflexivity|]); exists i, j; simpl; repeat split; auto; try lia. }
  { constructor. }
  destruct (for_each_establishes
              (fun ij g =>
                 (0 < fst ij ->
                  Graph.has_edge g (fst ij * n + snd ij) ((fst ij - 1) * n + snd ij) = true) /\
                 (0 < snd ij ->
                  Graph.has_edge g (fst ij * n + snd ij) (fst ij * n + (snd ij - 1)) = true))
              (grid_cells m n) (join_cell (node_mapping m n))) with (s := @nil (Z * Z * attrs))
    as (g' & Hg' & _ & Hjoined).
  { intros g0 [i j] Hin. apply In_grid_cells in Hin. destruct Hin as [Hi Hj].
    rewrite (join_cell_in_grid m n g0 i j Hi Hj). eexists. split; [reflexivity|].
    simpl. split.
    - destruct (Z.gtb_spec i 0) as [Hi0|Hi0], (Z.gtb_spec j 0) as [Hj0|Hj0];
        split; intros; try lia;
        auto using has_edge_add_edge_same, has_edge_add_edge_mono.
    - intros [x y] [Hx Hy]. simpl in *.
      destruct (Z.gtb_spec i 0) as [Hi0|Hi0], (Z.gtb_spec j 0) as [Hj0|Hj0];
        split; intros; auto using has_edge_add_edge_mono. }
  pose proof (eq_trans (eq_sym Hg) Hg') as E. inversion E; subst g'.
  exists (with_length g), (grid_pos (node_mapping m n)).
  split; [|split; [|split; [|split]]].
  - exact (f_equal (fun r => bind r (fun g => Ok (with_length g,
                                                 grid_pos (node_mapping m n)))) Hg).
  - unfold with_length. rewrite Forall_map.
    revert Hedges. apply Forall_impl. intros e [He Hcell].
    split; [|exact Hcell].
    exact (f_equal (fun d => dict_set String.eqb d "length"%string (VNum 1)) He).
  - intros i j Hi Hj. rewrite has_edge_with_length.
    apply (Hjoined (i, j)); [apply In_grid_cells|simpl]; lia.
  - intros i j Hi Hj. rewrite has_edge_with_length.
    apply (Hjoined (i, j)); [apply In_grid_cells|simpl]; lia.
  - intros i j Hi Hj. now apply grid_pos_lookup.
Qed.

Lemma create_street_grid_spec_witness :
  exists g pos,
    create_street_grid 2 3 = Ok (g, pos) /\
    List.length g = 7%nat /\
    Graph.has_edge g 4 1 = true /\ Graph.has_edge g 4 3 = true /\
    dict_get Z.eqb pos 4 = Some (1, -1).
Proof.
  destruct (create_street_grid_spec 2 3) as (g & pos & Hg & _ & Hup & Hleft & Hpos).
  exists g, pos. split; [exact Hg|].
  split; [vm_compute in Hg; inversion Hg; reflexivity|].
  split; [apply (Hup 1 1); lia|].
  split; [apply (Hleft 1 1); lia | apply (Hpos 1 1); lia].
Defined.
